(** * JiraScraper: the resumable paginated-fetch pipeline

    A shallow embedding of [src/scraper/JiraScraper.ts] together with the
    parts of its runtime the scraper's behaviour depends on:

    - [Json]        the [JSON.stringify] / [JSON.parse] pair used for the
                    checkpoint files;
    - [AxiosRetry]  the retry predicates, the delay function with its
                    [Retry-After] rule, and the interceptor with its
                    timeout budget, of the axios-retry dependency
                    (package.json: "^4.0.0");
    - [PLimit]      the concurrency gate ([p-limit]) under [Promise.all];
    - [JiraScraper] the class itself: statistics, checkpoints, the fetch
                    with its retry loop, [scrapeProject], [scrapeProjects].

    JavaScript numbers that count records or index pages are integers
    ([Z]); strings are sequences of 8-bit code units. *)

From Stdlib Require Import ZArith QArith Lqa Ascii String List Lia.
From Stdlib Require Import DecimalString DecimalZ.
From stdpp Require Import base option list sorting gmap strings.

Local Open Scope Z_scope.
Set Warnings "-register-all".

(* ===================================================================== *)
(** * JSON text, as written and read by the checkpoint store              *)
(* ===================================================================== *)

Module Json.

(** A parsed JSON value.  Objects keep their members in insertion order,
    as JavaScript objects do for string keys. *)
Inductive t : Type :=
| JNull
| JBool (b : bool)
| JNumber (n : Z)
| JString (s : string)
| JArray (items : list t)
| JObject (members : list (string * t)).

(** ** Writing *)

Definition hex_digit (n : N) : ascii :=
  if (n <? 10)%N then ascii_of_N (48 + n) else ascii_of_N (87 + n).

Definition dquote : ascii := Eval cbv in ascii_of_N 34.
Definition backslash : ascii := Eval cbv in ascii_of_N 92.
Definition linefeed : ascii := Eval cbv in ascii_of_N 10.

(** [QuoteJSONString]'s treatment of one code unit (ECMA-262). *)
Definition escape_char (a : ascii) : string :=
  let n := N_of_ascii a in
  if (n =? 34)%N then String backslash (String dquote EmptyString)
  else if (n =? 92)%N then String backslash (String backslash EmptyString)
  else if (n =? 8)%N then String backslash (String "b" EmptyString)
  else if (n =? 9)%N then String backslash (String "t" EmptyString)
  else if (n =? 10)%N then String backslash (String "n" EmptyString)
  else if (n =? 12)%N then String backslash (String "f" EmptyString)
  else if (n =? 13)%N then String backslash (String "r" EmptyString)
  else if (n <? 32)%N then
    String backslash (String "u" (String "0" (String "0"
      (String (hex_digit (n / 16)) (String (hex_digit (n mod 16)) EmptyString)))))
  else String a EmptyString.

Fixpoint escape (s : string) : string :=
  match s with
  | EmptyString => EmptyString
  | String a s' => escape_char a +:+ escape s'
  end.

Definition quote (s : string) : string :=
  String dquote (escape s +:+ String dquote EmptyString).

Definition number_to_string (n : Z) : string :=
  NilZero.string_of_int (Z.to_int n).

Fixpoint spaces (n : nat) : string :=
  match n with
  | O => EmptyString
  | S n' => String " " (spaces n')
  end.

Definition newline : string := String linefeed EmptyString.

(** [JSON.stringify(value, null, gap)] where [gap] is a number of spaces;
    [indent] is the current indentation. *)
Fixpoint stringify_at (gap indent : nat) (j : t) : string :=
  match j with
  | JNull => "null"
  | JBool true => "true"
  | JBool false => "false"
  | JNumber n => number_to_string n
  | JString s => quote s
  | JArray [] => "[]"
  | JArray (x :: xs) =>
      let inner := (indent + gap)%nat in
      "[" +:+ newline +:+ spaces inner +:+ stringify_at gap inner x +:+
      (fix rest (l : list t) : string :=
         match l with
         | [] => EmptyString
         | y :: l' =>
             "," +:+ newline +:+ spaces inner +:+ stringify_at gap inner y +:+ rest l'
         end) xs +:+
      newline +:+ spaces indent +:+ "]"
  | JObject [] => "{}"
  | JObject ((k, v) :: ms) =>
      let inner := (indent + gap)%nat in
      "{" +:+ newline +:+ spaces inner +:+ quote k +:+ ": " +:+
      stringify_at gap inner v +:+
      (fix rest (l : list (string * t)) : string :=
         match l with
         | [] => EmptyString
         | (k', v') :: l' =>
             "," +:+ newline +:+ spaces inner +:+ quote k' +:+ ": " +:+
             stringify_at gap inner v' +:+ rest l'
         end) ms +:+
      newline +:+ spaces indent +:+ "}"
  end.

Definition stringify (gap : nat) (j : t) : string := stringify_at gap 0 j.

(** ** Reading *)

Definition is_ws (a : ascii) : bool :=
  let n := N_of_ascii a in
  ((n =? 32) || (n =? 10) || (n =? 13) || (n =? 9))%N.

Fixpoint skip_ws (s : string) : string :=
  match s with
  | String a s' => if is_ws a then skip_ws s' else s
  | EmptyString => s
  end.

Definition hex_value (a : ascii) : option N :=
  let n := N_of_ascii a in
  if ((48 <=? n) && (n <=? 57))%N then Some (n - 48)%N
  else if ((97 <=? n) && (n <=? 102))%N then Some (n - 87)%N
  else if ((65 <=? n) && (n <=? 70))%N then Some (n - 55)%N
  else None.

(** The character denoted by a two-character escape. *)
Definition simple_escape (e : ascii) : option ascii :=
  let n := N_of_ascii e in
  if (n =? 34)%N then Some dquote
  else if (n =? 92)%N then Some backslash
  else if (n =? 47)%N then Some "/"%char
  else if (n =? 98)%N then Some (ascii_of_N 8)
  else if (n =? 102)%N then Some (ascii_of_N 12)
  else if (n =? 110)%N then Some (ascii_of_N 10)
  else if (n =? 114)%N then Some (ascii_of_N 13)
  else if (n =? 116)%N then Some (ascii_of_N 9)
  else None.

(** The code unit written [\uXXXX]; units above 255 are outside the
    8-bit strings of this development. *)
Definition unicode_escape (h1 h2 h3 h4 : ascii) : option ascii :=
  match hex_value h1, hex_value h2, hex_value h3, hex_value h4 with
  | Some a, Some b, Some c, Some d =>
      if ((a =? 0) && (b =? 0))%N then Some (ascii_of_N (c * 16 + d)) else None
  | _, _, _, _ => None
  end.

(** The characters of a string literal after its opening quote: the
    decoded string and the text after the closing quote. *)
Fixpoint parse_chars (s : string) : option (string * string) :=
  match s with
  | EmptyString => None
  | String a r =>
      let n := N_of_ascii a in
      if (n =? 34)%N then Some (EmptyString, r)
      else if (n =? 92)%N then
        match r with
        | EmptyString => None
        | String e r1 =>
            match simple_escape e with
            | Some c =>
                match parse_chars r1 with
                | Some (t, rest) => Some (String c t, rest)
                | None => None
                end
            | None =>
                if (N_of_ascii e =? 117)%N then
                  match r1 with
                  | String h1 (String h2 (String h3 (String h4 r5))) =>
                      match unicode_escape h1 h2 h3 h4 with
                      | Some c =>
                          match parse_chars r5 with
                          | Some (t, rest) => Some (String c t, rest)
                          | None => None
                          end
                      | None => None
                      end
                  | _ => None
                  end
                else None
            end
        end
      else if (n <? 32)%N then None
      else
        match parse_chars r with
        | Some (t, rest) => Some (String a t, rest)
        | None => None
        end
  end.

Definition is_digit (a : ascii) : bool :=
  let n := N_of_ascii a in ((48 <=? n) && (n <=? 57))%N.

Fixpoint span_digits (s : string) : string * string :=
  match s with
  | String a r =>
      if is_digit a then
        let '(d, rest) := span_digits r in (String a d, rest)
      else (EmptyString, s)
  | EmptyString => (EmptyString, EmptyString)
  end.

(** A fraction or an exponent would follow. *)
Definition continues_number (s : string) : bool :=
  match s with
  | String a _ =>
      let n := N_of_ascii a in ((n =? 46) || (n =? 101) || (n =? 69))%N
  | EmptyString => false
  end.

(** The digits of an integer literal: no leading zero, no fraction and no
    exponent (numbers are integers here). *)
Definition parse_unsigned (s : string) : option (Decimal.uint * string) :=
  let '(ds, rest) := span_digits s in
  match ds with
  | EmptyString => None
  | String d ds' =>
      if ((N_of_ascii d =? 48)%N && negb (String.eqb ds' EmptyString))
         || continues_number rest
      then None
      else
        match NilZero.uint_of_string ds with
        | Some u => Some (u, rest)
        | None => None
        end
  end.

Definition parse_number (s : string) : option (Z * string) :=
  match s with
  | String a r =>
      if (N_of_ascii a =? 45)%N then
        match parse_unsigned r with
        | Some (u, rest) => Some (Z.of_int (Decimal.Neg u), rest)
        | None => None
        end
      else
        match parse_unsigned s with
        | Some (u, rest) => Some (Z.of_int (Decimal.Pos u), rest)
        | None => None
        end
  | EmptyString => None
  end.

(** The text after a number does not extend it. *)
Definition ends_number (s : string) : bool :=
  match s with
  | String a _ => negb (is_digit a) && negb (continues_number s)
  | EmptyString => true
  end.

(** [expect lit s]: [s] with the prefix [lit] removed. *)
Fixpoint expect (lit s : string) : option string :=
  match lit, s with
  | EmptyString, _ => Some s
  | String a lit', String b s' => if Ascii.eqb a b then expect lit' s' else None
  | String _ _, EmptyString => None
  end.

(** Later members with a key already present replace its value in place. *)
Fixpoint set_member (k : string) (v : t) (ms : list (string * t)) : list (string * t) :=
  match ms with
  | [] => [(k, v)]
  | (k', v') :: ms' =>
      if String.eqb k k' then (k', v) :: ms' else (k', v') :: set_member k v ms'
  end.

(** One value, given the readers for the members of an object and the
    elements of an array. *)
Definition value_step
  (members : string -> list (string * t) -> option (t * string))
  (elements : string -> list t -> option (t * string))
  (s : string) : option (t * string) :=
  match skip_ws s with
  | EmptyString => None
  | String a r =>
      let n := N_of_ascii a in
      if (n =? 123)%N then
        match skip_ws r with
        | String b r' =>
            if (N_of_ascii b =? 125)%N then Some (JObject [], r')
            else members (skip_ws r) []
        | EmptyString => None
        end
      else if (n =? 91)%N then
        match skip_ws r with
        | String b r' =>
            if (N_of_ascii b =? 93)%N then Some (JArray [], r')
            else elements (skip_ws r) []
        | EmptyString => None
        end
      else if (n =? 34)%N then
        match parse_chars r with
        | Some (str, rest) => Some (JString str, rest)
        | None => None
        end
      else if (n =? 116)%N then
        match expect "rue" r with Some rest => Some (JBool true, rest) | None => None end
      else if (n =? 102)%N then
        match expect "alse" r with Some rest => Some (JBool false, rest) | None => None end
      else if (n =? 110)%N then
        match expect "ull" r with Some rest => Some (JNull, rest) | None => None end
      else
        match parse_number (String a r) with
        | Some (z, rest) => Some (JNumber z, rest)
        | None => None
        end
  end.

(** The members of an object from a key on, the opening brace and the
    white space before the key consumed; [acc] holds the members read
    so far. *)
Definition members_step
  (value : string -> option (t * string))
  (members : string -> list (string * t) -> option (t * string))
  (s : string) (acc : list (string * t)) : option (t * string) :=
  match s with
  | String q r =>
      if (N_of_ascii q =? 34)%N then
        match parse_chars r with
        | Some (k, r1) =>
            match skip_ws r1 with
            | String c r2 =>
                if (N_of_ascii c =? 58)%N then
                  match value r2 with
                  | Some (v, r3) =>
                      let acc' := set_member k v acc in
                      match skip_ws r3 with
                      | String d r4 =>
                          if (N_of_ascii d =? 44)%N then members (skip_ws r4) acc'
                          else if (N_of_ascii d =? 125)%N then Some (JObject acc', r4)
                          else None
                      | EmptyString => None
                      end
                  | None => None
                  end
                else None
            | EmptyString => None
            end
        | None => None
        end
      else None
  | EmptyString => None
  end.

(** The elements of an array, the opening bracket consumed. *)
Definition elements_step
  (value : string -> option (t * string))
  (elements : string -> list t -> option (t * string))
  (s : string) (acc : list t) : option (t * string) :=
  match value s with
  | Some (v, r) =>
      let acc' := acc ++ [v] in
      match skip_ws r with
      | String d r' =>
          if (N_of_ascii d =? 44)%N then elements r' acc'
          else if (N_of_ascii d =? 93)%N then Some (JArray acc', r')
          else None
      | EmptyString => None
      end
  | None => None
  end.

(** The recursive-descent reader; [fuel] bounds the nesting of calls. *)
Fixpoint parse_value (fuel : nat) (s : string) : option (t * string) :=
  match fuel with
  | O => None
  | S fuel' => value_step (parse_members fuel') (parse_elements fuel') s
  end
with parse_members (fuel : nat) (s : string) (acc : list (string * t))
  : option (t * string) :=
  match fuel with
  | O => None
  | S fuel' => members_step (parse_value fuel') (parse_members fuel') s acc
  end
with parse_elements (fuel : nat) (s : string) (acc : list t)
  : option (t * string) :=
  match fuel with
  | O => None
  | S fuel' => elements_step (parse_value fuel') (parse_elements fuel') s acc
  end.

(** [JSON.parse]: one value, then only white space.  [None] stands for
    the [SyntaxError] it throws. *)
Definition parse (s : string) : option t :=
  match parse_value (S (2 * String.length s)) s with
  | Some (v, rest) =>
      match skip_ws rest with
      | EmptyString => Some v
      | String _ _ => None
      end
  | None => None
  end.

End Json.


(* ===================================================================== *)
(** * Computations with state, a trace of effects, and exceptions         *)
(* ===================================================================== *)

Module Effect.
Section Monad.
Context {St Ev Exn : Type}.

(** How a computation ends.  [OutOfFuel] marks a loop cut off by the
    bound given to it; it is no JavaScript outcome and no handler
    catches it. *)
Inductive Res (A : Type) : Type :=
| Ret (a : A)
| Throw (e : Exn)
| OutOfFuel.

Record Run (A : Type) : Type := MkRun {
  result : Res A;
  final : St;
  events : list Ev;
}.

Definition M (A : Type) : Type := St -> Run A.

Definition ret {A} (a : A) : M A := fun st => MkRun A (Ret A a) st [].

Definition throw {A} (e : Exn) : M A := fun st => MkRun A (Throw A e) st [].

Definition out_of_fuel {A} : M A := fun st => MkRun A (OutOfFuel A) st [].

Definition bind {A B} (m : M A) (k : A -> M B) : M B := fun st =>
  let r := m st in
  match result A r with
  | Ret _ a =>
      let r' := k a (final A r) in
      MkRun B (result B r') (final B r') (events A r ++ events B r')
  | Throw _ e => MkRun B (Throw B e) (final A r) (events A r)
  | OutOfFuel _ => MkRun B (OutOfFuel B) (final A r) (events A r)
  end.

(** [try { m } catch (e) { handler e }] *)
Definition try_catch {A} (m : M A) (handler : Exn -> M A) : M A := fun st =>
  let r := m st in
  match result A r with
  | Throw _ e =>
      let r' := handler e (final A r) in
      MkRun A (result A r') (final A r') (events A r ++ events A r')
  | _ => r
  end.

Definition get_state : M St := fun st => MkRun St (Ret St st) st [].

Definition put_state (st' : St) : M unit := fun _ => MkRun unit (Ret unit tt) st' [].

Definition emit (e : Ev) : M unit := fun st => MkRun unit (Ret unit tt) st [e].

End Monad.

Arguments Res : clear implicits.
Arguments Run : clear implicits.
Arguments M : clear implicits.
Arguments Ret {Exn A} a.
Arguments Throw {Exn A} e.
Arguments OutOfFuel {Exn A}.
Arguments MkRun {St Ev Exn A} result final events.
Arguments result {St Ev Exn A} r.
Arguments final {St Ev Exn A} r.
Arguments events {St Ev Exn A} r.

Declare Scope eff_scope.
Delimit Scope eff_scope with eff.
Notation "x <- m ;; k" := (bind m (fun x => k))
  (at level 100, m at next level, right associativity) : eff_scope.
Notation "m ;;; k" := (bind m (fun _ => k))
  (at level 100, right associativity) : eff_scope.

End Effect.

(* ===================================================================== *)
(** * axios: one request, resolved or rejected                            *)
(* ===================================================================== *)

Module Axios.

(** What the transport does with one request. *)
Inductive HttpOutcome (Body : Type) : Type :=
| Reply (status : Z) (data : Body)
| NetworkFailure (code message : string).
Arguments Reply {Body} status data.
Arguments NetworkFailure {Body} code message.

(** The fields of an [AxiosError] the retry logic reads. *)
Record AxiosError : Type := {
  code : option string;       (* error.code *)
  status : option Z;          (* error.response?.status *)
  method : option string;     (* error.config?.method *)
  message : string;           (* error.message *)
}.

(** The default [validateStatus]. *)
Definition validateStatus (s : Z) : bool := (200 <=? s) && (s <? 300).

(** [settle]: the error code of a response whose status is not valid. *)
Definition bad_status_code (s : Z) : option string :=
  if (400 <=? s) && (s <? 500) then Some "ERR_BAD_REQUEST"
  else if (500 <=? s) && (s <? 600) then Some "ERR_BAD_RESPONSE"
  else None.

(** The adapter's verdict on a GET: the body of a valid response, or the
    error the promise is rejected with.  A timeout is the network failure
    with code ECONNABORTED. *)
Definition settle {Body} (o : HttpOutcome Body) : AxiosError + Body :=
  match o with
  | Reply s data =>
      if validateStatus s then inr data
      else inl {| code := bad_status_code s;
                  status := Some s;
                  method := Some "get";
                  message := "Request failed with status code " +:+
                             Json.number_to_string s |}
  | NetworkFailure c msg =>
      inl {| code := Some c; status := None; method := Some "get"; message := msg |}
  end.

End Axios.

(* ===================================================================== *)
(** * axios-retry                                                         *)
(* ===================================================================== *)

(** The scraper hands its client to this dependency and uses two of its
    exports, [isNetworkOrIdempotentRequestError] and [exponentialDelay].
    The definitions follow the library (package.json: "^4.0.0"): its
    predicates on errors, its delay function, and the response
    interceptor that decides whether a rejected request is sent again. *)

Module AxiosRetry.
Import Axios Effect.

Definition string_in (s : string) (l : list string) : bool :=
  existsb (String.eqb s) l.

Definition CODE_EXCLUDE_LIST : list string := ["ERR_CANCELED"; "ECONNABORTED"].

Definition IDEMPOTENT_HTTP_METHODS : list string :=
  ["get"; "head"; "options"; "put"; "delete"].

Section Predicates.
(** [is-retry-allowed]'s verdict on an error code. *)
Variable isRetryAllowed : AxiosError -> bool.

(** No response, a code, and the code neither that of a cancelled nor
    that of a timed-out request. *)
Definition isNetworkError (error : AxiosError) : bool :=
  match status error with
  | Some _ => false
  | None =>
      match code error with
      | None => false
      | Some c => if string_in c CODE_EXCLUDE_LIST then false else isRetryAllowed error
      end
  end.

Definition isRetryableError (error : AxiosError) : bool :=
  negb (match code error with Some c => String.eqb c "ECONNABORTED" | None => false end)
  && match status error with
     | None => true
     | Some s => (500 <=? s) && (s <=? 599)
     end.

Definition isIdempotentRequestError (error : AxiosError) : bool :=
  match method error with
  | None => false
  | Some m => isRetryableError error && string_in m IDEMPOTENT_HTTP_METHODS
  end.

Definition isNetworkOrIdempotentRequestError (error : AxiosError) : bool :=
  isNetworkError error || isIdempotentRequestError error.

End Predicates.

(** [Math.max] of two numbers. *)
Definition max (a b : Q) : Q := if Qle_bool a b then b else a.

(** [retryAfter(error)], in milliseconds: the time the [Retry-After]
    header of the error's response asks for, never below 0.  [asked] is
    what the library reads from the header, [(Number(header) || 0) * 1000]
    or the time until the date the header names; it is 0 for an error
    without response or without the header. *)
Definition retryAfter (asked : Q) : Q := max 0 asked.

(** [exponentialDelay(retryNumber, error, delayFactor = 100)], in
    milliseconds; [asked] is what the [Retry-After] header of [error]
    asks for and [random] the value [Math.random()] returned. *)
Definition exponentialDelay (retryNumber : nat) (asked : Q) (random : Q) (delayFactor : Q)
  : Q :=
  let calculatedDelay := (inject_Z (2 ^ Z.of_nat retryNumber) * delayFactor)%Q in
  let delay := max calculatedDelay (retryAfter asked) in
  let randomSum := (delay * (2 # 10) * random)%Q in
  (delay + randomSum)%Q.

Definition defaultDelayFactor : Q := 100%Q.

Section Interceptor.
Context {St Ev Exn Resp : Type}.
Variable reject : AxiosError -> Exn.
(** The options given to [axiosRetry]. *)
Variable retryDelay : nat -> AxiosError -> M St Ev Exn Q.
Variable retryCondition : AxiosError -> M St Ev Exn bool.
Variable onRetry : nat -> AxiosError -> M St Ev Exn unit.
(** One request through the adapter, and the timer. *)
Variable send : M St Ev Exn (AxiosError + Resp).
Variable sleep : Q -> M St Ev Exn unit.
(** [Date.now() - currentState.lastRequestTime]: the time since the
    request that just failed was sent. *)
Variable lastRequestDuration : M St Ev Exn Q.

Local Open Scope eff_scope.

(** The request with the response interceptor installed: [budget] is
    [retries - retryCount] and [timeout] is [config.timeout], 0 standing
    for none.  With the budget used up the condition is not consulted
    ([retryCount < retries && retryCondition(error)]).  [handleRetry]
    counts the retry and computes its delay first; with a timeout set
    ([shouldResetTimeout] is off) it then takes the duration of the last
    request and the delay off the timeout, rejects with the error when
    nothing is left, and goes on with what is left; only then it calls
    [onRetry] and sets the timer. *)
Fixpoint request (budget retryCount : nat) (timeout : Q) : M St Ev Exn Resp :=
  outcome <- send ;;
  match outcome with
  | inr response => ret response
  | inl error =>
      match budget with
      | O => throw (reject error)
      | S budget' =>
          again <- retryCondition error ;;
          if again : bool then
            let retryCount' := S retryCount in
            delay <- retryDelay retryCount' error ;;
            if Qeq_bool timeout 0 then
              onRetry retryCount' error ;;;
              sleep delay ;;;
              request budget' retryCount' timeout
            else
              spent <- lastRequestDuration ;;
              let timeout' := (timeout - spent - delay)%Q in
              if Qle_bool timeout' 0 then throw (reject error)
              else
                onRetry retryCount' error ;;;
                sleep delay ;;;
                request budget' retryCount' timeout'
          else throw (reject error)
      end
  end.

End Interceptor.
End AxiosRetry.

(* ===================================================================== *)
(** * p-limit under Promise.all                                           *)
(* ===================================================================== *)

Module PLimit.
Section Gate.
Context {A B : Type}.

(** The limiter while a batch runs: tasks not yet started, tasks in
    flight, and the slots of the array [Promise.all] resolves with. *)
Record Gate : Type := {
  queue : list (nat * A);
  active : list (nat * A);
  results : list (option B);
}.

(** Start queued tasks, oldest first, while fewer than [concurrency] run. *)
Definition start_next (concurrency : nat) (g : Gate) : Gate :=
  let free := (concurrency - length (active g))%nat in
  {| queue := drop free (queue g);
     active := active g ++ take free (queue g);
     results := results g |}.

(** The [j]-th task in flight finishes; its value goes to its own slot. *)
Definition finish (f : A -> B) (j : nat) (g : Gate) : Gate :=
  match active g !! j with
  | Some (i, a) =>
      {| queue := queue g;
         active := delete j (active g);
         results := <[i := Some (f a)]> (results g) |}
  | None => g
  end.

(** [pick step] chooses which running task finishes next. *)
Fixpoint drain (f : A -> B) (concurrency : nat) (pick : nat -> nat)
  (rounds step : nat) (g : Gate) : Gate :=
  match rounds with
  | O => g
  | S rounds' =>
      let g1 := start_next concurrency g in
      match active g1 with
      | [] => g1
      | _ :: _ =>
          drain f concurrency pick rounds' (S step)
            (finish f (pick step `mod` length (active g1))%nat g1)
      end
  end.

Definition submit (tasks : list A) : Gate :=
  {| queue := imap (fun i a => (i, a)) tasks;
     active := [];
     results := replicate (length tasks) None |}.

(** [Promise.all(tasks.map(t => limit(() => f(t))))]: the values in the
    order of the tasks once every slot is filled; [None] if it never
    resolves. *)
Definition runBounded (concurrency : nat) (pick : nat -> nat)
  (f : A -> B) (tasks : list A) : option (list B) :=
  mapM id (results (drain f concurrency pick (length tasks) 0 (submit tasks))).

Definition pending (g : Gate) : list (nat * A) := active g ++ queue g.

(** While a batch runs, every task is still pending or has its value in
    its own slot. *)
Record gate_inv (f : A -> B) (tasks : list A) (g : Gate) : Prop := {
  inv_slots : length (results g) = length tasks;
  inv_pending : forall i a, (i, a) ∈ pending g -> tasks !! i = Some a;
  inv_done : forall i a, tasks !! i = Some a ->
               (i, a) ∈ pending g \/ results g !! i = Some (Some (f a));
}.

End Gate.
Arguments Gate : clear implicits.
End PLimit.

(* ===================================================================== *)
(** * src/scraper/JiraScraper.ts                                          *)
(* ===================================================================== *)

Module ScraperConfig.
Record t : Type := {
  jiraBaseUrl : string;
  projects : list string;
  maxConcurrent : nat;
  maxResults : Z;
  requestTimeout : Z;
  outputDir : string;
  checkpointDir : string;
  rateLimitDelay : Z;
}.

(** The defaults of the constructor. *)
Definition defaults : t := {|
  jiraBaseUrl := "https://issues.apache.org/jira";
  projects := ["HADOOP"; "KAFKA"; "SPARK"];
  maxConcurrent := 5;
  maxResults := 100;
  requestTimeout := 30000;
  outputDir := "./output";
  checkpointDir := "./checkpoints";
  rateLimitDelay := 1000;
|}.
End ScraperConfig.

Module Checkpoint.
Record t : Type := {
  project : string;
  lastProcessedIndex : Z;
  totalIssues : Z;
  completed : bool;
  timestamp : string;
}.

(** The object literal handed to [JSON.stringify]. *)
Definition to_json (c : t) : Json.t :=
  Json.JObject [
    ("project", Json.JString (project c));
    ("lastProcessedIndex", Json.JNumber (lastProcessedIndex c));
    ("totalIssues", Json.JNumber (totalIssues c));
    ("completed", Json.JBool (completed c));
    ("timestamp", Json.JString (timestamp c))
  ].

(** The text [saveCheckpoint] writes: [JSON.stringify(checkpoint, null, 2)]. *)
Definition text (c : t) : string := Json.stringify 2 (to_json c).

Fixpoint field (k : string) (ms : list (string * Json.t)) : option Json.t :=
  match ms with
  | [] => None
  | (k', v) :: ms' => if String.eqb k k' then Some v else field k ms'
  end.

(** The value [JSON.parse] returned, read at the type it is cast to.
    [None]: the value does not have the five fields at their types. *)
Definition of_json (j : Json.t) : option t :=
  match j with
  | Json.JObject ms =>
      match field "project" ms, field "lastProcessedIndex" ms,
            field "totalIssues" ms, field "completed" ms, field "timestamp" ms with
      | Some (Json.JString p), Some (Json.JNumber i), Some (Json.JNumber n),
        Some (Json.JBool b), Some (Json.JString ts) =>
          if (length ms =? 5)%nat then
            Some {| project := p; lastProcessedIndex := i; totalIssues := n;
                    completed := b; timestamp := ts |}
          else None
      | _, _, _, _, _ => None
      end
  | _ => None
  end.
End Checkpoint.

Module Stats.
Record t : Type := {
  totalIssues : Z;
  successfulScrapes : Z;
  failedScrapes : Z;
  retriedRequests : Z;
}.

Definition initial : t :=
  {| totalIssues := 0; successfulScrapes := 0; failedScrapes := 0; retriedRequests := 0 |}.
End Stats.

Module JiraScraper.
Import Effect Axios.

(** What can be thrown inside the scraper. *)
Inductive Exn : Type :=
| AxiosFailure (error : AxiosError)     (* a rejected request *)
| TypeError (msg : string)              (* reading a property of undefined *)
| SyntaxError (msg : string)            (* JSON.parse *)
| ForeignCheckpoint (path : string)     (* a checkpoint file holding JSON of another shape *)
| UnhandledError (project : string) (startAt : Z) (error : Exn).
    (* ERR_UNHANDLED_ERROR: emit('error', {error, project, startAt}) without a listener *)

Section Scraper.
Context {JiraIssue LLMTrainingData : Type}.

Record JiraApiResponse : Type := {
  startAt : Z;
  maxResults : Z;
  total : Z;
  issues : list JiraIssue;
}.

(** The effects a run has on the outside, in the order they happen. *)
Inductive Event : Type :=
| Starting (project : string)                          (* console.log: Starting scrape for project *)
| HttpGet (project : string) (startAt maxResults : Z)  (* GET /rest/api/2/search, one attempt *)
| EmitRetry (retryCount : nat) (error : string)        (* emit('retry', ...) *)
| Backoff (ms : Q)                                     (* the wait before a retry *)
| EmitFetchSuccess (project : string) (startAt : Z) (count : nat)
| EmitError (project : string) (startAt : Z) (error : Exn)
| AppendFile (path data : string)
| WriteFile (path data : string)
| Progress (project : string) (processed total : Z)    (* console.log: Processed n/total issues *)
| Pace (ms : Z)                                        (* this.delay(rateLimitDelay) *)
| EmitProjectError (project : string) (error : Exn)
| PrintStats (stats : Stats.t).

(** The scraper's fields that change, and the file system below the
    output and checkpoint directories.  [sent] counts the requests handed
    to the transport, [ticks] the readings of the clock. *)
Record State : Type := {
  files : gmap string string;
  stats : Stats.t;
  sent : nat;
  ticks : nat;
}.

(** Everything the scraper does not decide itself. *)
Record World : Type := {
  (** the reply to the [n]-th request of the run; a 2xx body that is no
      object with an [issues] array is [None] *)
  transport : nat -> string -> Z -> Z -> HttpOutcome (option JiraApiResponse);
  (** [Math.random()] for the delay after the [n]-th request *)
  random : nat -> Q;
  (** what the [Retry-After] header of the reply to the [n]-th request
      asks for, in milliseconds; 0 when there is no such header *)
  retry_after : nat -> Q;
  (** the time the [n]-th request took until it failed, in milliseconds *)
  duration : nat -> Q;
  (** is a listener attached for 'error'?  The entry point attaches one,
      the class itself does not. *)
  error_listener : bool;
  (** [new Date().toISOString()] at the [n]-th reading *)
  now : nat -> string;
  (** the order in which the transforms of the batch fetched by the
      [n]-th request finish *)
  completion : nat -> nat -> nat;
  (** the field mapping of [processIssue]; [None] where it throws *)
  transform : JiraIssue -> option LLMTrainingData;
  (** [JSON.stringify(data)] *)
  serialize : LLMTrainingData -> string;
  (** [is-retry-allowed] *)
  isRetryAllowed : AxiosError -> bool;
}.

Variable world : World.
Variable config : ScraperConfig.t.

Local Abbreviation Eff := (M State Event Exn).
Local Open Scope eff_scope.

Definition initial (fs : gmap string string) : State :=
  {| files := fs; stats := Stats.initial; sent := 0; ticks := 0 |}.

(** [path.join(dir, name)] for a directory and a file name without
    separators. *)
Definition path_join (dir name : string) : string := dir +:+ "/" +:+ name.

Definition checkpointFile (project : string) : string :=
  path_join (ScraperConfig.checkpointDir config) (project +:+ ".json").

Definition outputFileOf (projectKey : string) : string :=
  path_join (ScraperConfig.outputDir config) (projectKey +:+ ".jsonl").

(** ** Primitive effects *)

Definition modify_stats (f : Stats.t -> Stats.t) : Eff unit :=
  st <- get_state ;;
  put_state {| files := files st; stats := f (stats st); sent := sent st; ticks := ticks st |}.

Definition date_now : Eff string :=
  st <- get_state ;;
  put_state {| files := files st; stats := stats st; sent := sent st; ticks := S (ticks st) |} ;;;
  ret (now world (ticks st)).

(** [fs.writeFile] when it succeeds: the file holds exactly [data]
    afterwards.  A write the file system rejects (no space, no
    permission) is outside this model. *)
Definition writeFile (path data : string) : Eff unit :=
  st <- get_state ;;
  put_state {| files := <[path := data]> (files st); stats := stats st;
               sent := sent st; ticks := ticks st |} ;;;
  emit (WriteFile path data).

(** [fs.appendFile] when it succeeds: [data] goes after what the file
    holds, the file being created if it is not there.  An append the
    file system rejects is outside this model. *)
Definition appendFile (path data : string) : Eff unit :=
  st <- get_state ;;
  put_state {| files := <[path := default "" (files st !! path) +:+ data]> (files st);
               stats := stats st; sent := sent st; ticks := ticks st |} ;;;
  emit (AppendFile path data).

(** One attempt of [client.get('/rest/api/2/search', {params})]. *)
Definition send (projectKey : string) (startAt : Z)
  : Eff (AxiosError + option JiraApiResponse) :=
  st <- get_state ;;
  put_state {| files := files st; stats := stats st; sent := S (sent st); ticks := ticks st |} ;;;
  emit (HttpGet projectKey startAt (ScraperConfig.maxResults config)) ;;;
  ret (settle (transport world (sent st) projectKey startAt (ScraperConfig.maxResults config))).

(** ** The options given to axiosRetry (constructor) *)

Definition retries : nat := 5.

(** [retryDelay: axiosRetry.exponentialDelay], called with the number
    of the retry and the error of the request just made, which is
    request [sent - 1]; the world tells what the headers of its response
    ask for. *)
Definition retryDelay (retryNumber : nat) (_ : AxiosError) : Eff Q :=
  st <- get_state ;;
  ret (AxiosRetry.exponentialDelay retryNumber (retry_after world (Nat.pred (sent st)))
         (random world (sent st)) AxiosRetry.defaultDelayFactor).

(** The time the request just made took. *)
Definition lastRequestDuration : Eff Q :=
  st <- get_state ;;
  ret (duration world (Nat.pred (sent st))).

Definition bump_retriedRequests (s : Stats.t) : Stats.t :=
  {| Stats.totalIssues := Stats.totalIssues s;
     Stats.successfulScrapes := Stats.successfulScrapes s;
     Stats.failedScrapes := Stats.failedScrapes s;
     Stats.retriedRequests := Stats.retriedRequests s + 1 |}.

(** The value the [retryCondition] callback returns. *)
Definition retryVerdict (error : AxiosError) : bool :=
  AxiosRetry.isNetworkOrIdempotentRequestError (isRetryAllowed world) error
  || bool_decide (status error = Some 429)
  || (500 <=? default 0 (status error)).

Definition retryCondition (error : AxiosError) : Eff bool :=
  modify_stats bump_retriedRequests ;;;
  ret (retryVerdict error).

(** The three ways a request can come out: resolved, rejected and tried
    again, rejected for good. *)
Inductive Verdict : Type := SUCCESS | RETRYABLE | FATAL.

Definition classify (o : HttpOutcome (option JiraApiResponse)) : Verdict :=
  match settle o with
  | inr _ => SUCCESS
  | inl error => if retryVerdict error then RETRYABLE else FATAL
  end.

Definition onRetry (retryCount : nat) (error : AxiosError) : Eff unit :=
  emit (EmitRetry retryCount (message error)).

(** [this.client.get] with [budget] retries left after [retryCount] and
    [timeout] left of the request timeout. *)
Definition attempt (projectKey : string) (startAt : Z) (budget retryCount : nat)
  (timeout : Q) : Eff (option JiraApiResponse) :=
  AxiosRetry.request AxiosFailure retryDelay retryCondition onRetry
    (send projectKey startAt) (fun ms => emit (Backoff ms)) lastRequestDuration
    budget retryCount timeout.

(** The client is created with [timeout: this.config.requestTimeout]. *)
Definition client_get (projectKey : string) (startAt : Z) : Eff (option JiraApiResponse) :=
  attempt projectKey startAt retries 0 (inject_Z (ScraperConfig.requestTimeout config)).

(** What the adapter makes of the [n]-th request when it asks for
    [projectKey] at [startAt]. *)
Definition reply_at (projectKey : string) (startAt : Z) (n : nat)
  : AxiosError + option JiraApiResponse :=
  settle (transport world n projectKey startAt (ScraperConfig.maxResults config)).

(** The delay computed for retry [retryNumber] when [n] requests are out. *)
Definition delay_of (retryNumber n : nat) : Q :=
  AxiosRetry.exponentialDelay retryNumber (retry_after world (Nat.pred n)) (random world n)
    AxiosRetry.defaultDelayFactor.

(** What is left of [timeout] for the retry [retryNumber] when [n]
    requests are out: the duration of the last request and the delay go
    off it, and [None] says that nothing is left.  No timeout, no limit. *)
Definition timeout_after (timeout : Q) (retryNumber n : nat) : option Q :=
  if Qeq_bool timeout 0 then Some timeout
  else
    let timeout' := (timeout - duration world (Nat.pred n) - delay_of retryNumber n)%Q in
    if Qle_bool timeout' 0 then None else Some timeout'.

Definition sent_more (k : nat) (st : State) : State :=
  {| files := files st; stats := stats st; sent := (sent st + k)%nat; ticks := ticks st |}.

Definition with_stats (s : Stats.t) (st : State) : State :=
  {| files := files st; stats := s; sent := sent st; ticks := ticks st |}.

(** ** Methods *)

(** Logs the kind of error and emits 'error' with the error, the
    project and the offset; [EmitError] stands for the log line and the
    call of [emit].  [EventEmitter.emit] throws when 'error' is emitted
    and no listener is attached for it: what is emitted here is no
    [Error], so it throws an ERR_UNHANDLED_ERROR that holds what was
    emitted as its context. *)
Definition handleFetchError (error : Exn) (project : string) (startAt : Z) : Eff unit :=
  emit (EmitError project startAt error) ;;;
  if error_listener world then ret tt
  else throw (UnhandledError project startAt error).

Definition fetchIssues (projectKey : string) (startAt : Z) : Eff JiraApiResponse :=
  try_catch
    (data <- client_get projectKey startAt ;;
     match data with
     | Some response =>
         emit (EmitFetchSuccess projectKey startAt (length (issues response))) ;;;
         ret response
     | None => throw (TypeError "Cannot read properties of undefined (reading 'length')")
     end)
    (fun error => handleFetchError error projectKey startAt ;;; throw error).

Definition bump_totalIssues (n : Z) (s : Stats.t) : Stats.t :=
  {| Stats.totalIssues := Stats.totalIssues s + n;
     Stats.successfulScrapes := Stats.successfulScrapes s;
     Stats.failedScrapes := Stats.failedScrapes s;
     Stats.retriedRequests := Stats.retriedRequests s |}.

Definition bump_successfulScrapes (s : Stats.t) : Stats.t :=
  {| Stats.totalIssues := Stats.totalIssues s;
     Stats.successfulScrapes := Stats.successfulScrapes s + 1;
     Stats.failedScrapes := Stats.failedScrapes s;
     Stats.retriedRequests := Stats.retriedRequests s |}.

Definition bump_failedScrapes (s : Stats.t) : Stats.t :=
  {| Stats.totalIssues := Stats.totalIssues s;
     Stats.successfulScrapes := Stats.successfulScrapes s;
     Stats.failedScrapes := Stats.failedScrapes s + 1;
     Stats.retriedRequests := Stats.retriedRequests s |}.

(** [Promise.all(issues.map(issue => this.limiter(() => this.processIssue(issue))))].
    Each [processIssue] that returns a document counts it in
    [stats.totalIssues]; the counts are added when the batch is through. *)
Definition processBatch (batch : list JiraIssue) : Eff (list (option LLMTrainingData)) :=
  st <- get_state ;;
  match PLimit.runBounded (ScraperConfig.maxConcurrent config)
          (completion world (sent st)) (transform world) batch with
  | Some processedData =>
      modify_stats (bump_totalIssues (Z.of_nat (length (omap id processedData)))) ;;;
      ret processedData
  | None => out_of_fuel
  end.

(** The loop over [processedData] that writes the JSONL file. *)
Fixpoint writeAll (outputFile : string) (processedData : list (option LLMTrainingData))
  : Eff unit :=
  match processedData with
  | [] => ret tt
  | Some data :: rest =>
      appendFile outputFile (serialize world data +:+ Json.newline) ;;;
      modify_stats bump_successfulScrapes ;;;
      writeAll outputFile rest
  | None :: rest =>
      modify_stats bump_failedScrapes ;;;
      writeAll outputFile rest
  end.

Definition zero_state (project : string) (ts : string) : Checkpoint.t :=
  {| Checkpoint.project := project;
     Checkpoint.lastProcessedIndex := 0;
     Checkpoint.totalIssues := 0;
     Checkpoint.completed := false;
     Checkpoint.timestamp := ts |}.

Definition loadCheckpoint (project : string) : Eff Checkpoint.t :=
  st <- get_state ;;
  match files st !! checkpointFile project with
  | Some data =>
      match Json.parse data with
      | Some j =>
          match Checkpoint.of_json j with
          | Some c => ret c
          | None => throw (ForeignCheckpoint (checkpointFile project))
          end
      | None => throw (SyntaxError "Unexpected end of JSON input")
      end
  | None =>
      ts <- date_now ;;
      ret (zero_state project ts)
  end.

Definition saveCheckpoint (checkpoint : Checkpoint.t) : Eff unit :=
  writeFile (checkpointFile (Checkpoint.project checkpoint)) (Checkpoint.text checkpoint).

(** The body of the loop from the fetched page to the progress line:
    transform the page, write the documents, advance the cursor and save
    the checkpoint.  Its value is the new [startAt]. *)
Definition processPage (projectKey outputFile : string) (startAt : Z)
  (response : JiraApiResponse) : Eff Z :=
  let totalIssues := total response in
  processedData <- processBatch (issues response) ;;
  writeAll outputFile processedData ;;;
  let startAt := startAt + Z.of_nat (length (issues response)) in
  ts <- date_now ;;
  saveCheckpoint {| Checkpoint.project := projectKey;
                    Checkpoint.lastProcessedIndex := startAt;
                    Checkpoint.totalIssues := totalIssues;
                    Checkpoint.completed := totalIssues <=? startAt;
                    Checkpoint.timestamp := ts |} ;;;
  emit (Progress projectKey startAt totalIssues) ;;;
  ret startAt.

(** The [while (hasMore)] loop of [scrapeProject], at most [fuel]
    iterations of it; its value is [totalIssues] at the exit.  Of the
    guard [!response || !response.issues || response.issues.length === 0]
    only the last test can succeed: [fetchIssues] has read
    [response.data.issues.length] before it returned. *)
Fixpoint scrapeLoop (fuel : nat) (projectKey outputFile : string)
  (startAt totalIssues : Z) : Eff Z :=
  match fuel with
  | O => out_of_fuel
  | S fuel' =>
      response <- fetchIssues projectKey startAt ;;
      match issues response with
      | [] => ret totalIssues
      | _ :: _ =>
          let totalIssues := total response in
          startAt <- processPage projectKey outputFile startAt response ;;
          if startAt <? totalIssues then
            emit (Pace (ScraperConfig.rateLimitDelay config)) ;;;
            scrapeLoop fuel' projectKey outputFile startAt totalIssues
          else ret totalIssues
      end
  end.

Definition scrapeProject (fuel : nat) (projectKey : string) : Eff unit :=
  emit (Starting projectKey) ;;;
  checkpoint <- loadCheckpoint projectKey ;;
  if Checkpoint.completed checkpoint then ret tt
  else
    scrapeLoop fuel projectKey (outputFileOf projectKey)
      (Checkpoint.lastProcessedIndex checkpoint) 0 ;;;
    ret tt.

Definition printStats : Eff unit :=
  st <- get_state ;;
  emit (PrintStats (stats st)).

(** The [for (const project of this.config.projects)] loop. *)
Fixpoint forEachProject (fuel : nat) (projects : list string) : Eff unit :=
  match projects with
  | [] => ret tt
  | project :: rest =>
      try_catch (scrapeProject fuel project)
        (fun error => emit (EmitProjectError project error)) ;;;
      forEachProject fuel rest
  end.

Definition scrapeProjects (fuel : nat) : Eff unit :=
  forEachProject fuel (ScraperConfig.projects config) ;;;
  printStats.

Definition getStats (st : State) : Stats.t := stats st.

(** ** A crash while a checkpoint is being saved

    [fs.writeFile] opens the file with flag 'w', which empties it, and
    then writes the data; the scraper writes the checkpoint file in
    place.  The state found after a crash that came when [written]
    characters had reached the file: *)
Definition writeFile_interrupted (path data : string) (written : nat) (st : State) : State :=
  {| files := <[path := String.substring 0 written data]> (files st);
     stats := stats st; sent := sent st; ticks := ticks st |}.

Definition saveCheckpoint_interrupted (checkpoint : Checkpoint.t) (written : nat)
  (st : State) : State :=
  writeFile_interrupted (checkpointFile (Checkpoint.project checkpoint))
    (Checkpoint.text checkpoint) written st.

(** ** Reading a trace *)

(** The offsets of the requests, one per attempt. *)
Definition offsets (evs : list Event) : list Z :=
  omap (fun e => match e with HttpGet _ s _ => Some s | _ => None end) evs.

(** The checkpoints written, read back from the text of each write. *)
Definition saved (evs : list Event) : list Checkpoint.t :=
  omap (fun e => match e with
                 | WriteFile _ data => Json.parse data ≫= Checkpoint.of_json
                 | _ => None
                 end) evs.

(** The lines appended to the output files. *)
Definition appended (evs : list Event) : list (string * string) :=
  omap (fun e => match e with AppendFile path data => Some (path, data) | _ => None end) evs.

(** The projects whose processing began. *)
Definition started (evs : list Event) : list string :=
  omap (fun e => match e with Starting p => Some p | _ => None end) evs.

(** The attempt numbers of the retry notifications. *)
Definition retry_counts (evs : list Event) : list nat :=
  omap (fun e => match e with EmitRetry n _ => Some n | _ => None end) evs.

(** The waits before the retries. *)
Definition backoffs (evs : list Event) : list Q :=
  omap (fun e => match e with Backoff ms => Some ms | _ => None end) evs.

(** The totals the remote reported in the valid replies to the requests
    of a trace that began when [n] requests had been sent. *)
Fixpoint reported_totals (n : nat) (evs : list Event) : list Z :=
  match evs with
  | [] => []
  | HttpGet p s m :: evs' =>
      match settle (transport world n p s m) with
      | inr (Some response) => total response :: reported_totals (S n) evs'
      | _ => reported_totals (S n) evs'
      end
  | _ :: evs' => reported_totals n evs'
  end.

(** The rule for [completed] in the words of the specification: a saved
    checkpoint is completed exactly when its cursor has reached its total
    and some reply so far reported a total above 0. *)
Definition completed_as_specified (n : nat) (evs : list Event) : Prop :=
  forall before path data after c,
    evs = before ++ WriteFile path data :: after ->
    Json.parse data ≫= Checkpoint.of_json = Some c ->
    (Checkpoint.completed c = true <->
     Checkpoint.totalIssues c <= Checkpoint.lastProcessedIndex c /\
     exists t, t ∈ reported_totals n before /\ 0 < t).

(** The ceiling on attempts in the words of the specification: a sixth
    request for the same page never goes out. *)
Definition at_most_five_attempts (evs : list Event) : Prop :=
  (length (offsets evs) <= 5)%nat.

(** The waits in the words of the specification: they double from a
    base of two time units, whatever the unit is; the wait before retry
    [j + 1], which is attempt [j + 2], is [2 * unit * 2^j]. *)
Definition doubling_waits (evs : list Event) : Prop :=
  exists unit : Q, forall (j : nat) (d : Q),
    backoffs evs !! j = Some d -> (d == 2 * unit * inject_Z (2 ^ Z.of_nat j))%Q.

(** The remote reports a total above 0 with every page that has issues. *)
Definition positive_totals : Prop :=
  forall n project startAt pageSize status response,
    transport world n project startAt pageSize = Reply status (Some response) ->
    issues response <> [] -> 0 < total response.

(** The checkpoints written, each with the totals the remote had
    reported in its valid replies when it was written; [seen] are the
    totals reported before the trace began, [n] the requests sent. *)
Fixpoint saves_with_totals (n : nat) (seen : list Z) (evs : list Event)
  : list (Checkpoint.t * list Z) :=
  match evs with
  | [] => []
  | HttpGet p s m :: evs' =>
      match settle (transport world n p s m) with
      | inr (Some response) => saves_with_totals (S n) (seen ++ [total response]) evs'
      | _ => saves_with_totals (S n) seen evs'
      end
  | WriteFile _ data :: evs' =>
      match Json.parse data ≫= Checkpoint.of_json with
      | Some c => (c, seen) :: saves_with_totals n seen evs'
      | None => saves_with_totals n seen evs'
      end
  | _ :: evs' => saves_with_totals n seen evs'
  end.

(** The rule the loop applies. *)
Definition completed_by_rule (c : Checkpoint.t) : Prop :=
  Checkpoint.completed c =
  (Checkpoint.totalIssues c <=? Checkpoint.lastProcessedIndex c).

(** A checkpoint written, with the totals reported before: its
    [totalIssues] is the total reported last, [completed] follows the
    rule, and the total is above 0 when the remote's are. *)
Definition saved_with_its_total (entry : Checkpoint.t * list Z) : Prop :=
  last entry.2 = Some (Checkpoint.totalIssues entry.1) /\
  completed_by_rule entry.1 /\
  (positive_totals -> 0 < Checkpoint.totalIssues entry.1).

(** The remote never reports a total above [bound]. *)
Definition bounded_totals (bound : Z) : Prop :=
  forall n project startAt pageSize status response,
    transport world n project startAt pageSize = Reply status (Some response) ->
    total response <= bound.

(** The checkpoint saved for a page fetched at [startAt] when the clock
    has been read [n] times. *)
Definition checkpoint_after (projectKey : string) (startAt : Z)
  (response : JiraApiResponse) (n : nat) : Checkpoint.t :=
  let startAt' := startAt + Z.of_nat (length (issues response)) in
  {| Checkpoint.project := projectKey;
     Checkpoint.lastProcessedIndex := startAt';
     Checkpoint.totalIssues := total response;
     Checkpoint.completed := total response <=? startAt';
     Checkpoint.timestamp := now world n |}.

(** The line written for a document. *)
Definition line_of (outputFile : string) (data : LLMTrainingData) : string * string :=
  (outputFile, serialize world data +:+ Json.newline).

(** What [budget] retries make of a request: [k] attempts at the same
    offset, numbered notifications and delays between them, nothing
    written, and an outcome that is the adapter's at the last attempt. *)
Record attempt_post (projectKey : string) (startAt : Z) (budget rc : nat) (st : State)
  (r : Run State Event Exn (option JiraApiResponse)) (k : nat) : Prop := {
  ap_bounds : (1 <= k <= S budget)%nat;
  ap_offsets : offsets (events r) = replicate k startAt;
  ap_retries : retry_counts (events r) = seq (S rc) (k - 1);
  ap_backoffs : backoffs (events r) =
                map (fun j => delay_of (rc + j) (sent st + j)) (seq 1 (k - 1));
  ap_saved : saved (events r) = [];
  ap_started : started (events r) = [];
  ap_appended : appended (events r) = [];
  ap_files : files (final r) = files st;
  ap_ticks : ticks (final r) = ticks st;
  ap_sent : sent (final r) = (sent st + k)%nat;
  ap_result : match result r with
              | Ret data => reply_at projectKey startAt (sent st + k - 1) = inr data
              | Throw e => exists error, e = AxiosFailure error /\
                             reply_at projectKey startAt (sent st + k - 1) = inl error
              | OutOfFuel => False
              end;
}.

(** The outcome of a loop as the outcome of the method around it. *)
Definition unit_result {X} (r : Res Exn X) : Res Exn unit :=
  match r with Ret _ => Ret tt | Throw e => Throw e | OutOfFuel => OutOfFuel end.

(** The same for [fetchIssues]. *)
Record fetch_post (projectKey : string) (startAt : Z) (st : State)
  (r : Run State Event Exn JiraApiResponse) (k : nat) : Prop := {
  fp_bounds : (1 <= k <= S retries)%nat;
  fp_offsets : offsets (events r) = replicate k startAt;
  fp_saved : saved (events r) = [];
  fp_started : started (events r) = [];
  fp_appended : appended (events r) = [];
  fp_files : files (final r) = files st;
  fp_ticks : ticks (final r) = ticks st;
  fp_sent : sent (final r) = (sent st + k)%nat;
  fp_result : match result r with
              | Ret response =>
                  reply_at projectKey startAt (sent st + k - 1) = inr (Some response)
              | Throw _ => True
              | OutOfFuel => False
              end;
}.

End Scraper.

Arguments JiraApiResponse : clear implicits.
Arguments World : clear implicits.

End JiraScraper.

(* ===================================================================== *)
(** * Concrete remotes and runs                                           *)
(* ===================================================================== *)

Module Scenario.
Import Effect Axios JiraScraper.

(** Issues are numbered; the transform fails on every third one. *)
Definition transform_demo (issue : nat) : option nat :=
  if (issue mod 3 =? 0)%nat then None else Some issue.

Definition page_at (startAt total pageSize : Z) : list nat :=
  seq (Z.to_nat startAt) (Z.to_nat (Z.min pageSize (total - startAt))).

Definition reply_ok (startAt total pageSize : Z) (page : list nat)
  : HttpOutcome (option (JiraApiResponse nat)) :=
  Reply 200 (Some {| startAt := startAt; maxResults := pageSize;
                     total := total; issues := page |}).

Definition world_of
  (transport : nat -> string -> Z -> Z -> HttpOutcome (option (JiraApiResponse nat)))
  : World nat nat :=
  {| transport := transport;
     random := fun _ => 0%Q;
     retry_after := fun _ => 0%Q;
     duration := fun _ => 0%Q;
     error_listener := true;
     now := fun n => "2024-01-01T00:00:0" +:+ Json.number_to_string (Z.of_nat n) +:+ "Z";
     completion := fun _ step => (2 * step + 1)%nat;
     transform := transform_demo;
     serialize := fun data => Json.number_to_string (Z.of_nat data);
     isRetryAllowed := fun _ => true |}.

(** A project of 250 issues, served in pages of the size asked for. *)
Definition remote250 : World nat nat :=
  world_of (fun _ _ startAt pageSize =>
              reply_ok startAt 250 pageSize (page_at startAt 250 pageSize)).

(** A server that answers every request with status 500. *)
Definition always500 : World nat nat :=
  world_of (fun _ _ _ _ => Reply 500 None).

(** The same server when the first [Math.random()] gives 1/2. *)
Definition jittery500 : World nat nat :=
  {| transport := transport always500;
     random := fun n => if (n =? 1)%nat then (1 # 2)%Q else 0%Q;
     retry_after := retry_after always500;
     duration := duration always500;
     error_listener := error_listener always500;
     now := now always500;
     completion := completion always500;
     transform := transform always500;
     serialize := serialize always500;
     isRetryAllowed := isRetryAllowed always500 |}.

(** A server that answers 429, the first time with [Retry-After: 1]. *)
Definition patient429 : World nat nat :=
  {| transport := fun _ _ _ _ => Reply 429 None;
     random := random always500;
     retry_after := fun n => if (n =? 0)%nat then 1000%Q else 0%Q;
     duration := duration always500;
     error_listener := error_listener always500;
     now := now always500;
     completion := completion always500;
     transform := transform always500;
     serialize := serialize always500;
     isRetryAllowed := isRetryAllowed always500 |}.

(** A server that takes ten seconds to answer 500. *)
Definition slow500 : World nat nat :=
  {| transport := transport always500;
     random := random always500;
     retry_after := retry_after always500;
     duration := fun _ => 10000%Q;
     error_listener := error_listener always500;
     now := now always500;
     completion := completion always500;
     transform := transform always500;
     serialize := serialize always500;
     isRetryAllowed := isRetryAllowed always500 |}.

(** The 404 of [one_broken] for a scraper nobody listens to. *)
Definition one_broken_unheard : World nat nat :=
  {| transport := fun _ project startAt pageSize =>
                    if String.eqb project "BROKEN" then Reply 404 None
                    else reply_ok startAt 250 pageSize (page_at startAt 250 pageSize);
     random := random always500;
     retry_after := retry_after always500;
     duration := duration always500;
     error_listener := false;
     now := now always500;
     completion := completion always500;
     transform := transform always500;
     serialize := serialize always500;
     isRetryAllowed := isRetryAllowed always500 |}.

(** A server whose requests all run into the timeout. *)
Definition timing_out : World nat nat :=
  world_of (fun _ _ _ _ => NetworkFailure "ECONNABORTED" "timeout of 30000ms exceeded").

(** A remote that sends one issue and reports a total of 0. *)
Definition total_zero : World nat nat :=
  world_of (fun _ _ startAt pageSize => reply_ok startAt 0 pageSize [1%nat]).

(** The project BROKEN does not exist (404); the others have 250 issues. *)
Definition one_broken : World nat nat :=
  world_of (fun _ project startAt pageSize =>
              if String.eqb project "BROKEN" then Reply 404 None
              else reply_ok startAt 250 pageSize (page_at startAt 250 pageSize)).

Definition config_test : ScraperConfig.t :=
  {| ScraperConfig.jiraBaseUrl := "https://test-jira.example.com";
     ScraperConfig.projects := ["TEST"];
     ScraperConfig.maxConcurrent := 2;
     ScraperConfig.maxResults := 100;
     ScraperConfig.requestTimeout := 30000;
     ScraperConfig.outputDir := "./test-output";
     ScraperConfig.checkpointDir := "./test-checkpoints";
     ScraperConfig.rateLimitDelay := 1000 |}.

Definition config_two : ScraperConfig.t :=
  {| ScraperConfig.jiraBaseUrl := "https://test-jira.example.com";
     ScraperConfig.projects := ["BROKEN"; "TEST"];
     ScraperConfig.maxConcurrent := 2;
     ScraperConfig.maxResults := 100;
     ScraperConfig.requestTimeout := 30000;
     ScraperConfig.outputDir := "./test-output";
     ScraperConfig.checkpointDir := "./test-checkpoints";
     ScraperConfig.rateLimitDelay := 1000 |}.

(** A fresh scraper over empty directories. *)
Definition fresh : State := initial ∅.

(** The checkpoint of the resume scenario, and a scraper that finds it. *)
Definition checkpoint100 : Checkpoint.t :=
  {| Checkpoint.project := "TEST";
     Checkpoint.lastProcessedIndex := 100;
     Checkpoint.totalIssues := 250;
     Checkpoint.completed := false;
     Checkpoint.timestamp := "2024-01-01T00:00:00.000Z" |}.

Definition resumed : State :=
  initial {[ checkpointFile config_test "TEST" := Checkpoint.text checkpoint100 ]}.



(** The pages of the 250 issues. *)
Definition page_of (startAt : Z) : JiraApiResponse nat :=
  {| startAt := startAt; maxResults := 100; total := 250;
     issues := page_at startAt 250 100 |}.

(** The checkpoint saved when a remote sent one issue and reported total 0. *)
Definition checkpoint_total_zero : Checkpoint.t :=
  {| Checkpoint.project := "TEST";
     Checkpoint.lastProcessedIndex := 1;
     Checkpoint.totalIssues := 0;
     Checkpoint.completed := true;
     Checkpoint.timestamp := "2024-01-01T00:00:01Z" |}.

End Scenario.

(* ===================================================================== *)
(** * More of the trace and of the files                                  *)
(* ===================================================================== *)

Module Trace.
Import JiraScraper.

(** The 'fetch-success' notifications: project, offset, number of issues. *)
Definition fetch_successes (evs : list Event) : list (string * Z * nat) :=
  omap (fun e => match e with
                 | EmitFetchSuccess p s n => Some (p, s, n)
                 | _ => None
                 end) evs.

(** The 'error' notifications of [handleFetchError]. *)
Definition fetch_errors (evs : list Event) : list (string * Z * Exn) :=
  omap (fun e => match e with
                 | EmitError p s error => Some (p, s, error)
                 | _ => None
                 end) evs.

(** The counters other than [retriedRequests] agree. *)
Definition same_scrapes (s s' : Stats.t) : Prop :=
  Stats.totalIssues s' = Stats.totalIssues s /\
  Stats.successfulScrapes s' = Stats.successfulScrapes s /\
  Stats.failedScrapes s' = Stats.failedScrapes s.

(** The files written with [fs.writeFile], in order. *)
Definition written (evs : list Event) : list (string * string) :=
  omap (fun e => match e with WriteFile path data => Some (path, data) | _ => None end) evs.

(** What a sequence of appended lines adds to a file. *)
Definition concat_lines (lines : list (string * string)) : string :=
  foldr (fun line rest => line.2 +:+ rest) "" lines.

(** What a file holds, an absent file holding nothing. *)
Definition content (fs : gmap string string) (path : string) : string :=
  default "" (fs !! path).

(** The cursors of the checkpoints written. *)
Definition cursors (evs : list Event) : list Z :=
  map Checkpoint.lastProcessedIndex (saved evs).

(** The offsets of the calls of [fetchIssues], read from what each tells
    at its end: 'fetch-success' or 'error'. *)
Definition told (evs : list Event) : list Z :=
  omap (fun e => match e with
                 | EmitFetchSuccess _ s _ => Some s
                 | EmitError _ s _ => Some s
                 | _ => None
                 end) evs.

(** The number of issues in the pages fetched. *)
Definition fetched (evs : list Event) : nat :=
  foldr (fun page n => (page.2 + n)%nat) 0%nat (fetch_successes evs).

(** A stretch of a run from [st] to [st'] with the events [evs] has
    appended its lines to [outputFile] and to no other file, and has left
    alone every file but that one and [checkpoint]. *)
Definition appends_only (outputFile checkpoint : string) (st st' : State)
  (evs : list Event) : Prop :=
  content (files st') outputFile =
    content (files st) outputFile +:+ concat_lines (appended evs) /\
  Forall (fun line => line.1 = outputFile) (appended evs) /\
  forall path, path <> outputFile -> path <> checkpoint ->
               files st' !! path = files st !! path.

(** The counters of the statistics against the events of a stretch of a
    run: one success and one of [totalIssues] for each line appended, no
    failure taken back, and of [retriedRequests] one for each 'retry'
    and at most one more for each 'error'. *)
Definition counted (st st' : State) (evs : list Event) : Prop :=
  Stats.successfulScrapes (stats st') =
    Stats.successfulScrapes (stats st) + Z.of_nat (length (appended evs)) /\
  Stats.totalIssues (stats st') =
    Stats.totalIssues (stats st) + Z.of_nat (length (appended evs)) /\
  Stats.failedScrapes (stats st) <= Stats.failedScrapes (stats st') /\
  Stats.retriedRequests (stats st) + Z.of_nat (length (retry_counts evs))
    <= Stats.retriedRequests (stats st') /\
  Stats.retriedRequests (stats st')
    <= Stats.retriedRequests (stats st) + Z.of_nat (length (retry_counts evs))
       + Z.of_nat (length (fetch_errors evs)).

(** The 'project-error' notifications of [scrapeProjects]. *)
Definition project_errors (evs : list Event) : list (string * Exn) :=
  omap (fun e => match e with EmitProjectError p error => Some (p, error) | _ => None end)
    evs.

(** The last character of a string. *)
Fixpoint last_char (s : string) : option ascii :=
  match s with
  | EmptyString => None
  | String a EmptyString => Some a
  | String _ r => last_char r
  end.

End Trace.

Module Page.
Import JiraScraper Trace.
Section Page.
Context {JiraIssue LLMTrainingData : Type}.
Variable world : World JiraIssue LLMTrainingData.

(** The file system after [fs.appendFile(path, data)]. *)
Definition append_to (fs : gmap string string) (line : string * string)
  : gmap string string :=
  <[line.1 := content fs line.1 +:+ line.2]> fs.

Definition append_lines (fs : gmap string string) (lines : list (string * string))
  : gmap string string :=
  foldl append_to fs lines.

(** The lines a page adds to the output file. *)
Definition lines_of (outputFile : string) (page : list JiraIssue) : list (string * string) :=
  map (line_of world outputFile) (omap (transform world) page).

(** What [fetchIssues] throws when its request failed with [cause]:
    that error when 'error' has a listener, and the error of the
    unheard 'error' event when it has none. *)
Definition thrown_for (projectKey : string) (startAt : Z) (cause : Exn) : Exn :=
  if error_listener world then cause else UnhandledError projectKey startAt cause.

(** The counters after the loop over [processedData]. *)
Definition tally (processedData : list (option LLMTrainingData)) (s : Stats.t) : Stats.t :=
  foldl (fun s data => match data with
                       | Some _ => bump_successfulScrapes s
                       | None => bump_failedScrapes s
                       end) s processedData.

End Page.
End Page.

(* ===================================================================== *)
(** * Plain text from markup: [stripHtmlTags]                             *)
(* ===================================================================== *)

Module Html.

(** Does a '>' occur in the string? *)
Fixpoint has_gt (s : string) : bool :=
  match s with
  | EmptyString => false
  | String c r => Ascii.eqb c ">" || has_gt r
  end.

(** [s.replace(/<[^>]*>/g, '')].  The search tries the positions from
    the left.  At a '<' the pattern matches when a '>' comes somewhere
    behind it, and then up to the first one: [[^>]*] takes every unit
    that is no '>', line ends too, and cannot step over a '>'.  A match
    is dropped and the search goes on behind it; a unit at which there
    is no match is kept.  [inside] tells that the scan is within a
    match, which ends with the next '>'. *)
Fixpoint strip_tags_from (inside : bool) (s : string) : string :=
  match s with
  | EmptyString => EmptyString
  | String c r =>
      if inside then
        if Ascii.eqb c ">" then strip_tags_from false r else strip_tags_from true r
      else if Ascii.eqb c "<" && has_gt r then strip_tags_from true r
      else String c (strip_tags_from false r)
  end.

Definition strip_tags (s : string) : string := strip_tags_from false s.

(** [s.replace(/pat/g, rep)] for a pattern that is a literal text and a
    replacement without '$': each occurrence of [pat], found from the
    left and not overlapping the one before, becomes [rep].  [skip]
    counts the units of a match still to be passed over. *)
Fixpoint replace_from (pat rep : string) (skip : nat) (s : string) : string :=
  match s with
  | EmptyString => EmptyString
  | String c r =>
      match skip with
      | S k => replace_from pat rep k r
      | O =>
          if String.prefix pat s
          then rep +:+ replace_from pat rep (String.length pat - 1) r
          else String c (replace_from pat rep 0 r)
      end
  end.

Definition replace_all (pat rep s : string) : string := replace_from pat rep 0 s.

(** White space and line ends for [trim], among the units below 256:
    TAB, LF, VT, FF, CR, SP and NBSP. *)
Definition is_space (c : ascii) : bool :=
  let n := N_of_ascii c in
  ((n =? 9) || (n =? 10) || (n =? 11) || (n =? 12) || (n =? 13) || (n =? 32)
   || (n =? 160))%N.

Fixpoint trim_start (s : string) : string :=
  match s with
  | EmptyString => EmptyString
  | String c r => if is_space c then trim_start r else s
  end.

Fixpoint trim_end (s : string) : string :=
  match s with
  | EmptyString => EmptyString
  | String c r =>
      match trim_end r with
      | EmptyString => if is_space c then EmptyString else String c EmptyString
      | t => String c t
      end
  end.

(** [s.trim()] *)
Definition trim (s : string) : string := trim_end (trim_start s).

(** [stripHtmlTags(html)]; [None] is [null] or [undefined], which the
    test [!html] catches together with the empty string. *)
Definition stripHtmlTags (html : option string) : string :=
  match html with
  | None => EmptyString
  | Some EmptyString => EmptyString
  | Some html =>
      trim
        (replace_all "&quot;" (String Json.dquote EmptyString)
           (replace_all "&gt;" ">"
              (replace_all "&lt;" "<"
                 (replace_all "&amp;" "&"
                    (replace_all "&nbsp;" " "
                       (strip_tags html))))))
  end.

(** ** Reading a text *)

(** Does the text hold a '<' with a '>' somewhere behind it, that is, a
    match of the tag pattern? *)
Fixpoint has_tag (s : string) : bool :=
  match s with
  | EmptyString => false
  | String c r => (Ascii.eqb c "<" && has_gt r) || has_tag r
  end.

(** Does the unit occur in the text? *)
Fixpoint occurs (a : ascii) (s : string) : bool :=
  match s with
  | EmptyString => false
  | String c r => Ascii.eqb c a || occurs a r
  end.

(** Does the text begin, or end, with white space? *)
Definition starts_with_space (s : string) : bool :=
  match s with
  | EmptyString => false
  | String c _ => is_space c
  end.

Fixpoint ends_with_space (s : string) : bool :=
  match s with
  | EmptyString => false
  | String c EmptyString => is_space c
  | String _ r => ends_with_space r
  end.

End Html.

(* ===================================================================== *)
(** * The configuration from the environment: [getEnvArray]               *)
(* ===================================================================== *)

Module Config.

(** [value.split(',')]: the pieces between the commas, the empty ones
    too; a text without a comma is one piece. *)
Fixpoint split (sep : ascii) (s : string) : list string :=
  match s with
  | EmptyString => [EmptyString]
  | String c r =>
      if Ascii.eqb c sep then EmptyString :: split sep r
      else match split sep r with
           | piece :: pieces => String c piece :: pieces
           | [] => [String c EmptyString]
           end
  end.

Definition comma : ascii := ",".

(** Does the separator occur in the text? *)
Fixpoint has_sep (sep : ascii) (s : string) : bool :=
  match s with
  | EmptyString => false
  | String c r => Ascii.eqb c sep || has_sep sep r
  end.

(** [getEnvArray(key)] over the environment [env]; [inl] is the message
    of the error thrown.  An unset variable and one set to the empty
    text are both missing for [!value]. *)
Definition getEnvArray (env : gmap string string) (key : string) : string + list string :=
  match env !! key with
  | None | Some EmptyString => inl ("Missing environment variable: " +:+ key)
  | Some value =>
      inr (List.filter (fun s => negb (String.length s =? 0)%nat) (split comma value))
  end.

(** [names.join(',')] *)
Definition join (names : list string) : string := String.concat "," names.

End Config.

(* ===================================================================== *)
(** * More concrete runs                                                  *)
(* ===================================================================== *)

Module MoreScenario.
Import Effect Axios JiraScraper Scenario.

(** A remote without issues: every page is empty. *)
Definition no_issues : World nat nat :=
  world_of (fun _ _ startAt pageSize => reply_ok startAt 0 pageSize []).

(** The checkpoint of a project scraped to its end, and a scraper that
    finds it. *)
Definition checkpoint250 : Checkpoint.t :=
  {| Checkpoint.project := "TEST";
     Checkpoint.lastProcessedIndex := 250;
     Checkpoint.totalIssues := 250;
     Checkpoint.completed := true;
     Checkpoint.timestamp := "2024-01-01T00:00:03Z" |}.

Definition finished : State :=
  initial {[ checkpointFile config_test "TEST" := Checkpoint.text checkpoint250 ]}.

(** An error of a GET request that got status 503. *)
Definition error503 : AxiosError :=
  {| code := Some "ERR_BAD_RESPONSE"; status := Some 503; method := Some "get";
     message := "Request failed with status code 503" |}.

(** The page of the remote without issues. *)
Definition empty_page : JiraApiResponse nat :=
  {| startAt := 0; maxResults := 100; total := 0; issues := [] |}.

(** The checkpoints a fresh scraper saves for the 250 issues. *)
Definition saved100 : Checkpoint.t := checkpoint_after remote250 "TEST" 0 (page_of 0) 1.
Definition saved200 : Checkpoint.t := checkpoint_after remote250 "TEST" 100 (page_of 100) 2.
Definition saved250 : Checkpoint.t := checkpoint_after remote250 "TEST" 200 (page_of 200) 3.

End MoreScenario.

(* ===================================================================== *)
(** * Facts about the JSON reader and writer                              *)
(* ===================================================================== *)

Module JsonFacts.
Import Json.

#[local] Arguments String.append !_ _ / : simpl nomatch.

Lemma parse_chars_escape_char (a : ascii) (tail : string) :
  parse_chars (escape_char a +:+ tail) =
  match parse_chars tail with
  | Some (t, rest) => Some (String a t, rest)
  | None => None
  end.
Proof.
  destruct a as [[] [] [] [] [] [] [] []]; reflexivity.
Qed.

Lemma append_assoc (a b c : string) : (a +:+ b) +:+ c = a +:+ (b +:+ c).
Proof. induction a as [|x a IH]; simpl; [reflexivity | f_equal; exact IH]. Qed.

Lemma parse_chars_escape (s rest : string) :
  parse_chars (escape s +:+ String dquote rest) = Some (s, rest).
Proof.
  induction s as [|a s IH].
  - reflexivity.
  - cbn [escape]. rewrite append_assoc, parse_chars_escape_char, IH. reflexivity.
Qed.

Lemma span_digits_uint (u : Decimal.uint) (rest : string) :
  ends_number rest = true ->
  span_digits (NilEmpty.string_of_uint u +:+ rest) =
  (NilEmpty.string_of_uint u, rest).
Proof.
  intros Hrest. induction u; simpl; try (rewrite IHu; reflexivity).
  destruct rest as [|a r]; [reflexivity|].
  simpl in Hrest. simpl.
  destruct (is_digit a); [discriminate | reflexivity].
Qed.

Lemma nzhead_no_leading_zero (d d' : Decimal.uint) :
  Decimal.nzhead d <> Decimal.D0 d'.
Proof. induction d; simpl; try discriminate; assumption. Qed.

Lemma to_uint_no_leading_zero (p : positive) (d' : Decimal.uint) :
  Pos.to_uint p <> Decimal.D0 d'.
Proof.
  intros E.
  pose proof (DecimalPos.Unsigned.to_of (Pos.to_uint p)) as H.
  rewrite DecimalPos.Unsigned.of_to in H. simpl in H.
  rewrite E in H. unfold Decimal.unorm in H. simpl in H.
  destruct (Decimal.nzhead d') eqn:Hd.
  all: try discriminate H.
  - injection H as ->. now apply (DecimalPos.Unsigned.to_uint_nonzero p).
  - now apply nzhead_no_leading_zero in Hd.
Qed.

Lemma ends_number_continues (rest : string) :
  ends_number rest = true -> continues_number rest = false.
Proof.
  destruct rest as [|a r]; [reflexivity|]. simpl.
  intros H. apply andb_prop in H as [_ H]. now apply negb_true_iff in H.
Qed.

Lemma parse_unsigned_uint (u : Decimal.uint) (rest : string) :
  u <> Decimal.Nil -> (forall d, u = Decimal.D0 d -> d = Decimal.Nil) ->
  ends_number rest = true ->
  parse_unsigned (NilEmpty.string_of_uint u +:+ rest) = Some (u, rest).
Proof.
  intros Hn Hz Hrest. unfold parse_unsigned.
  rewrite span_digits_uint by assumption.
  pose proof (ends_number_continues rest Hrest) as Hc.
  pose proof (NilZero.usu u Hn) as Hu.
  destruct u; first [ congruence | idtac ];
    try (rewrite (Hz u eq_refl) in *);
    cbn [NilZero.string_of_uint] in Hu;
    cbn [NilEmpty.string_of_uint] in *; rewrite Hc, Hu; reflexivity.
Qed.

Lemma parse_number_to_string (n : Z) (rest : string) :
  ends_number rest = true ->
  parse_number (number_to_string n +:+ rest) = Some (n, rest).
Proof.
  intros Hrest. unfold number_to_string.
  destruct n as [|p|p]; cbn [Z.to_int NilZero.string_of_int].
  - change (parse_number (String "0"%char rest) = Some (0, rest)).
    unfold parse_number.
    change (N_of_ascii "0" =? 45)%N with false. cbn iota.
    change (String "0"%char rest)
      with (NilEmpty.string_of_uint (Decimal.D0 Decimal.Nil) +:+ rest).
    rewrite parse_unsigned_uint; [reflexivity | discriminate | | assumption].
    intros d [= <-]. reflexivity.
  - pose proof (DecimalPos.Unsigned.to_uint_nonnil p) as Hn.
    pose proof (to_uint_no_leading_zero p) as Hz.
    assert (E : NilZero.string_of_uint (Pos.to_uint p) =
                NilEmpty.string_of_uint (Pos.to_uint p)).
    { destruct (Pos.to_uint p); [congruence | reflexivity ..]. }
    rewrite E.
    assert (Hhead : exists a s, NilEmpty.string_of_uint (Pos.to_uint p) = String a s
                                /\ (N_of_ascii a =? 45)%N = false).
    { destruct (Pos.to_uint p); [congruence | ..]; simpl; eauto. }
    destruct Hhead as (a & s & Hs & Ha).
    unfold parse_number. rewrite Hs. cbn [String.append]. rewrite Ha.
    change (String a (s +:+ rest)) with (String a s +:+ rest). rewrite <- Hs.
    rewrite parse_unsigned_uint; [| assumption | | assumption].
    + f_equal. f_equal. exact (DecimalZ.of_to (Z.pos p)).
    + intros d Hd. now apply Hz in Hd.
  - pose proof (DecimalPos.Unsigned.to_uint_nonnil p) as Hn.
    pose proof (to_uint_no_leading_zero p) as Hz.
    assert (E : NilZero.string_of_uint (Pos.to_uint p) =
                NilEmpty.string_of_uint (Pos.to_uint p)).
    { destruct (Pos.to_uint p); [congruence | reflexivity ..]. }
    rewrite E. cbn [String.append parse_number].
    change (N_of_ascii "-" =? 45)%N with true. cbn iota.
    rewrite parse_unsigned_uint; [| assumption | | assumption].
    + f_equal. f_equal. exact (DecimalZ.of_to (Z.neg p)).
    + intros d Hd. now apply Hz in Hd.
Qed.

End JsonFacts.

(* ===================================================================== *)
(** * The gate returns the results by index                               *)
(* ===================================================================== *)

Module PLimitFacts.
Import PLimit.

Section Gate.
Context {A B : Type} (f : A -> B) (tasks : list A).

Local Abbreviation gate_inv := (PLimit.gate_inv f tasks).

Lemma pending_start_next (m : nat) (g : Gate A B) :
  pending (start_next m g) = pending g.
Proof.
  unfold pending, start_next. simpl.
  rewrite <- app_assoc. now rewrite take_drop.
Qed.

Lemma gate_inv_start_next (m : nat) (g : Gate A B) :
  gate_inv g -> gate_inv (start_next m g).
Proof.
  intros [H1 H2 H3]. split.
  - exact H1.
  - intros i a. rewrite pending_start_next. apply H2.
  - intros i a Hi. rewrite pending_start_next. now apply H3.
Qed.

Lemma gate_inv_submit : gate_inv (submit tasks).
Proof.
  split.
  - simpl. apply length_replicate.
  - intros i a Hin. unfold pending in Hin. simpl in Hin.
    apply elem_of_lookup_imap in Hin as (j & y & Heq & Hj).
    now injection Heq as -> ->.
  - intros i a Hi. left. unfold pending. simpl.
    apply elem_of_lookup_imap. eauto.
Qed.

Lemma lookup_elem_of_delete {X} (l : list X) (j j' : nat) (x : X) :
  l !! j' = Some x -> j' <> j -> x ∈ delete j l.
Proof.
  intros Hl Hne. apply list_elem_of_lookup.
  destruct (decide (j' < j)%nat) as [Hlt|Hge].
  - exists j'. now rewrite list_lookup_delete_lt.
  - exists (pred j'). rewrite list_lookup_delete_ge by lia.
    replace (S (pred j')) with j' by lia. exact Hl.
Qed.

Lemma gate_inv_finish (j i : nat) (a : A) (g : Gate A B) :
  gate_inv g -> active g !! j = Some (i, a) ->
  gate_inv (finish f j g) /\
  S (length (pending (finish f j g))) = length (pending g).
Proof.
  intros [H1 H2 H3] Hj. unfold finish. rewrite Hj.
  assert (Hia : tasks !! i = Some a).
  { apply H2. unfold pending. apply elem_of_app. left.
    apply list_elem_of_lookup. eauto. }
  assert (Hlt : (i < length (results g))%nat).
  { rewrite H1. eapply lookup_lt_Some. exact Hia. }
  split; [split|]; unfold pending in *; simpl.
  - now rewrite length_insert.
  - intros i' a' Hin. apply H2. apply elem_of_app in Hin as [Hin|Hin];
      apply elem_of_app; [left | now right].
    eapply elem_of_sublist; [exact Hin | apply sublist_delete].
  - intros i' a' Hi'.
    destruct (H3 i' a' Hi') as [Hin|Hdone].
    + apply elem_of_app in Hin as [Hin|Hin].
      * apply list_elem_of_lookup in Hin as [j' Hj'].
        destruct (decide (j' = j)) as [->|Hne].
        -- rewrite Hj in Hj'. injection Hj' as <- <-.
           right. now apply list_lookup_insert_eq.
        -- left. apply elem_of_app. left.
           eapply lookup_elem_of_delete; eassumption.
      * left. apply elem_of_app. now right.
    + right. destruct (decide (i = i')) as [<-|Hne].
      * rewrite Hia in Hi'. injection Hi' as <-.
        now apply list_lookup_insert_eq.
      * now rewrite list_lookup_insert_ne.
  - rewrite !length_app, length_delete by eauto.
    apply lookup_lt_Some in Hj. lia.
Qed.

Lemma start_next_active (m : nat) (g : Gate A B) :
  (1 <= m)%nat -> active (start_next m g) = [] -> pending g = [].
Proof.
  intros Hm Hnil. unfold start_next in Hnil. simpl in Hnil.
  apply app_eq_nil in Hnil as [Ha Ht]. unfold pending.
  rewrite Ha in *. simpl in *.
  destruct (queue g) as [|x q]; [reflexivity|].
  replace (m - 0)%nat with (S (pred m)) in Ht by lia. discriminate Ht.
Qed.

Lemma drain_spec (m : nat) (pick : nat -> nat) (rounds : nat) :
  (1 <= m)%nat ->
  forall (step : nat) (g : Gate A B),
    gate_inv g -> (length (pending g) <= rounds)%nat ->
    gate_inv (drain f m pick rounds step g) /\
    pending (drain f m pick rounds step g) = [].
Proof.
  intros Hm. induction rounds as [|rounds IH]; intros step g Hinv Hlen.
  - simpl. split; [assumption|].
    destruct (pending g); [reflexivity | simpl in Hlen; lia].
  - cbn [drain]. cbv zeta.
    pose proof (gate_inv_start_next m g Hinv) as Hinv1.
    pose proof (pending_start_next m g) as Hp1.
    destruct (active (start_next m g)) as [|x l] eqn:Hact.
    + split; [assumption|]. rewrite Hp1. now apply (start_next_active m).
    + set (j := (pick step `mod` length (x :: l))%nat).
      assert (Hjlt : (j < length (active (start_next m g)))%nat).
      { rewrite Hact. apply Nat.mod_upper_bound. simpl. lia. }
      apply lookup_lt_is_Some in Hjlt as [[i a] Hj].
      destruct (gate_inv_finish j i a _ Hinv1 Hj) as [Hinv2 Hlen2].
      apply IH; [assumption|]. rewrite Hp1 in Hlen2. lia.
Qed.

(** The array [Promise.all] resolves with holds the value of each task
    at the task's index, whatever the limit and the completion order. *)
Lemma runBounded_map (m : nat) (pick : nat -> nat) :
  (1 <= m)%nat -> runBounded m pick f tasks = Some (map f tasks).
Proof.
  intros Hm. unfold runBounded.
  destruct (drain_spec m pick (length tasks) Hm 0 (submit tasks)) as [[H1 H2 H3] Hp].
  - apply gate_inv_submit.
  - unfold pending, submit. simpl. now rewrite length_imap.
  - set (g := drain f m pick (length tasks) 0 (submit tasks)) in *.
    assert (E : results g = Some <$> map f tasks).
    { apply list_eq. intros i. rewrite list_lookup_fmap.
      change (map f tasks) with (f <$> tasks). rewrite list_lookup_fmap.
      destruct (tasks !! i) as [a|] eqn:Hi.
      - destruct (H3 i a Hi) as [Hin|Hd]; [|exact Hd].
        rewrite Hp in Hin. now apply elem_of_nil in Hin.
      - simpl. apply lookup_ge_None. rewrite H1. now apply lookup_ge_None. }
    rewrite E. now apply mapM_fmap_Some.
Qed.

End Gate.
End PLimitFacts.

(* ===================================================================== *)
(** * Checkpoint files                                                    *)
(* ===================================================================== *)

Module CheckpointFacts.
Import Json JsonFacts Checkpoint.

#[local] Arguments String.append !_ _ / : simpl nomatch.

Lemma of_json_to_json (c : Checkpoint.t) :
  Checkpoint.of_json (Checkpoint.to_json c) = Some c.
Proof. destruct c; reflexivity. Qed.

#[local] Arguments parse_value : simpl never.
#[local] Arguments parse_members : simpl never.
#[local] Arguments parse_elements : simpl never.
#[local] Arguments parse_number : simpl never.
#[local] Arguments number_to_string : simpl never.

Lemma parse_value_S (f : nat) (s : string) :
  parse_value (S f) s = value_step (parse_members f) (parse_elements f) s.
Proof. reflexivity. Qed.

Lemma parse_members_S (f : nat) (s : string) (acc : list (string * Json.t)) :
  parse_members (S f) s acc = members_step (parse_value f) (parse_members f) s acc.
Proof. reflexivity. Qed.

Lemma number_head (n : Z) :
  exists a s, number_to_string n = String a s /\
              (is_digit a || (N_of_ascii a =? 45)%N) = true.
Proof.
  unfold number_to_string. destruct n as [|p|p]; cbn [Z.to_int NilZero.string_of_int].
  - exists "0"%char, EmptyString. split; reflexivity.
  - pose proof (DecimalPos.Unsigned.to_uint_nonnil p) as Hn.
    destruct (Pos.to_uint p); [congruence | ..]; simpl; eauto.
  - exists "-"%char. eexists. split; reflexivity.
Qed.

Lemma value_step_number_head pm pe (a : ascii) (r : string) :
  (is_digit a || (N_of_ascii a =? 45)%N) = true ->
  value_step pm pe (String " " (String a r)) =
  match parse_number (String a r) with
  | Some (z, rest) => Some (JNumber z, rest)
  | None => None
  end.
Proof.
  destruct a as [[] [] [] [] [] [] [] []]; intros H; try discriminate H; reflexivity.
Qed.

Lemma value_step_number pm pe (n : Z) (rest : string) :
  ends_number rest = true ->
  value_step pm pe (String " " (number_to_string n +:+ rest)) = Some (JNumber n, rest).
Proof.
  intros Hrest. destruct (number_head n) as (a & s & Hs & Ha).
  pose proof (parse_number_to_string n rest Hrest) as Hp.
  rewrite Hs in *. cbn [String.append] in *.
  rewrite value_step_number_head by assumption. now rewrite Hp.
Qed.

Lemma value_step_string pm pe (s rest : string) :
  value_step pm pe (String " " (String dquote (escape s +:+ String dquote rest))) =
  Some (JString s, rest).
Proof.
  unfold value_step. cbn [skip_ws]. simpl. now rewrite parse_chars_escape.
Qed.

Lemma parse_value_text (c : Checkpoint.t) (f : nat) :
  parse_value (7 + f) (text c) = Some (Checkpoint.to_json c, EmptyString).
Proof.
  destruct c as [p i n b ts].
  unfold text, stringify, Checkpoint.to_json. cbn [stringify_at].
  cbn [Checkpoint.project Checkpoint.lastProcessedIndex Checkpoint.totalIssues
       Checkpoint.completed Checkpoint.timestamp].
  unfold quote at 2 7. rewrite !append_assoc.
  cbn [plus]. rewrite parse_value_S. simpl. rewrite !append_assoc. simpl.
  unfold value_step at 1. simpl.
  rewrite parse_members_S. unfold members_step at 1. simpl.
  rewrite parse_value_S, value_step_string. simpl.
  rewrite parse_members_S. unfold members_step at 1. simpl.
  rewrite parse_value_S, value_step_number by reflexivity. simpl.
  rewrite parse_members_S. unfold members_step at 1. simpl.
  rewrite parse_value_S, value_step_number by reflexivity. simpl.
  rewrite parse_members_S. unfold members_step at 1. simpl.
  rewrite parse_value_S.
  assert (Hb : forall pm pe rest,
    value_step pm pe (String " " ((if b then "true" else "false") +:+ rest)) =
    Some (JBool b, rest)) by (intros; destruct b; reflexivity).
  destruct b; rewrite Hb; simpl;
    rewrite parse_members_S; unfold members_step at 1; simpl;
    rewrite parse_value_S, value_step_string; reflexivity.
Qed.

Lemma text_length (c : Checkpoint.t) :
  exists f, S (2 * String.length (text c)) = (7 + f)%nat.
Proof.
  destruct c as [p i n b ts].
  unfold text, stringify, Checkpoint.to_json. cbn [stringify_at].
  unfold quote at 1. simpl String.append. cbn [String.length].
  match goal with
  | |- exists f, ?lhs = _ => exists (lhs - 7)%nat
  end.
  lia.
Qed.

(** What [saveCheckpoint] writes, [JSON.parse] reads back. *)
Lemma parse_text (c : Checkpoint.t) :
  Json.parse (text c) = Some (Checkpoint.to_json c).
Proof.
  unfold Json.parse. destruct (text_length c) as [f Hf].
  rewrite Hf, parse_value_text. reflexivity.
Qed.


End CheckpointFacts.

(* ===================================================================== *)
(** * The scraper                                                         *)
(* ===================================================================== *)

Module ScraperFacts.
Import Effect Axios JiraScraper.

#[local] Arguments Checkpoint.text : simpl never.
#[local] Arguments checkpointFile : simpl never.

Section Facts.
Context {JiraIssue LLMTrainingData : Type}.
Variable world : World JiraIssue LLMTrainingData.
Variable config : ScraperConfig.t.

Local Abbreviation maxR := (ScraperConfig.maxResults config).

(** ** Reading a trace piecewise *)

Lemma offsets_app (e1 e2 : list Event) : offsets (e1 ++ e2) = offsets e1 ++ offsets e2.
Proof. apply omap_app. Qed.

Lemma saved_app (e1 e2 : list Event) : saved (e1 ++ e2) = saved e1 ++ saved e2.
Proof. apply omap_app. Qed.

Lemma started_app (e1 e2 : list Event) : started (e1 ++ e2) = started e1 ++ started e2.
Proof. apply omap_app. Qed.

Lemma appended_app (e1 e2 : list Event) : appended (e1 ++ e2) = appended e1 ++ appended e2.
Proof. apply omap_app. Qed.

Lemma retry_counts_app (e1 e2 : list Event) :
  retry_counts (e1 ++ e2) = retry_counts e1 ++ retry_counts e2.
Proof. apply omap_app. Qed.

Lemma backoffs_app (e1 e2 : list Event) : backoffs (e1 ++ e2) = backoffs e1 ++ backoffs e2.
Proof. apply omap_app. Qed.

(** ** One request and its retries *)

Section Request.
Variable projectKey : string.
Variable startAt : Z.

Local Abbreviation attempt := (JiraScraper.attempt world config projectKey startAt).
Local Abbreviation reply_at := (JiraScraper.reply_at world config projectKey startAt).
Local Abbreviation delay_of := (JiraScraper.delay_of world).
Local Abbreviation timeout_after := (JiraScraper.timeout_after world).

(** The request resolves at once. *)
Lemma attempt_resolved (budget rc : nat) (timeout : Q) (st : State) data :
  reply_at (sent st) = inr data ->
  attempt budget rc timeout st =
  MkRun (Ret data) (sent_more 1 st) [HttpGet projectKey startAt maxR].
Proof.
  intros H. unfold reply_at in H.
  destruct budget; cbn; rewrite H; cbn; unfold sent_more;
    rewrite Nat.add_1_r; reflexivity.
Qed.

(** The request is rejected and the condition says no: nothing follows. *)
Lemma attempt_rejected (budget rc : nat) (timeout : Q) (st : State) error :
  reply_at (sent st) = inl error -> retryVerdict world error = false ->
  attempt (S budget) rc timeout st =
  MkRun (Throw (AxiosFailure error))
    (with_stats (bump_retriedRequests (stats st)) (sent_more 1 st))
    [HttpGet projectKey startAt maxR].
Proof.
  intros H Hv. unfold reply_at in H.
  cbn. rewrite H. cbn. rewrite Hv. cbn.
  unfold with_stats, sent_more. cbn. rewrite Nat.add_1_r. reflexivity.
Qed.

(** The budget is used up: the condition is not asked. *)
Lemma attempt_exhausted (rc : nat) (timeout : Q) (st : State) error :
  reply_at (sent st) = inl error ->
  attempt 0 rc timeout st =
  MkRun (Throw (AxiosFailure error)) (sent_more 1 st) [HttpGet projectKey startAt maxR].
Proof.
  intros H. unfold reply_at in H.
  cbn. rewrite H. cbn. unfold sent_more. rewrite Nat.add_1_r. reflexivity.
Qed.

(** The request is rejected and tried again. *)
Lemma attempt_retried (budget rc : nat) (timeout left : Q) (st : State) error :
  reply_at (sent st) = inl error -> retryVerdict world error = true ->
  timeout_after timeout (S rc) (S (sent st)) = Some left ->
  attempt (S budget) rc timeout st =
  let st1 := with_stats (bump_retriedRequests (stats st)) (sent_more 1 st) in
  let r := attempt budget (S rc) left st1 in
  MkRun (result r) (final r)
    (HttpGet projectKey startAt maxR :: EmitRetry (S rc) (message error)
       :: Backoff (delay_of (S rc) (S (sent st))) :: events r).
Proof.
  intros H Hv Hleft. unfold reply_at in H.
  unfold JiraScraper.timeout_after, JiraScraper.delay_of in Hleft.
  unfold attempt. cbn [AxiosRetry.request].
  unfold bind at 1. cbn [send]. cbn. rewrite H. cbn. rewrite Hv. cbn.
  cbn in Hleft.
  destruct (Qeq_bool timeout 0).
  - injection Hleft as <-. cbn.
    unfold with_stats, sent_more, delay_of. cbn. rewrite Nat.add_1_r. reflexivity.
  - cbn. destruct (Qle_bool _ 0); [discriminate Hleft|]. injection Hleft as <-. cbn.
    unfold with_stats, sent_more, delay_of. cbn. rewrite Nat.add_1_r. reflexivity.
Qed.

(** The request is rejected and would be tried again, but the timeout
    has no room for the delay: the error is passed on, no 'retry' is
    told and nothing is waited for. *)
Lemma attempt_spent (budget rc : nat) (timeout : Q) (st : State) error :
  reply_at (sent st) = inl error -> retryVerdict world error = true ->
  timeout_after timeout (S rc) (S (sent st)) = None ->
  attempt (S budget) rc timeout st =
  MkRun (Throw (AxiosFailure error))
    (with_stats (bump_retriedRequests (stats st)) (sent_more 1 st))
    [HttpGet projectKey startAt maxR].
Proof.
  intros H Hv Hleft. unfold reply_at in H.
  unfold JiraScraper.timeout_after, JiraScraper.delay_of in Hleft.
  unfold attempt. cbn [AxiosRetry.request].
  unfold bind at 1. cbn [send]. cbn. rewrite H. cbn. rewrite Hv. cbn.
  cbn in Hleft.
  destruct (Qeq_bool timeout 0); [discriminate Hleft|].
  cbn. destruct (Qle_bool _ 0); [|discriminate Hleft]. cbn.
  unfold with_stats, sent_more. cbn. rewrite Nat.add_1_r. reflexivity.
Qed.

Lemma attempt_spec (budget : nat) :
  forall (rc : nat) (timeout : Q) (st : State),
    exists k, attempt_post world config projectKey startAt budget rc st
                (attempt budget rc timeout st) k.
Proof.
  induction budget as [|budget IH]; intros rc timeout st;
    destruct (reply_at (sent st)) as [error|data] eqn:H.
  - exists 1%nat. rewrite (attempt_exhausted _ _ _ _ H).
    split; cbn; try reflexivity; try lia.
    exists error. rewrite Nat.add_sub. eauto.
  - exists 1%nat. rewrite (attempt_resolved _ _ _ _ _ H).
    split; cbn; try reflexivity; try lia.
    now rewrite Nat.add_sub.
  - destruct (retryVerdict world error) eqn:Hv.
    + destruct (timeout_after timeout (S rc) (S (sent st)))
        as [left|] eqn:Hleft.
      * rewrite (attempt_retried _ _ _ _ _ _ H Hv Hleft). cbv zeta.
        set (st1 := with_stats _ _).
        destruct (IH (S rc) left st1) as [k [Hb Ho Hr Hd Hs Hst Ha Hf Ht Hn Hres]].
        exists (S k). split; cbn [events final result];
          try match goal with
          | |- context [?a :: ?b :: ?c :: events ?r] =>
              change (a :: b :: c :: events r) with ([a; b; c] ++ events r)
          end.
        -- lia.
        -- rewrite offsets_app, Ho. reflexivity.
        -- rewrite retry_counts_app, Hr.
           replace (S k - 1)%nat with (S (k - 1)) by lia. reflexivity.
        -- rewrite backoffs_app, Hd.
           replace (S k - 1)%nat with (S (k - 1)) by lia.
           cbn [seq map]. simpl (backoffs [_; _; _]). cbn [app]. f_equal.
           ++ now rewrite !Nat.add_1_r.
           ++ rewrite <- (seq_shift (k - 1) 1), map_map. apply map_ext. intros j.
              cbn [sent st1 with_stats JiraScraper.with_stats JiraScraper.sent_more].
              f_equal; lia.
        -- rewrite saved_app, Hs. reflexivity.
        -- rewrite started_app, Hst. reflexivity.
        -- rewrite appended_app, Ha. reflexivity.
        -- rewrite Hf. reflexivity.
        -- rewrite Ht. reflexivity.
        -- rewrite Hn. cbn. lia.
        -- replace (sent st + S k - 1)%nat with (sent st1 + k - 1)%nat by (cbn; lia).
           exact Hres.
      * exists 1%nat. rewrite (attempt_spent _ _ _ _ _ H Hv Hleft).
        split; cbn; try reflexivity; try lia.
        exists error. rewrite Nat.add_sub. eauto.
    + exists 1%nat. rewrite (attempt_rejected _ _ _ _ _ H Hv).
      split; cbn; try reflexivity; try lia.
      exists error. rewrite Nat.add_sub. eauto.
  - exists 1%nat. rewrite (attempt_resolved _ _ _ _ _ H).
    split; cbn; try reflexivity; try lia.
    now rewrite Nat.add_sub.
Qed.

End Request.

(** ** fetchIssues *)

Lemma fetchIssues_spec (projectKey : string) (startAt : Z) (st : State) :
  exists k, fetch_post world config projectKey startAt st (fetchIssues world config projectKey startAt st) k.
Proof.
  destruct (attempt_spec projectKey startAt retries 0
              (inject_Z (ScraperConfig.requestTimeout config)) st) as [k Hk].
  exists k. unfold fetchIssues, client_get, try_catch, bind, handleFetchError.
  destruct (JiraScraper.attempt world config projectKey startAt retries 0
              (inject_Z (ScraperConfig.requestTimeout config)) st)
    as [res st1 ev1].
  destruct Hk as [Hb Ho _ _ Hs Hst Ha Hf Ht Hn Hres]. cbn in * |-.
  destruct (error_listener world);
  destruct res as [[response|]|e|]; cbn;
    (split; cbn;
     rewrite ?offsets_app, ?saved_app, ?started_app, ?appended_app,
       ?Ho, ?Hs, ?Hst, ?Ha, ?app_nil_r;
     first [ assumption | reflexivity | exact I | idtac ]).
Qed.

(** A valid reply with a body is returned as it is, after one request. *)
Lemma fetchIssues_ok (projectKey : string) (startAt : Z) (st : State) response :
  JiraScraper.reply_at world config projectKey startAt (sent st) = inr (Some response) ->
  fetchIssues world config projectKey startAt st =
  MkRun (Ret response) (sent_more 1 st)
    [HttpGet projectKey startAt maxR;
     EmitFetchSuccess projectKey startAt (length (issues response))].
Proof.
  intros H. unfold fetchIssues, client_get, try_catch, bind.
  rewrite (attempt_resolved _ _ _ _ _ _ _ H). reflexivity.
Qed.

(** ** The batch *)

Lemma processBatch_events (batch : list JiraIssue) (st : State) :
  let r := processBatch world config batch st in
  events r = [] /\ files (final r) = files st /\ sent (final r) = sent st /\
  ticks (final r) = ticks st /\
  match result r with Throw _ => False | _ => True end.
Proof.
  unfold processBatch, bind. cbn.
  destruct (PLimit.runBounded _ _ _ _); cbn; auto.
Qed.

Lemma processBatch_ok (batch : list JiraIssue) (st : State) :
  (1 <= ScraperConfig.maxConcurrent config)%nat ->
  result (processBatch world config batch st) = Ret (map (transform world) batch).
Proof.
  intros Hm. unfold processBatch, bind. cbn.
  rewrite PLimitFacts.runBounded_map by assumption. reflexivity.
Qed.

Local Abbreviation line_of := (JiraScraper.line_of world).

Lemma writeAll_some (outputFile : string) data rest (st : State) :
  writeAll world outputFile (Some data :: rest) st =
  let line := serialize world data +:+ Json.newline in
  let st1 :=
    {| files := <[outputFile := default "" (files st !! outputFile) +:+ line]> (files st);
       stats := bump_successfulScrapes (stats st); sent := sent st; ticks := ticks st |} in
  let r := writeAll world outputFile rest st1 in
  MkRun (result r) (final r) (AppendFile outputFile line :: events r).
Proof. reflexivity. Qed.

Lemma writeAll_none (outputFile : string) rest (st : State) :
  writeAll world outputFile (None :: rest) st =
  writeAll world outputFile rest (with_stats (bump_failedScrapes (stats st)) st).
Proof.
  cbn [writeAll]. unfold bind, modify_stats, with_stats. cbn.
  now destruct (writeAll world outputFile rest _).
Qed.

Lemma writeAll_spec (outputFile : string) (processedData : list (option LLMTrainingData)) :
  forall st : State,
    let r := writeAll world outputFile processedData st in
    result r = Ret tt /\
    offsets (events r) = [] /\ saved (events r) = [] /\ started (events r) = [] /\
    appended (events r) = map (line_of outputFile) (omap id processedData) /\
    sent (final r) = sent st /\ ticks (final r) = ticks st.
Proof.
  induction processedData as [|[data|] rest IH]; intros st.
  - cbn. auto 10.
  - rewrite writeAll_some. cbv zeta.
    match goal with
    | |- context [writeAll world outputFile rest ?st1] =>
        destruct (IH st1) as (Hr & Ho & Hs & Hst & Ha & Hn & Ht)
    end.
    cbv zeta in *. cbn [result final events].
    match goal with
    | |- context [?e :: events ?r] => change (e :: events r) with ([e] ++ events r)
    end.
    rewrite offsets_app, saved_app, started_app, appended_app, Ho, Hs, Hst, Ha, Hr, Hn, Ht.
    auto 10.
  - rewrite writeAll_none.
    destruct (IH (with_stats (bump_failedScrapes (stats st)) st))
      as (Hr & Ho & Hs & Hst & Ha & Hn & Ht).
    cbv zeta in *. rewrite Ho, Hs, Hst, Ha, Hr, Hn, Ht. auto 10.
Qed.

Lemma omap_id_map {X Y} (f : X -> option Y) (l : list X) :
  omap id (map f l) = omap f l.
Proof.
  induction l as [|x l IH]; [reflexivity|].
  cbn. destruct (f x); cbn; now rewrite IH.
Qed.

Lemma saved_write (path : string) (c : Checkpoint.t) (evs : list Event) :
  saved (WriteFile path (Checkpoint.text c) :: evs) = c :: saved evs.
Proof.
  unfold saved. cbn [omap list_omap].
  rewrite CheckpointFacts.parse_text. cbn [mbind option_bind].
  rewrite CheckpointFacts.of_json_to_json. reflexivity.
Qed.

(** ** One page *)

Local Abbreviation checkpoint_after := (JiraScraper.checkpoint_after world).

Lemma processPage_spec (projectKey outputFile : string) (startAt : Z)
  (response : JiraApiResponse JiraIssue) (st : State) :
  let r := processPage world config projectKey outputFile startAt response st in
  let c := checkpoint_after projectKey startAt response (ticks st) in
  offsets (events r) = [] /\ started (events r) = [] /\ sent (final r) = sent st /\
  match result r with
  | Ret startAt' =>
      startAt' = startAt + Z.of_nat (length (issues response)) /\
      saved (events r) = [c] /\
      files (final r) !! checkpointFile config projectKey = Some (Checkpoint.text c)
  | Throw _ => False
  | OutOfFuel => saved (events r) = []
  end /\
  ((1 <= ScraperConfig.maxConcurrent config)%nat ->
   result r = Ret (startAt + Z.of_nat (length (issues response))) /\
   appended (events r) =
   map (line_of outputFile) (omap (transform world) (issues response))).
Proof.
  cbv zeta. unfold processPage, bind.
  pose proof (processBatch_events (issues response) st) as Hb.
  pose proof (processBatch_ok (issues response) st) as Hok.
  destruct (processBatch world config (issues response) st) as [res st1 ev1].
  cbn in Hb, Hok. destruct Hb as (-> & Hf1 & Hn1 & Ht1 & Hres).
  destruct res as [processedData| |]; cbn [result final events]; [|contradiction|].
  2:{ cbn. rewrite Hn1. do 4 (split; [reflexivity|]).
      intros Hm. specialize (Hok Hm). discriminate Hok. }
  destruct (writeAll_spec outputFile processedData st1) as (Hr & Ho & Hs & Hst & Ha & Hn & Ht).
  cbv zeta in *.
  destruct (writeAll world outputFile processedData st1) as [res2 st2 ev2].
  cbn [result final events] in *. subst res2.
  cbn. rewrite !offsets_app, !started_app, !saved_app, !appended_app, Ho, Hs, Hst, Ha.
  cbn [app]. rewrite Ht, Ht1, Hn, Hn1.
  rewrite saved_write.
  do 3 (split; [reflexivity|]). split.
  - split; [reflexivity|]. split; [reflexivity|]. apply lookup_insert_eq.
  - intros Hm. specialize (Hok Hm). injection Hok as ->.
    split; [reflexivity|]. now rewrite omap_id_map, app_nil_r.
Qed.

(** ** The loop over the pages *)

Lemma scrapeLoop_S (fuel : nat) (projectKey outputFile : string) (startAt totalIssues : Z)
  (st : State) :
  scrapeLoop world config (S fuel) projectKey outputFile startAt totalIssues st =
  let r1 := fetchIssues world config projectKey startAt st in
  match result r1 with
  | Ret response =>
      match issues response with
      | [] => MkRun (Ret totalIssues) (final r1) (events r1 ++ [])
      | _ :: _ =>
          let r2 := processPage world config projectKey outputFile startAt response (final r1) in
          match result r2 with
          | Ret startAt' =>
              if startAt' <? total response then
                let r3 := scrapeLoop world config fuel projectKey outputFile startAt'
                            (total response) (final r2) in
                MkRun (result r3) (final r3)
                  (events r1 ++ events r2 ++
                   [Pace (ScraperConfig.rateLimitDelay config)] ++ events r3)
              else MkRun (Ret (total response)) (final r2) (events r1 ++ events r2 ++ [])
          | Throw e => MkRun (Throw e) (final r2) (events r1 ++ events r2)
          | OutOfFuel => MkRun OutOfFuel (final r2) (events r1 ++ events r2)
          end
      end
  | Throw e => MkRun (Throw e) (final r1) (events r1)
  | OutOfFuel => MkRun OutOfFuel (final r1) (events r1)
  end.
Proof.
  cbn [scrapeLoop]. unfold bind. cbv zeta.
  destruct (fetchIssues world config projectKey startAt st) as [[response|e|] st1 ev1];
    cbn [result final events]; try reflexivity.
  destruct (issues response) as [|x xs]; [reflexivity|].
  cbn [result final events].
  destruct (processPage world config projectKey outputFile startAt response st1)
    as [[startAt'|e|] st2 ev2]; cbn [result final events]; try reflexivity.
  destruct (startAt' <? total response); reflexivity.
Qed.

Lemma scrapeLoop_trace (fuel : nat) :
  forall (projectKey outputFile : string) (startAt totalIssues : Z) (st : State),
    let r := scrapeLoop world config fuel projectKey outputFile startAt totalIssues st in
    started (events r) = [] /\
    Forall (Z.le startAt) (offsets (events r)) /\
    StronglySorted Z.le (offsets (events r)) /\
    ((1 <= fuel)%nat -> head (offsets (events r)) = Some startAt) /\
    Forall (fun c => completed_by_rule c /\ Checkpoint.project c = projectKey /\
                     startAt < Checkpoint.lastProcessedIndex c)
      (saved (events r)).
Proof.
  induction fuel as [|fuel IH]; intros projectKey outputFile startAt totalIssues st.
  - cbn. repeat split; try constructor. lia.
  - rewrite scrapeLoop_S. cbv zeta.
    destruct (fetchIssues_spec projectKey startAt st) as [k [Hb Ho Hs Hst _ _ _ _ _]].
    assert (Hrep : Forall (Z.le startAt) (replicate k startAt)).
    { apply Forall_replicate. lia. }
    assert (Hsort : StronglySorted Z.le (replicate k startAt)).
    { clear. induction k; cbn; constructor; [assumption|].
      apply Forall_replicate. lia. }
    assert (Hhead : head (replicate k startAt) = Some startAt).
    { destruct k; [lia | reflexivity]. }
    destruct (fetchIssues world config projectKey startAt st) as [[response|e|] st1 ev1];
      cbn [result final events] in *.
    2,3: rewrite Hst, Ho, Hs; repeat split; auto.
    destruct (issues response) as [|x xs] eqn:Hissues.
    { cbn [result final events]. rewrite app_nil_r, Hst, Ho, Hs. repeat split; auto. }
    pose proof (processPage_spec projectKey outputFile startAt response st1)
      as (Ho2 & Hst2 & _ & Hres2 & _).
    cbv zeta in *.
    destruct (processPage world config projectKey outputFile startAt response st1)
      as [[startAt'|e|] st2 ev2]; cbn [result final events] in *; [|contradiction|].
    2:{ rewrite started_app, offsets_app, saved_app, Hst, Hst2, Ho, Ho2, Hs, Hres2, !app_nil_r.
        repeat split; auto. }
    destruct Hres2 as (-> & Hs2 & _).
    assert (Hlt : startAt < startAt + Z.of_nat (length (issues response))).
    { rewrite Hissues. cbn [length]. lia. }
    assert (Hc : Forall (fun c => completed_by_rule c /\ Checkpoint.project c = projectKey /\
                          startAt < Checkpoint.lastProcessedIndex c) (saved ev2)).
    { rewrite Hs2. constructor; [|constructor].
      unfold completed_by_rule, checkpoint_after. cbn. auto. }
    destruct (startAt + Z.of_nat (length (issues response)) <? total response).
    + specialize (IH projectKey outputFile (startAt + Z.of_nat (length (issues response)))
                     (total response) st2).
      cbv zeta in IH. destruct IH as (IHst & IHo & IHsort & _ & IHs).
      cbn [result final events].
      rewrite !started_app, !offsets_app, !saved_app, Hst, Hst2, Ho, Ho2, Hs, IHst.
      cbn [app]. simpl (offsets [_]). simpl (saved [_]). simpl (started [_]). cbn [app].
      split; [reflexivity|]. split; [|split; [|split]].
      * apply Forall_app. split; [assumption|].
        eapply Forall_impl; [exact IHo|]. cbn. intros; lia.
      * apply StronglySorted_app_2; [|assumption|assumption].
        intros x1 x2 H1 H2. apply elem_of_replicate_inv in H1. subst x1.
        rewrite Forall_forall in IHo. specialize (IHo x2 H2). lia.
      * intros _. rewrite head_app, Hhead. reflexivity.
      * apply Forall_app. split; [assumption|].
        eapply Forall_impl; [exact IHs|]. cbn. intros c (? & ? & ?). repeat split; auto. lia.
    + cbn [result final events].
      rewrite !started_app, !offsets_app, !saved_app, Hst, Hst2, Ho, Ho2, Hs, !app_nil_r.
      cbn [app]. repeat split; auto.
Qed.

(** ** The checkpoint store *)

Lemma loadCheckpoint_saved (project : string) (c : Checkpoint.t) (st : State) :
  files st !! checkpointFile config project = Some (Checkpoint.text c) ->
  loadCheckpoint world config project st = MkRun (Ret c) st [].
Proof.
  intros H. unfold loadCheckpoint, bind. cbn. rewrite H.
  rewrite CheckpointFacts.parse_text, CheckpointFacts.of_json_to_json. reflexivity.
Qed.

Lemma loadCheckpoint_absent (project : string) (st : State) :
  files st !! checkpointFile config project = None ->
  loadCheckpoint world config project st =
  MkRun (Ret (zero_state project (now world (ticks st))))
    {| files := files st; stats := stats st; sent := sent st; ticks := S (ticks st) |} [].
Proof.
  intros H. unfold loadCheckpoint, bind. cbn. rewrite H. reflexivity.
Qed.

Lemma loadCheckpoint_quiet (project : string) (st : State) :
  let r := loadCheckpoint world config project st in
  events r = [] /\ sent (final r) = sent st /\ files (final r) = files st /\
  stats (final r) = stats st /\
  match result r with OutOfFuel => False | _ => True end.
Proof.
  unfold loadCheckpoint, bind. cbn.
  destruct (files st !! checkpointFile config project) as [data|]; cbn; [|auto].
  destruct (Json.parse data) as [j|]; cbn; [|auto].
  destruct (Checkpoint.of_json j); cbn; auto.
Qed.

Lemma saveCheckpoint_run (c : Checkpoint.t) (st : State) :
  saveCheckpoint config c st =
  MkRun (Ret tt)
    {| files := <[checkpointFile config (Checkpoint.project c) := Checkpoint.text c]> (files st);
       stats := stats st; sent := sent st; ticks := ticks st |}
    [WriteFile (checkpointFile config (Checkpoint.project c)) (Checkpoint.text c)].
Proof. reflexivity. Qed.

(** C6.  What [saveCheckpoint] stored for a project, [loadCheckpoint] of
    that project returns unchanged; and for a project without a
    checkpoint file [loadCheckpoint] returns the zero state stamped with
    the current time, and does not throw. *)
Theorem checkpoint_load_after_save :
  (forall (c : Checkpoint.t) (st : State),
     result (loadCheckpoint world config (Checkpoint.project c)
               (final (saveCheckpoint config c st))) = Ret c) /\
  (forall (project : string) (st : State),
     files st !! checkpointFile config project = None ->
     result (loadCheckpoint world config project st) =
     Ret {| Checkpoint.project := project;
            Checkpoint.lastProcessedIndex := 0;
            Checkpoint.totalIssues := 0;
            Checkpoint.completed := false;
            Checkpoint.timestamp := now world (ticks st) |}).
Proof.
  split.
  - intros c st. rewrite saveCheckpoint_run. cbn [final].
    rewrite (loadCheckpoint_saved _ c); [reflexivity|].
    cbn [files]. apply lookup_insert_eq.
  - intros project st H. now rewrite loadCheckpoint_absent.
Qed.

(** C7.  A crash while [saveCheckpoint] overwrites the file, after the
    file was emptied and before any character was written, leaves a
    file that [loadCheckpoint] cannot read: it returns neither the
    checkpoint saved before nor the new one but throws a SyntaxError. *)
Theorem interrupted_save_is_not_atomic (c : Checkpoint.t) (st : State) :
  exists msg,
    result (loadCheckpoint world config (Checkpoint.project c)
              (saveCheckpoint_interrupted config c 0 st)) = Throw (SyntaxError msg).
Proof.
  eexists. unfold loadCheckpoint, saveCheckpoint_interrupted, writeFile_interrupted, bind.
  cbn. rewrite lookup_insert_eq.
  destruct (Checkpoint.text c); reflexivity.
Qed.

(** ** scrapeProject *)

Lemma scrapeProject_resumed (fuel : nat) (projectKey : string) (c : Checkpoint.t) (st : State) :
  files st !! checkpointFile config projectKey = Some (Checkpoint.text c) ->
  Checkpoint.completed c = false ->
  scrapeProject world config fuel projectKey st =
  let r := scrapeLoop world config fuel projectKey (outputFileOf config projectKey)
             (Checkpoint.lastProcessedIndex c) 0 st in
  MkRun (match result r with Ret _ => Ret tt | Throw e => Throw e | OutOfFuel => OutOfFuel end)
    (final r) (Starting projectKey :: events r).
Proof.
  intros Hf Hc. unfold scrapeProject, bind. cbn [emit result final events].
  rewrite (loadCheckpoint_saved _ c _ Hf). cbn [result final events]. rewrite Hc.
  destruct (scrapeLoop world config fuel projectKey _ _ 0 st) as [[t|e|] st1 ev1];
    cbn; now rewrite ?app_nil_r.
Qed.

(** C1.  A project whose saved checkpoint has [lastProcessedIndex] k > 0
    and is not completed is fetched from offset k on: the first request
    asks for offset k and not 0, no request asks for an offset below k,
    and the offsets of the requests never decrease. *)
Theorem resume_from_checkpoint (fuel : nat) (projectKey : string)
  (c : Checkpoint.t) (st : State) :
  files st !! checkpointFile config projectKey = Some (Checkpoint.text c) ->
  0 < Checkpoint.lastProcessedIndex c ->
  Checkpoint.completed c = false ->
  (1 <= fuel)%nat ->
  let asked := offsets (events (scrapeProject world config fuel projectKey st)) in
  head asked = Some (Checkpoint.lastProcessedIndex c) /\
  head asked <> Some 0 /\
  Forall (fun offset => Checkpoint.lastProcessedIndex c <= offset) asked /\
  StronglySorted Z.le asked.
Proof.
  intros Hf Hk Hc Hfuel. cbv zeta.
  rewrite (scrapeProject_resumed _ _ c) by assumption. cbv zeta. cbn [events].
  destruct (scrapeLoop_trace fuel projectKey (outputFileOf config projectKey)
              (Checkpoint.lastProcessedIndex c) 0 st) as (_ & Hall & Hsort & Hhead & _).
  change (offsets (Starting projectKey :: ?evs)) with (offsets evs).
  rewrite (Hhead Hfuel). repeat split; try assumption.
  intros [= E]. lia.
Qed.

(** ** How a request comes out *)

Lemma classify_success (s : Z) data :
  200 <= s <= 299 -> classify world (Reply s data) = SUCCESS.
Proof.
  intros H. unfold classify, settle, validateStatus.
  replace ((200 <=? s) && (s <? 300)) with true; [reflexivity|].
  symmetry. apply andb_true_intro. split; [apply Z.leb_le | apply Z.ltb_lt]; lia.
Qed.

Lemma settle_invalid (s : Z) (data : option (JiraApiResponse JiraIssue)) :
  validateStatus s = false ->
  exists error, settle (Reply s data) = inl error /\ status error = Some s /\
                method error = Some "get".
Proof. intros H. unfold settle. rewrite H. eauto. Qed.

Lemma classify_429 data : classify world (Reply 429 data) = RETRYABLE.
Proof. reflexivity. Qed.

Lemma classify_server_error (s : Z) data :
  500 <= s -> classify world (Reply s data) = RETRYABLE.
Proof.
  intros H. unfold classify.
  destruct (settle_invalid s data) as (error & -> & Hs & _).
  { unfold validateStatus. apply andb_false_intro2. apply Z.ltb_ge. lia. }
  unfold retryVerdict. rewrite Hs. unfold default. cbn [from_option id].
  replace (500 <=? s) with true by (symmetry; apply Z.leb_le; lia).
  now rewrite orb_true_r.
Qed.

Lemma classify_client_error (s : Z) data :
  400 <= s <= 499 -> s <> 429 -> classify world (Reply s data) = FATAL.
Proof.
  intros H Hne. unfold classify, settle.
  replace (validateStatus s) with false.
  2:{ symmetry. unfold validateStatus. apply andb_false_intro2. apply Z.ltb_ge. lia. }
  unfold retryVerdict, AxiosRetry.isNetworkOrIdempotentRequestError,
    AxiosRetry.isNetworkError, AxiosRetry.isIdempotentRequestError,
    AxiosRetry.isRetryableError.
  unfold default. cbn [status code method from_option id].
  replace (500 <=? s) with false by (symmetry; apply Z.leb_gt; lia).
  rewrite bool_decide_eq_false_2 by congruence.
  cbn. now rewrite andb_false_r.
Qed.

Lemma classify_network_failure (c msg : string) :
  c <> "ECONNABORTED" -> classify world (NetworkFailure c msg) = RETRYABLE.
Proof.
  intros Hne. unfold classify, settle, retryVerdict,
    AxiosRetry.isNetworkOrIdempotentRequestError, AxiosRetry.isIdempotentRequestError,
    AxiosRetry.isRetryableError.
  unfold default. cbn [status code method from_option id].
  replace (String.eqb c "ECONNABORTED") with false.
  2:{ symmetry. now apply String.eqb_neq. }
  cbn. now rewrite orb_true_r.
Qed.

(** C3.  A request that ran into the timeout (axios rejects it with code
    ECONNABORTED and without a response) is classified fatal, not
    retryable: the [retryCondition] returns false for it. *)
Theorem timeout_is_classified_fatal (msg : string) :
  classify world (NetworkFailure "ECONNABORTED" msg) = FATAL.
Proof. reflexivity. Qed.

(** A request classified fatal is sent once and never again. *)
Lemma fatal_is_not_retried (projectKey : string) (startAt : Z) (st : State) :
  classify world (transport world (sent st) projectKey startAt maxR) = FATAL ->
  let r := client_get world config projectKey startAt st in
  offsets (events r) = [startAt] /\ retry_counts (events r) = [] /\
  exists error, result r = Throw (AxiosFailure error).
Proof.
  unfold classify. intros H. cbv zeta. unfold client_get, retries.
  destruct (settle (transport world (sent st) projectKey startAt maxR)) as [error|data] eqn:E;
    [|discriminate H].
  destruct (retryVerdict world error) eqn:Hv; [discriminate H|].
  rewrite (attempt_rejected projectKey startAt _ _ _ st error E Hv). cbn. eauto.
Qed.

(** ** The retry counter *)

Lemma retryCondition_run (error : AxiosError) (st : State) :
  retryCondition world error st =
  MkRun (Ret (retryVerdict world error))
    (with_stats (bump_retriedRequests (stats st)) st) [].
Proof. reflexivity. Qed.

(** Asking the condition touches no counter but [retriedRequests]. *)
Lemma retryCondition_frame (error : AxiosError) (st : State) :
  let s' := stats (final (retryCondition world error st)) in
  Stats.totalIssues s' = Stats.totalIssues (stats st) /\
  Stats.successfulScrapes s' = Stats.successfulScrapes (stats st) /\
  Stats.failedScrapes s' = Stats.failedScrapes (stats st) /\
  files (final (retryCondition world error st)) = files st.
Proof. rewrite retryCondition_run. cbn. auto. Qed.

(** C10.  Classifying the rejection of a 404 reply returns false (not
    retryable) and all the same adds one to [retriedRequests]. *)
Theorem fatal_404_is_counted_as_retried (data : option (JiraApiResponse JiraIssue))
  (st : State) :
  match settle (Reply 404 data) with
  | inl error =>
      let r := retryCondition world error st in
      result r = Ret false /\
      Stats.retriedRequests (stats (final r)) = Stats.retriedRequests (stats st) + 1
  | inr _ => False
  end.
Proof. cbn. split; reflexivity. Qed.

(** ** The backoff schedule *)

Lemma pow2_pos (n : nat) : (0 < inject_Z (2 ^ Z.of_nat n))%Q.
Proof.
  change 0%Q with (inject_Z 0). rewrite <- Zlt_Qlt. apply Z.pow_pos_nonneg; lia.
Qed.

Lemma max_bounds (a b : Q) :
  (a <= AxiosRetry.max a b)%Q /\ (b <= AxiosRetry.max a b)%Q.
Proof.
  unfold AxiosRetry.max. destruct (Qle_bool a b) eqn:E.
  - apply Qle_bool_iff in E. split; [exact E | apply Qle_refl].
  - split; [apply Qle_refl|]. apply Qlt_le_weak, Qnot_le_lt. intros H.
    apply Qle_bool_iff in H. congruence.
Qed.

(** The delay before retry [n]: the larger of [2^n] delay factors and
    the time the reply asked for, and a jitter below 20 % of it. *)
Lemma exponentialDelay_bounds (n : nat) (asked r : Q) :
  (0 <= r)%Q -> (r < 1)%Q ->
  let wait := AxiosRetry.max (inject_Z (2 ^ Z.of_nat n) * AxiosRetry.defaultDelayFactor)
                (AxiosRetry.retryAfter asked) in
  (AxiosRetry.exponentialDelay n asked r AxiosRetry.defaultDelayFactor
   == wait + wait * (2 # 10) * r)%Q /\
  (wait <= AxiosRetry.exponentialDelay n asked r AxiosRetry.defaultDelayFactor)%Q /\
  (AxiosRetry.exponentialDelay n asked r AxiosRetry.defaultDelayFactor < wait * (12 # 10))%Q.
Proof.
  intros H0 H1. cbv zeta. unfold AxiosRetry.exponentialDelay.
  destruct (max_bounds (inject_Z (2 ^ Z.of_nat n) * AxiosRetry.defaultDelayFactor)
              (AxiosRetry.retryAfter asked)) as (Hl & _).
  set (W := AxiosRetry.max _ _) in *.
  pose proof (pow2_pos n) as Hp. unfold AxiosRetry.defaultDelayFactor in Hl.
  set (D := inject_Z (2 ^ Z.of_nat n)) in *.
  split; [reflexivity|]. split; nra.
Qed.

(** C4.  The retries of one [client.get].  At most 5 retries follow the
    first attempt: at most 6 requests go out, all for the same offset,
    and the 'retry' notifications count 1, 2, ...  The wait before
    retry k is w plus a jitter of the part [Math.random()] of 20 % of w,
    where w is the larger of 2^k delay factors and the time the
    [Retry-After] header of the failed reply asks for; so it is at
    least w and less than 1.2 w. *)
Theorem retry_schedule (projectKey : string) (startAt : Z) (st : State) :
  (forall n, (0 <= random world n)%Q /\ (random world n < 1)%Q) ->
  let r := client_get world config projectKey startAt st in
  exists k : nat,
    (k <= 5)%nat /\
    offsets (events r) = replicate (S k) startAt /\
    retry_counts (events r) = seq 1 k /\
    length (backoffs (events r)) = k /\
    forall (j : nat) (d : Q),
      backoffs (events r) !! j = Some d ->
      let wait :=
        AxiosRetry.max (inject_Z (2 ^ Z.of_nat (S j)) * AxiosRetry.defaultDelayFactor)
          (AxiosRetry.retryAfter (retry_after world (sent st + j))) in
      (d == wait + wait * (2 # 10) * random world (sent st + S j))%Q /\
      (wait <= d)%Q /\ (d < wait * (12 # 10))%Q.
Proof.
  intros Hrandom. cbv zeta. unfold client_get.
  destruct (attempt_spec projectKey startAt retries 0
              (inject_Z (ScraperConfig.requestTimeout config)) st)
    as [k [Hb Ho Hr Hd _ _ _ _ _ _ _]].
  unfold retries in Hb.
  exists (k - 1)%nat. rewrite Ho, Hr, Hd.
  replace (S (k - 1)) with k by lia.
  split; [lia|]. split; [reflexivity|]. split; [reflexivity|].
  split; [now rewrite length_map, length_seq|].
  intros j d Hj. rewrite list_lookup_fmap in Hj.
  destruct (seq 1 (k - 1) !! j) as [i|] eqn:Hi; [|discriminate Hj].
  apply lookup_seq in Hi as [-> _]. cbn in Hj. injection Hj as <-.
  unfold JiraScraper.delay_of. cbn [Nat.add].
  replace (Nat.pred (sent st + S j)) with (sent st + j)%nat by lia.
  destruct (Hrandom (sent st + S j)%nat) as [H0 H1].
  now apply exponentialDelay_bounds.
Qed.

(** ** Projects, one after the other *)

Lemma scrapeProject_run (fuel : nat) (projectKey : string) (st : State) :
  scrapeProject world config fuel projectKey st =
  let r0 := loadCheckpoint world config projectKey st in
  match result r0 with
  | Ret c =>
      if Checkpoint.completed c then MkRun (Ret tt) (final r0) [Starting projectKey]
      else
        let r := scrapeLoop world config fuel projectKey (outputFileOf config projectKey)
                   (Checkpoint.lastProcessedIndex c) 0 (final r0) in
        MkRun (unit_result (result r)) (final r) (Starting projectKey :: events r)
  | Throw e => MkRun (Throw e) (final r0) [Starting projectKey]
  | OutOfFuel => MkRun OutOfFuel (final r0) [Starting projectKey]
  end.
Proof.
  unfold scrapeProject, bind. cbn [emit result final events]. cbv zeta.
  destruct (loadCheckpoint_quiet projectKey st) as (He & _).
  destruct (loadCheckpoint world config projectKey st) as [[c|e|] st0 ev0];
    cbn [result final events] in *; subst ev0; try reflexivity.
  destruct (Checkpoint.completed c); [reflexivity|].
  destruct (scrapeLoop world config fuel projectKey _ _ 0 st0) as [[t|e|] st1 ev1];
    cbn; now rewrite ?app_nil_r.
Qed.


Lemma forEachProject_cons (fuel : nat) (project : string) (rest : list string) (st : State) :
  forEachProject world config fuel (project :: rest) st =
  let r1 := scrapeProject world config fuel project st in
  match result r1 with
  | Ret _ =>
      let r := forEachProject world config fuel rest (final r1) in
      MkRun (result r) (final r) (events r1 ++ events r)
  | Throw e =>
      let r := forEachProject world config fuel rest (final r1) in
      MkRun (result r) (final r) ((events r1 ++ [EmitProjectError project e]) ++ events r)
  | OutOfFuel => MkRun OutOfFuel (final r1) (events r1)
  end.
Proof.
  cbn [forEachProject]. unfold bind, try_catch. cbv zeta.
  destruct (scrapeProject world config fuel project st) as [[[]|e|] st1 ev1];
    cbn [emit result final events]; reflexivity.
Qed.


Lemma scrapeProjects_run (fuel : nat) (st : State) :
  scrapeProjects world config fuel st =
  let r := forEachProject world config fuel (ScraperConfig.projects config) st in
  match result r with
  | Ret _ => MkRun (Ret tt) (final r) (events r ++ [PrintStats (stats (final r))])
  | Throw e => MkRun (Throw e) (final r) (events r)
  | OutOfFuel => MkRun OutOfFuel (final r) (events r)
  end.
Proof.
  unfold scrapeProjects, bind, printStats. cbv zeta.
  destruct (forEachProject world config fuel _ st) as [[[]|e|] st1 ev1]; reflexivity.
Qed.

(** ** Termination *)

Lemma settle_resolved (o : HttpOutcome (option (JiraApiResponse JiraIssue))) data :
  settle o = inr data -> exists status, o = Reply status data.
Proof.
  destruct o as [status d|c msg]; cbn; [|discriminate].
  destruct (validateStatus status); [|discriminate].
  intros [= ->]. eauto.
Qed.

Lemma fetched_total_bounded (bound : Z) (projectKey : string) (startAt : Z) (st : State)
  (response : JiraApiResponse JiraIssue) :
  bounded_totals world bound ->
  result (fetchIssues world config projectKey startAt st) = Ret response ->
  total response <= bound.
Proof.
  intros Hb Hr.
  destruct (fetchIssues_spec projectKey startAt st) as [k [_ _ _ _ _ _ _ _ Hres]].
  rewrite Hr in Hres. unfold JiraScraper.reply_at in Hres.
  apply settle_resolved in Hres as [status Ho]. eapply Hb. exact Ho.
Qed.

(** With totals bounded, the cursor runs out of room: the loop ends
    within [bound - startAt] iterations and one more. *)
(** ** The totals behind the checkpoints *)

Lemma reported_totals_app (e1 e2 : list Event) :
  forall n : nat,
    reported_totals world n (e1 ++ e2) =
    reported_totals world n e1 ++ reported_totals world (n + length (offsets e1)) e2.
Proof.
  induction e1 as [|e e1 IH]; intros n.
  - cbn. now rewrite Nat.add_0_r.
  - destruct e as [?|p s m|? ?|?|? ? ?|? ? ?|? ?|path data|? ? ?|?|? ?|?]; cbn [app reported_totals]; try apply IH.
    change (offsets (HttpGet p s m :: e1)) with (s :: offsets e1).
    cbn [length]. rewrite Nat.add_succ_r.
    destruct (settle (transport world n p s m)) as [err|[response|]];
      rewrite (IH (S n)); reflexivity.
Qed.

Lemma saves_with_totals_app (e1 e2 : list Event) :
  forall (n : nat) (seen : list Z),
    saves_with_totals world n seen (e1 ++ e2) =
    saves_with_totals world n seen e1 ++
    saves_with_totals world (n + length (offsets e1)) (seen ++ reported_totals world n e1) e2.
Proof.
  induction e1 as [|e e1 IH]; intros n seen.
  - cbn. now rewrite Nat.add_0_r, app_nil_r.
  - destruct e as [?|p s m|? ?|?|? ? ?|? ? ?|? ?|path data|? ? ?|?|? ?|?]; cbn [app saves_with_totals reported_totals]; try apply IH.
    + change (offsets (HttpGet p s m :: e1)) with (s :: offsets e1).
      cbn [length]. rewrite Nat.add_succ_r.
      destruct (settle (transport world n p s m))
        as [err|[response|]]; rewrite (IH (S n)); try reflexivity.
      now rewrite <- app_assoc.
    + destruct (Json.parse data ≫= Checkpoint.of_json); rewrite (IH n); reflexivity.
Qed.

(** A stretch without requests: every checkpoint written in it has seen
    the same totals. *)
Lemma saves_with_totals_quiet (evs : list Event) (n : nat) (seen : list Z) :
  offsets evs = [] ->
  saves_with_totals world n seen evs = map (fun c => (c, seen)) (saved evs) /\
  reported_totals world n evs = [].
Proof.
  induction evs as [|e evs IH]; [now split|].
  destruct e as [?|p s m|? ?|?|? ? ?|? ? ?|? ?|path data|? ? ?|?|? ?|?]; cbn [saves_with_totals reported_totals]; intros H;
    try (exact (IH H)); try discriminate H.
  destruct (IH H) as (IH1 & IH2).
  unfold saved in *. cbn [omap list_omap].
  destruct (Json.parse data ≫= Checkpoint.of_json); cbn; now rewrite IH1.
Qed.

Lemma saves_with_totals_none (evs : list Event) :
  forall (n : nat) (seen : list Z),
    saved evs = [] -> saves_with_totals world n seen evs = [].
Proof.
  induction evs as [|e evs IH]; intros n seen; [reflexivity|].
  destruct e as [?|p s m|? ?|?|? ? ?|? ? ?|? ?|path data|? ? ?|?|? ?|?]; cbn [saves_with_totals]; try (exact (IH n seen)).
  - intros H. destruct (settle _) as [err|[response|]]; now apply IH.
  - unfold saved in *. cbn [omap list_omap].
    destruct (Json.parse data ≫= Checkpoint.of_json); [discriminate|]. apply IH.
Qed.

(** A checkpoint found in the trace is found by [saves_with_totals],
    with the totals reported before it. *)
Lemma saves_with_totals_split (before after : list Event) (path data : string)
  (c : Checkpoint.t) (n : nat) (seen : list Z) :
  Json.parse data ≫= Checkpoint.of_json = Some c ->
  (c, seen ++ reported_totals world n before)
    ∈ saves_with_totals world n seen (before ++ WriteFile path data :: after).
Proof.
  intros Hc. rewrite saves_with_totals_app. apply elem_of_app. right.
  cbn [saves_with_totals]. rewrite Hc. left.
Qed.

(** The total of the page a request returns is the last one reported. *)
Lemma attempt_totals (projectKey : string) (startAt : Z) (budget : nat) :
  forall (rc : nat) (timeout : Q) (st : State) (response : JiraApiResponse JiraIssue),
    let r := attempt world config projectKey startAt budget rc timeout st in
    result r = Ret (Some response) ->
    last (reported_totals world (sent st) (events r)) = Some (total response).
Proof.
  assert (Hresolved : forall budget rc timeout st response,
             reply_at world config projectKey startAt (sent st) = inr (Some response) ->
             last (reported_totals world (sent st)
                     (events (attempt world config projectKey startAt budget rc timeout st)))
             = Some (total response)).
  { intros b rc timeout st response H.
    rewrite (attempt_resolved projectKey startAt b rc timeout st _ H).
    cbn [events reported_totals]. unfold reply_at in H. now rewrite H. }
  induction budget as [|budget IH]; intros rc timeout st response; cbv zeta;
    destruct (reply_at world config projectKey startAt (sent st)) as [error|data] eqn:H;
    intros Hr.
  - rewrite (attempt_exhausted projectKey startAt rc timeout st error H) in Hr.
    discriminate Hr.
  - rewrite (attempt_resolved projectKey startAt 0 rc timeout st data H) in Hr.
    cbn [result] in Hr. injection Hr as Hd. subst data. now apply Hresolved.
  - destruct (retryVerdict world error) eqn:Hv.
    + destruct (timeout_after world timeout (S rc) (S (sent st))) as [left|] eqn:Hleft.
      * rewrite (attempt_retried projectKey startAt budget rc timeout left st error
                   H Hv Hleft) in Hr |- *.
        cbv zeta in Hr |- *. cbn [result events] in Hr |- *.
        apply IH in Hr. cbn [reported_totals]. unfold reply_at in H. rewrite H.
        cbn [sent with_stats sent_more] in Hr. rewrite Nat.add_1_r in Hr. exact Hr.
      * rewrite (attempt_spent projectKey startAt budget rc timeout st error H Hv Hleft)
          in Hr.
        discriminate Hr.
    + rewrite (attempt_rejected projectKey startAt budget rc timeout st error H Hv) in Hr.
      discriminate Hr.
  - rewrite (attempt_resolved projectKey startAt (S budget) rc timeout st data H) in Hr.
    cbn [result] in Hr. injection Hr as Hd. subst data. now apply Hresolved.
Qed.

Lemma fetchIssues_totals (projectKey : string) (startAt : Z) (st : State)
  (response : JiraApiResponse JiraIssue) :
  let r := fetchIssues world config projectKey startAt st in
  result r = Ret response ->
  last (reported_totals world (sent st) (events r)) = Some (total response) /\
  exists n status, transport world n projectKey startAt maxR = Reply status (Some response).
Proof.
  cbv zeta. intros Hr. split.
  - pose proof (attempt_totals projectKey startAt retries 0
                  (inject_Z (ScraperConfig.requestTimeout config)) st) as Ht.
    cbv zeta in Ht. revert Hr. unfold fetchIssues, client_get, try_catch, bind,
      handleFetchError.
    destruct (attempt world config projectKey startAt retries 0
                (inject_Z (ScraperConfig.requestTimeout config)) st)
      as [[[resp|]|e|] st1 ev1]; cbn [result final events] in *.
    + cbn. intros [= ->]. rewrite ?app_nil_r, reported_totals_app.
      cbn [reported_totals]. rewrite app_nil_r. now apply Ht.
    + destruct (error_listener world); cbn; discriminate.
    + destruct (error_listener world); cbn; discriminate.
    + cbn. discriminate.
  - destruct (fetchIssues_spec projectKey startAt st) as [k [_ _ _ _ _ _ _ _ Hres]].
    rewrite Hr in Hres. unfold reply_at in Hres.
    apply settle_resolved in Hres as [status Hres]. eauto.
Qed.

(** The loop: the requests sent are those of the trace, and every
    checkpoint written holds the total reported last. *)
Lemma scrapeLoop_totals (fuel : nat) (projectKey outputFile : string) :
  forall (startAt totalIssues : Z) (st : State) (seen : list Z),
    let r := scrapeLoop world config fuel projectKey outputFile startAt totalIssues st in
    sent (final r) = (sent st + length (offsets (events r)))%nat /\
    Forall (saved_with_its_total world)
      (saves_with_totals world (sent st) seen (events r)).
Proof.
  induction fuel as [|fuel IH]; intros startAt totalIssues st seen; cbv zeta.
  - cbn. split; [lia | constructor].
  - rewrite scrapeLoop_S. cbv zeta.
    destruct (fetchIssues_spec projectKey startAt st) as [k [_ Ho1 Hs1 _ _ _ _ Hn1 _]].
    pose proof (fetchIssues_totals projectKey startAt st) as Ht1. cbv zeta in Ht1.
    assert (Hsent1 : sent (final (fetchIssues world config projectKey startAt st)) =
                     (sent st + length (offsets (events (fetchIssues world config projectKey
                                                           startAt st))))%nat).
    { now rewrite Hn1, Ho1, length_replicate. }
    pose proof (saves_with_totals_none _ (sent st) seen Hs1) as Hnone.
    destruct (fetchIssues world config projectKey startAt st) as [[response|e|] st1 ev1];
      cbn [result final events] in *.
    2,3: split; [exact Hsent1 | rewrite Hnone; constructor].
    destruct (Ht1 response eq_refl) as (Hlast & n0 & status & Hreply). clear Ht1.
    destruct (issues response) as [|x xs] eqn:Hissues; cbn [result final events].
    { rewrite app_nil_r. split; [exact Hsent1 | rewrite Hnone; constructor]. }
    pose proof (processPage_spec projectKey outputFile startAt response st1)
      as (Ho2 & _ & Hn2 & Hres2 & _). cbv zeta in *.
    destruct (saves_with_totals_quiet _ (sent st1) (seen ++ reported_totals world (sent st) ev1)
                Ho2) as (Hsaves2 & Htot2).
    assert (Hgood : forall c, c = checkpoint_after projectKey startAt response (ticks st1) ->
              saved_with_its_total world (c, seen ++ reported_totals world (sent st) ev1)).
    { intros c ->. unfold saved_with_its_total. cbn [fst snd].
      split; [|split].
      - rewrite last_app, Hlast. reflexivity.
      - reflexivity.
      - intros Hpos. cbn. apply (Hpos _ _ _ _ _ _ Hreply). now rewrite Hissues. }
    destruct (processPage world config projectKey outputFile startAt response st1)
      as [[startAt'|e|] st2 ev2]; cbn [result final events] in *; [|contradiction|].
    2:{ rewrite offsets_app, Ho2, app_nil_r, saves_with_totals_app, Hnone.
        rewrite <- Hsent1, Hsaves2, Hres2. cbn. split; [lia | constructor]. }
    destruct Hres2 as (-> & Hs2 & _).
    destruct (startAt + Z.of_nat (length (issues response)) <? total response);
      cbn [result final events].
    + destruct (IH (startAt + Z.of_nat (length (issues response))) (total response) st2
                  ((seen ++ reported_totals world (sent st) ev1) ++ []))
        as (I1 & I2). cbv zeta in *.
      rewrite !offsets_app, Ho2. simpl (offsets [_]). cbn [app].
      rewrite length_app. split; [lia|].
      rewrite saves_with_totals_app, Hnone. cbn [app].
      rewrite saves_with_totals_app, <- Hsent1, Hsaves2, Hs2, Htot2, Ho2.
      cbn [map app length]. rewrite Nat.add_0_r.
      constructor; [now apply Hgood|].
      cbn [saves_with_totals]. rewrite <- Hn2. exact I2.
    + rewrite app_nil_r, offsets_app, Ho2, app_nil_r.
      split; [lia|].
      rewrite saves_with_totals_app, Hnone, <- Hsent1, Hsaves2, Hs2. cbn [map app].
      constructor; [now apply Hgood | constructor].
Qed.

Lemma scrapeProject_totals (fuel : nat) (projectKey : string) (st : State) (seen : list Z) :
  let r := scrapeProject world config fuel projectKey st in
  sent (final r) = (sent st + length (offsets (events r)))%nat /\
  Forall (saved_with_its_total world) (saves_with_totals world (sent st) seen (events r)).
Proof.
  cbv zeta. rewrite scrapeProject_run. cbv zeta.
  destruct (loadCheckpoint_quiet projectKey st) as (_ & Hn & _).
  destruct (loadCheckpoint world config projectKey st) as [[c|e|] st0 ev0];
    cbn [result final events] in *.
  2,3: cbn; split; [lia | constructor].
  destruct (Checkpoint.completed c); cbn [final events].
  { cbn. split; [lia | constructor]. }
  destruct (scrapeLoop_totals fuel projectKey (outputFileOf config projectKey)
              (Checkpoint.lastProcessedIndex c) 0 st0 seen) as (H1 & H2).
  cbv zeta in *. rewrite Hn in H1, H2. split; assumption.
Qed.

Lemma forEachProject_totals (fuel : nat) (projects : list string) :
  forall (st : State) (seen : list Z),
    let r := forEachProject world config fuel projects st in
    sent (final r) = (sent st + length (offsets (events r)))%nat /\
    Forall (saved_with_its_total world) (saves_with_totals world (sent st) seen (events r)).
Proof.
  induction projects as [|project rest IH]; intros st seen; cbv zeta.
  - cbn. split; [lia | constructor].
  - rewrite forEachProject_cons. cbv zeta.
    destruct (scrapeProject_totals fuel project st seen) as (H1 & H2). cbv zeta in *.
    destruct (scrapeProject world config fuel project st) as [[v|e|] st1 ev1];
      cbn [result final events] in *; [| |now split].
    + destruct (IH st1 (seen ++ reported_totals world (sent st) ev1)) as (I1 & I2).
      cbv zeta in *. rewrite offsets_app, length_app, saves_with_totals_app.
      split; [lia|]. apply Forall_app. split; [exact H2|]. now rewrite <- H1.
    + destruct (IH st1 ((seen ++ reported_totals world (sent st) ev1) ++ []))
        as (I1 & I2).
      cbv zeta in *. rewrite !offsets_app, !length_app. cbn [offsets omap list_omap length].
      split; [lia|]. rewrite <- app_assoc, saves_with_totals_app.
      apply Forall_app. split; [exact H2|]. cbn [app saves_with_totals].
      rewrite app_nil_r in I2. now rewrite <- H1.
Qed.

(** C5.  Every checkpoint the orchestrator saves records as its
    [totalIssues] the total reported with the page just processed, the
    last total the remote reported before the save, and is marked
    completed exactly when its [lastProcessedIndex] has reached that
    total.  For a remote that reports a total above 0 with every page
    that has issues this is the rule of the specification: completed
    exactly when the cursor has reached the total and a total above 0
    was reported. *)
Theorem saved_checkpoints_completed_rule (fuel : nat) (st : State) :
  let evs := events (scrapeProjects world config fuel st) in
  (forall before path data after c,
     evs = before ++ WriteFile path data :: after ->
     Json.parse data ≫= Checkpoint.of_json = Some c ->
     last (reported_totals world (sent st) before) = Some (Checkpoint.totalIssues c) /\
     (Checkpoint.completed c = true <->
      Checkpoint.totalIssues c <= Checkpoint.lastProcessedIndex c)) /\
  (positive_totals world -> completed_as_specified world (sent st) evs).
Proof.
  cbv zeta.
  assert (Hall : forall before path data after c,
             events (scrapeProjects world config fuel st) =
               before ++ WriteFile path data :: after ->
             Json.parse data ≫= Checkpoint.of_json = Some c ->
             saved_with_its_total world (c, reported_totals world (sent st) before)).
  { intros before path data after c Hsplit Hc.
    pose proof (saves_with_totals_split before after path data c (sent st) [] Hc) as Hin.
    rewrite <- Hsplit in Hin. cbn [app] in Hin.
    assert (Hgood : Forall (saved_with_its_total world)
                      (saves_with_totals world (sent st) []
                         (events (scrapeProjects world config fuel st)))).
    { rewrite scrapeProjects_run. cbv zeta.
      destruct (forEachProject_totals fuel (ScraperConfig.projects config) st [])
        as (_ & H).
      cbv zeta in H.
      destruct (forEachProject world config fuel _ st) as [[[]|e|] st1 ev1];
        cbn [result final events] in *; try exact H.
      rewrite saves_with_totals_app. apply Forall_app. split; [exact H | constructor]. }
    rewrite Forall_forall in Hgood. exact (Hgood _ Hin). }
  split.
  - intros before path data after c Hsplit Hc.
    destruct (Hall before path data after c Hsplit Hc) as (Hlast & Hrule & _).
    cbn [fst snd] in *. split; [exact Hlast|].
    unfold completed_by_rule in Hrule. rewrite Hrule. apply Z.leb_le.
  - intros Hpos before path data after c Hsplit Hc.
    destruct (Hall before path data after c Hsplit Hc) as (Hlast & Hrule & Htotal).
    cbn [fst snd] in *. unfold completed_by_rule in Hrule. rewrite Hrule. split.
    + intros Hle. apply Z.leb_le in Hle. split; [exact Hle|].
      exists (Checkpoint.totalIssues c). split; [|exact (Htotal Hpos)].
      apply last_Some in Hlast as [l ->]. apply elem_of_app. right. left.
    + intros (Hle & _). now apply Z.leb_le.
Qed.







(** ** A run without failures *)



End Facts.

(** ** The gate and the order of the output *)


(** ** The theorems at concrete runs *)

Section Runs.
Import Scenario.

Lemma resume_from_checkpoint_witness :
  files resumed !! checkpointFile config_test "TEST" = Some (Checkpoint.text checkpoint100) /\
  let asked := offsets (events (scrapeProject remote250 config_test 10 "TEST" resumed)) in
  head asked = Some 100 /\
  head asked <> Some 0 /\
  Forall (fun offset => 100 <= offset) asked /\
  StronglySorted Z.le asked.
Proof.
  split; [vm_compute; reflexivity|].
  apply (resume_from_checkpoint remote250 config_test 10 "TEST" checkpoint100 resumed).
  - vm_compute; reflexivity.
  - reflexivity.
  - reflexivity.
  - lia.
Defined.


Lemma retry_schedule_witness :
  let r := client_get always500 config_test "TEST" 0 fresh in
  exists k : nat,
    (k <= 5)%nat /\
    offsets (events r) = replicate (S k) 0 /\
    retry_counts (events r) = seq 1 k /\
    length (backoffs (events r)) = k /\
    forall (j : nat) (d : Q),
      backoffs (events r) !! j = Some d ->
      let wait :=
        AxiosRetry.max (inject_Z (2 ^ Z.of_nat (S j)) * AxiosRetry.defaultDelayFactor)
          (AxiosRetry.retryAfter (retry_after always500 (sent fresh + j))) in
      (d == wait + wait * (2 # 10) * random always500 (sent fresh + S j))%Q /\
      (wait <= d)%Q /\ (d < wait * (12 # 10))%Q.
Proof.
  apply (retry_schedule always500 config_test "TEST" 0 fresh).
  intros n. split; [apply Qle_refl | reflexivity].
Defined.

Lemma remote250_positive : positive_totals remote250.
Proof.
  intros n project startAt pageSize status response H _.
  unfold remote250, world_of in H. cbn [transport] in H.
  unfold reply_ok in H. injection H as _ <-. cbn. lia.
Qed.

Lemma saved_checkpoints_completed_rule_witness :
  completed_as_specified remote250 0
    (events (scrapeProjects remote250 config_test 5 fresh)).
Proof.
  exact (proj2 (saved_checkpoints_completed_rule remote250 config_test 5 fresh)
           remote250_positive).
Defined.

Lemma checkpoint_load_after_save_witness :
  files fresh !! checkpointFile config_test "TEST" = None /\
  result (loadCheckpoint remote250 config_test "TEST" fresh) =
  Ret {| Checkpoint.project := "TEST";
         Checkpoint.lastProcessedIndex := 0;
         Checkpoint.totalIssues := 0;
         Checkpoint.completed := false;
         Checkpoint.timestamp := now remote250 0 |}.
Proof.
  split; [reflexivity|].
  apply (proj2 (checkpoint_load_after_save remote250 config_test) "TEST" fresh).
  reflexivity.
Defined.




(** The failed project of that run: its one request got 404, was not
    retried, and the project after it ran to completion. *)
Example broken_project_then_test :
  let r := scrapeProjects one_broken config_two 10 fresh in
  offsets (events r) = [0; 0; 100; 200] /\
  retry_counts (events r) = [] /\
  map Checkpoint.completed (saved (events r)) = [false; false; true].
Proof. vm_compute. repeat split. Qed.

(** ** Where the code departs from the specification *)

(** Against a server that always answers 500 the request goes out six
    times; with a first [Math.random()] of 1/2 the waits are 220 ms and
    400 ms and so on, and after a 429 with [Retry-After: 1] they are
    1000 ms and 400 ms and so on: neither time they double. *)
Lemma schedule_not_as_specified :
  ~ at_most_five_attempts (events (client_get always500 config_test "TEST" 0 fresh)) /\
  ~ doubling_waits (events (client_get jittery500 config_test "TEST" 0 fresh)) /\
  ~ doubling_waits (events (client_get patient429 config_test "TEST" 0 fresh)).
Proof.
  split; [|split].
  - unfold at_most_five_attempts.
    replace (length (offsets (events (client_get always500 config_test "TEST" 0 fresh))))
      with 6%nat by (vm_compute; reflexivity).
    lia.
  - intros [unit H].
    set (waits := backoffs (events (client_get jittery500 config_test "TEST" 0 fresh))) in H.
    vm_compute in waits. subst waits.
    pose proof (H 0%nat _ eq_refl) as H0. pose proof (H 1%nat _ eq_refl) as H1.
    change (inject_Z (2 ^ Z.of_nat 0)) with 1%Q in H0.
    change (inject_Z (2 ^ Z.of_nat 1)) with 2%Q in H1. lra.
  - intros [unit H].
    set (waits := backoffs (events (client_get patient429 config_test "TEST" 0 fresh))) in H.
    vm_compute in waits. subst waits.
    pose proof (H 0%nat _ eq_refl) as H0. pose proof (H 1%nat _ eq_refl) as H1.
    change (inject_Z (2 ^ Z.of_nat 0)) with 1%Q in H0.
    change (inject_Z (2 ^ Z.of_nat 1)) with 2%Q in H1. lra.
Qed.

(** A server that takes ten seconds for each 500: the timeout of 30
    seconds has room for two retries; the third is counted and not made. *)
Example slow_server_run :
  let r := client_get slow500 config_test "TEST" 0 fresh in
  offsets (events r) = [0; 0; 0] /\ retry_counts (events r) = [1; 2]%nat /\
  Stats.retriedRequests (stats (final r)) = 3.
Proof. vm_compute. repeat split. Qed.

(** A remote that sends one issue and reports total 0: the checkpoint
    saved is completed though no total above 0 was ever reported. *)
Lemma completed_without_positive_total :
  ~ completed_as_specified total_zero 0
      (events (scrapeProjects total_zero config_test 10 fresh)).
Proof.
  intros H.
  specialize (H [Starting "TEST"; HttpGet "TEST" 0 100; EmitFetchSuccess "TEST" 0 1;
                 AppendFile (outputFileOf config_test "TEST")
                   (serialize total_zero 1%nat +:+ Json.newline)]
                (checkpointFile config_test "TEST")
                (Checkpoint.text checkpoint_total_zero)
                [Progress "TEST" 1 0;
                 PrintStats {| Stats.totalIssues := 1; Stats.successfulScrapes := 1;
                               Stats.failedScrapes := 0; Stats.retriedRequests := 0 |}]
                checkpoint_total_zero).
  assert (Hrun : events (scrapeProjects total_zero config_test 10 fresh) =
            [Starting "TEST"; HttpGet "TEST" 0 100; EmitFetchSuccess "TEST" 0 1;
             AppendFile (outputFileOf config_test "TEST")
               (serialize total_zero 1%nat +:+ Json.newline)] ++
            WriteFile (checkpointFile config_test "TEST")
              (Checkpoint.text checkpoint_total_zero) ::
            [Progress "TEST" 1 0;
             PrintStats {| Stats.totalIssues := 1; Stats.successfulScrapes := 1;
                           Stats.failedScrapes := 0; Stats.retriedRequests := 0 |}])
    by (vm_compute; reflexivity).
  assert (Hread : Json.parse (Checkpoint.text checkpoint_total_zero)
                    ≫= Checkpoint.of_json = Some checkpoint_total_zero).
  { rewrite CheckpointFacts.parse_text. cbn [mbind option_bind].
    apply CheckpointFacts.of_json_to_json. }
  destruct (H Hrun Hread) as [Hcompleted _].
  destruct (Hcompleted eq_refl) as (_ & t & Hin & Hpos).
  vm_compute in Hin. apply list_elem_of_singleton in Hin. lia.
Qed.

(** A crash forty characters into the overwriting of the checkpoint of
    the resume scenario: the file is there and cannot be read. *)
Example interrupted_overwrite :
  result (loadCheckpoint remote250 config_test "TEST" resumed) = Ret checkpoint100 /\
  result (loadCheckpoint remote250 config_test "TEST"
            (saveCheckpoint_interrupted config_test checkpoint_total_zero 40 resumed))
  = Throw (SyntaxError "Unexpected end of JSON input").
Proof. vm_compute. split; reflexivity. Qed.

(** The timed-out request of C3 in a run: one request, no retry, the
    project fails. *)
Example timeout_run :
  let r := scrapeProjects timing_out config_test 10 fresh in
  offsets (events r) = [0] /\ retry_counts (events r) = [] /\
  Stats.retriedRequests (stats (final r)) = 1.
Proof. vm_compute. repeat split. Qed.

End Runs.

End ScraperFacts.

(* ===================================================================== *)
(** * More about the scraper                                              *)
(* ===================================================================== *)

Module ScraperMore.
Import Effect Axios JiraScraper Trace ScraperFacts.

#[local] Arguments Checkpoint.text : simpl never.
#[local] Arguments checkpointFile : simpl never.
#[local] Arguments String.append !_ _ / : simpl nomatch.

Section More.
Context {JiraIssue LLMTrainingData : Type}.
Variable world : World JiraIssue LLMTrainingData.
Variable config : ScraperConfig.t.

Local Abbreviation maxR := (ScraperConfig.maxResults config).
Local Abbreviation timeout0 := (inject_Z (ScraperConfig.requestTimeout config)).
Local Abbreviation thrown_for := (Page.thrown_for world).

Lemma fetch_successes_app (e1 e2 : list Event) :
  fetch_successes (e1 ++ e2) = fetch_successes e1 ++ fetch_successes e2.
Proof. apply omap_app. Qed.

Lemma fetch_errors_app (e1 e2 : list Event) :
  fetch_errors (e1 ++ e2) = fetch_errors e1 ++ fetch_errors e2.
Proof. apply omap_app. Qed.

Lemma written_app (e1 e2 : list Event) : written (e1 ++ e2) = written e1 ++ written e2.
Proof. apply omap_app. Qed.

Lemma told_app (e1 e2 : list Event) : told (e1 ++ e2) = told e1 ++ told e2.
Proof. apply omap_app. Qed.

Lemma project_errors_app (e1 e2 : list Event) :
  project_errors (e1 ++ e2) = project_errors e1 ++ project_errors e2.
Proof. apply omap_app. Qed.

Lemma cursors_app (e1 e2 : list Event) : cursors (e1 ++ e2) = cursors e1 ++ cursors e2.
Proof. unfold cursors. now rewrite saved_app, map_app. Qed.

Lemma fetched_app (e1 e2 : list Event) : fetched (e1 ++ e2) = (fetched e1 + fetched e2)%nat.
Proof.
  unfold fetched. rewrite fetch_successes_app.
  induction (fetch_successes e1) as [|x l IH]; cbn; [reflexivity | rewrite IH; lia].
Qed.

(** ** The condition for a retry *)

(** X1.  For an error of a GET request the [retryCondition] asks for a
    retry exactly when the response has status 429 or a status from 500
    on, or when there is no response and the error code is not
    ECONNABORTED; [is-retry-allowed] has no say in it. *)
Theorem retryVerdict_of_get (error : AxiosError) :
  method error = Some "get" ->
  retryVerdict world error =
  match status error with
  | Some s => (s =? 429) || (500 <=? s)
  | None => negb (bool_decide (code error = Some "ECONNABORTED"))
  end.
Proof.
  intros Hm. unfold retryVerdict, AxiosRetry.isNetworkOrIdempotentRequestError,
    AxiosRetry.isNetworkError, AxiosRetry.isIdempotentRequestError,
    AxiosRetry.isRetryableError.
  rewrite Hm. unfold default.
  destruct (status error) as [s|]; cbn [from_option id].
  - cbn [orb]. destruct (decide (s = 429)) as [->|Hne].
    + rewrite bool_decide_eq_true_2 by reflexivity.
      now rewrite orb_true_r.
    + rewrite bool_decide_eq_false_2 by congruence.
      replace (s =? 429) with false by (symmetry; now apply Z.eqb_neq).
      rewrite orb_false_r. cbn [orb].
      destruct (500 <=? s) eqn:H5; [now rewrite orb_true_r|].
      cbn. now rewrite andb_false_r.
  - rewrite bool_decide_eq_false_2 by discriminate.
    change (500 <=? 0) with false. rewrite !orb_false_r.
    destruct (code error) as [c|]; [|reflexivity].
    destruct (String.eqb c "ECONNABORTED") eqn:Hc.
    + apply String.eqb_eq in Hc. subst c. reflexivity.
    + apply String.eqb_neq in Hc.
      rewrite bool_decide_eq_false_2 by congruence.
      cbn. now rewrite orb_true_r.
Qed.

(** ** What a fetch tells and counts *)

Lemma attempt_quiet (projectKey : string) (startAt : Z) (budget : nat) :
  forall (rc : nat) (timeout : Q) (st : State),
    let r := attempt world config projectKey startAt budget rc timeout st in
    fetch_successes (events r) = [] /\ fetch_errors (events r) = [] /\
    written (events r) = [] /\ told (events r) = [] /\ project_errors (events r) = [].
Proof.
  induction budget as [|budget IH]; intros rc timeout st; cbv zeta;
    destruct (reply_at world config projectKey startAt (sent st)) as [error|data] eqn:H.
  - rewrite (attempt_exhausted world config _ _ _ _ _ _ H). cbn. auto.
  - rewrite (attempt_resolved world config _ _ _ _ _ _ _ H). cbn. auto.
  - destruct (retryVerdict world error) eqn:Hv.
    + destruct (timeout_after world timeout (S rc) (S (sent st))) as [left|] eqn:Hleft.
      * rewrite (attempt_retried world config _ _ _ _ _ _ _ _ H Hv Hleft). cbv zeta.
        cbn [events].
        set (st1 := with_stats (bump_retriedRequests (stats st)) (sent_more 1 st)).
        destruct (IH (S rc) left st1) as (H1 & H2 & H3 & H4 & H5). cbv zeta in *.
        match goal with
        | |- context [?a :: ?b :: ?c :: events ?r] =>
            change (a :: b :: c :: events r) with ([a; b; c] ++ events r)
        end.
        rewrite fetch_successes_app, fetch_errors_app, written_app, told_app,
          project_errors_app, H1, H2, H3, H4, H5.
        cbn. auto.
      * rewrite (attempt_spent world config _ _ _ _ _ _ _ H Hv Hleft). cbn. auto.
    + rewrite (attempt_rejected world config _ _ _ _ _ _ _ H Hv). cbn. auto.
  - rewrite (attempt_resolved world config _ _ _ _ _ _ _ H). cbn. auto.
Qed.

Lemma attempt_stats (projectKey : string) (startAt : Z) (budget : nat) :
  forall (rc : nat) (timeout : Q) (st : State),
    let r := attempt world config projectKey startAt budget rc timeout st in
    let n := Z.of_nat (length (retry_counts (events r))) in
    let before := Stats.retriedRequests (stats st) in
    let after := Stats.retriedRequests (stats (final r)) in
    same_scrapes (stats st) (stats (final r)) /\
    before + n <= after <= before + n + 1 /\
    (forall data, result r = Ret data -> after = before + n).
Proof.
  induction budget as [|budget IH]; intros rc timeout st; cbv zeta;
    destruct (reply_at world config projectKey startAt (sent st)) as [error|data] eqn:H.
  - rewrite (attempt_exhausted world config _ _ _ _ _ _ H). cbn.
    unfold same_scrapes. repeat split; intros; lia.
  - rewrite (attempt_resolved world config _ _ _ _ _ _ _ H). cbn.
    unfold same_scrapes. repeat split; intros; lia.
  - destruct (retryVerdict world error) eqn:Hv.
    + destruct (timeout_after world timeout (S rc) (S (sent st))) as [left|] eqn:Hleft.
      * rewrite (attempt_retried world config _ _ _ _ _ _ _ _ H Hv Hleft). cbv zeta.
        cbn [events final result].
        set (st1 := with_stats (bump_retriedRequests (stats st)) (sent_more 1 st)).
        destruct (IH (S rc) left st1) as ((T1 & T2 & T3) & Hb & Hr). cbv zeta in *.
        match goal with
        | |- context [?a :: ?b :: ?c :: events ?r] =>
            change (a :: b :: c :: events r) with ([a; b; c] ++ events r)
        end.
        rewrite retry_counts_app, length_app. simpl (length (retry_counts [_; _; _])).
        change (Stats.retriedRequests (stats st1))
          with (Stats.retriedRequests (stats st) + 1) in *.
        change (Stats.totalIssues (stats st1)) with (Stats.totalIssues (stats st)) in *.
        change (Stats.successfulScrapes (stats st1))
          with (Stats.successfulScrapes (stats st)) in *.
        change (Stats.failedScrapes (stats st1)) with (Stats.failedScrapes (stats st)) in *.
        unfold same_scrapes. repeat split; try assumption; try lia.
        intros data Hd. specialize (Hr data Hd). lia.
      * rewrite (attempt_spent world config _ _ _ _ _ _ _ H Hv Hleft). cbn.
        unfold same_scrapes. repeat split; intros; try lia. discriminate.
    + rewrite (attempt_rejected world config _ _ _ _ _ _ _ H Hv). cbn.
      unfold same_scrapes. repeat split; intros; try lia. discriminate.
  - rewrite (attempt_resolved world config _ _ _ _ _ _ _ H). cbn.
    unfold same_scrapes. repeat split; intros; lia.
Qed.

(** The run of [fetchIssues] in terms of the run of the request. *)
Lemma fetchIssues_run (projectKey : string) (startAt : Z) (st : State) :
  fetchIssues world config projectKey startAt st =
  let r := client_get world config projectKey startAt st in
  match result r with
  | Ret (Some response) =>
      MkRun (Ret response) (final r)
        (events r ++ [EmitFetchSuccess projectKey startAt (length (issues response))])
  | Ret None =>
      let cause := TypeError "Cannot read properties of undefined (reading 'length')" in
      MkRun (Throw (thrown_for projectKey startAt cause)) (final r)
        (events r ++ [EmitError projectKey startAt cause])
  | Throw cause =>
      MkRun (Throw (thrown_for projectKey startAt cause)) (final r)
        (events r ++ [EmitError projectKey startAt cause])
  | OutOfFuel => MkRun OutOfFuel (final r) (events r)
  end.
Proof.
  unfold fetchIssues, try_catch, bind, handleFetchError, Page.thrown_for. cbv zeta.
  destruct (client_get world config projectKey startAt st) as [[[response|]|e|] st1 ev1];
    destruct (error_listener world); cbn; rewrite ?app_nil_r; reflexivity.
Qed.

Lemma fetchIssues_notifications (projectKey : string) (startAt : Z) (st : State) :
  let r := fetchIssues world config projectKey startAt st in
  match result r with
  | Ret response =>
      fetch_successes (events r) = [(projectKey, startAt, length (issues response))] /\
      fetch_errors (events r) = [] /\
      last (events r) =
      Some (EmitFetchSuccess projectKey startAt (length (issues response)))
  | Throw error =>
      fetch_successes (events r) = [] /\
      exists cause,
        fetch_errors (events r) = [(projectKey, startAt, cause)] /\
        last (events r) = Some (EmitError projectKey startAt cause) /\
        error = thrown_for projectKey startAt cause
  | OutOfFuel => False
  end.
Proof.
  cbv zeta. rewrite fetchIssues_run. cbv zeta. unfold client_get.
  destruct (attempt_quiet projectKey startAt retries 0 timeout0 st) as (H1 & H2 & _).
  destruct (attempt_spec world config projectKey startAt retries 0 timeout0 st)
    as [k [_ _ _ _ _ _ _ _ _ _ Hres]].
  cbv zeta in *.
  destruct (attempt world config projectKey startAt retries 0 timeout0 st)
    as [[[response|]|e|] st1 ev1]; cbn [result final events] in *;
    try contradiction;
    rewrite fetch_successes_app, fetch_errors_app, H1, H2, last_snoc; cbn; eauto.
Qed.

(** X2.  [fetchIssues] tells its outcome once.  A fetch that returns a
    page has emitted one 'fetch-success' with the project, the offset
    and the number of issues of that page, as its last event, and no
    'error'.  A fetch that throws has emitted no 'fetch-success' and
    one 'error', as its last event, with the project, the offset and
    the error of the request; and it throws that very error when
    'error' has a listener, and otherwise the error [emit] raises for
    an 'error' nobody hears, which holds what was emitted. *)
Theorem fetchIssues_tells_once (projectKey : string) (startAt : Z) (st : State) :
  let r := fetchIssues world config projectKey startAt st in
  match result r with
  | Ret response =>
      fetch_successes (events r) = [(projectKey, startAt, length (issues response))] /\
      fetch_errors (events r) = [] /\
      last (events r) =
      Some (EmitFetchSuccess projectKey startAt (length (issues response)))
  | Throw error =>
      fetch_successes (events r) = [] /\
      exists cause,
        fetch_errors (events r) = [(projectKey, startAt, cause)] /\
        last (events r) = Some (EmitError projectKey startAt cause) /\
        error = if error_listener world then cause
                else UnhandledError projectKey startAt cause
  | OutOfFuel => False
  end.
Proof. apply fetchIssues_notifications. Qed.

Lemma fetchIssues_counts_scrapes (projectKey : string) (startAt : Z) (st : State) :
  let r := fetchIssues world config projectKey startAt st in
  Stats.totalIssues (stats (final r)) = Stats.totalIssues (stats st) /\
  Stats.successfulScrapes (stats (final r)) = Stats.successfulScrapes (stats st) /\
  Stats.failedScrapes (stats (final r)) = Stats.failedScrapes (stats st).
Proof.
  cbv zeta. rewrite fetchIssues_run. cbv zeta. unfold client_get.
  destruct (attempt_stats projectKey startAt retries 0 timeout0 st) as ((T1 & T2 & T3) & _).
  cbv zeta in *.
  destruct (attempt world config projectKey startAt retries 0 timeout0 st)
    as [[[response|]|e|] st1 ev1]; cbn [result final events] in *; auto.
Qed.

(** X3.  A fetch changes no counter of the statistics but
    [retriedRequests].  That counter grows by the number of 'retry'
    notifications when the fetch returns a page, and by that number or
    one more when it throws. *)
Theorem fetchIssues_counts_retries (projectKey : string) (startAt : Z) (st : State) :
  let r := fetchIssues world config projectKey startAt st in
  let n := Z.of_nat (length (retry_counts (events r))) in
  let before := Stats.retriedRequests (stats st) in
  let after := Stats.retriedRequests (stats (final r)) in
  Stats.totalIssues (stats (final r)) = Stats.totalIssues (stats st) /\
  Stats.successfulScrapes (stats (final r)) = Stats.successfulScrapes (stats st) /\
  Stats.failedScrapes (stats (final r)) = Stats.failedScrapes (stats st) /\
  before + n <= after <= before + n + 1 /\
  match result r with
  | Ret _ => after = before + n
  | _ => True
  end.
Proof.
  cbv zeta. rewrite fetchIssues_run. cbv zeta. unfold client_get.
  destruct (attempt_stats projectKey startAt retries 0 timeout0 st)
    as ((T1 & T2 & T3) & Hb & Hr).
  cbv zeta in *.
  destruct (attempt world config projectKey startAt retries 0 timeout0 st)
    as [[[response|]|e|] st1 ev1]; cbn [result final events] in *;
    rewrite ?retry_counts_app; cbn [retry_counts omap list_omap app];
    rewrite ?app_nil_r; repeat split; try assumption; try lia.
  apply (Hr (Some response)). reflexivity.
Qed.

(** ** One page, in full *)

Local Abbreviation lines_of := (Page.lines_of world).
Local Abbreviation tally := (@Page.tally LLMTrainingData).

Lemma writeAll_full (outputFile : string) (processedData : list (option LLMTrainingData)) :
  forall st : State,
    writeAll world outputFile processedData st =
    MkRun (Ret tt)
      {| files := Page.append_lines (files st)
                    (map (line_of world outputFile) (omap id processedData));
         stats := tally processedData (stats st);
         sent := sent st; ticks := ticks st |}
      (map (fun data => AppendFile outputFile (serialize world data +:+ Json.newline))
         (omap id processedData)).
Proof.
  induction processedData as [|[data|] rest IH]; intros st.
  - destruct st; reflexivity.
  - rewrite (writeAll_some world). cbv zeta. rewrite IH. reflexivity.
  - rewrite (writeAll_none world), IH. reflexivity.
Qed.

Lemma tally_counts (processedData : list (option LLMTrainingData)) :
  forall s : Stats.t,
    let ok := Z.of_nat (length (omap id processedData)) in
    Stats.totalIssues (tally processedData s) = Stats.totalIssues s /\
    Stats.successfulScrapes (tally processedData s) = Stats.successfulScrapes s + ok /\
    Stats.failedScrapes (tally processedData s) =
      Stats.failedScrapes s + (Z.of_nat (length processedData) - ok) /\
    Stats.retriedRequests (tally processedData s) = Stats.retriedRequests s.
Proof.
  induction processedData as [|[data|] rest IH]; intros s; cbv zeta.
  - cbn. repeat split; lia.
  - cbn [Page.tally foldl]. destruct (IH (bump_successfulScrapes s)) as (H1 & H2 & H3 & H4).
    cbv zeta in *. unfold Page.tally in *. rewrite H1, H2, H3, H4.
    cbn [omap list_omap id length bump_successfulScrapes Stats.totalIssues
         Stats.successfulScrapes Stats.failedScrapes Stats.retriedRequests].
    repeat split; lia.
  - cbn [Page.tally foldl]. destruct (IH (bump_failedScrapes s)) as (H1 & H2 & H3 & H4).
    cbv zeta in *. unfold Page.tally in *. rewrite H1, H2, H3, H4.
    cbn [omap list_omap id length bump_failedScrapes Stats.totalIssues
         Stats.successfulScrapes Stats.failedScrapes Stats.retriedRequests].
    repeat split; lia.
Qed.

Lemma processBatch_run (batch : list JiraIssue) (st : State) :
  (1 <= ScraperConfig.maxConcurrent config)%nat ->
  processBatch world config batch st =
  MkRun (Ret (map (transform world) batch))
    (with_stats (bump_totalIssues
                   (Z.of_nat (length (omap id (map (transform world) batch)))) (stats st)) st)
    [].
Proof.
  intros Hm. unfold processBatch, bind. cbn [get_state result final events].
  rewrite PLimitFacts.runBounded_map by assumption. reflexivity.
Qed.

(** The run of [processPage] when the limiter lets tasks through. *)
Lemma processPage_full (projectKey outputFile : string) (startAt : Z)
  (response : JiraApiResponse JiraIssue) (st : State) :
  (1 <= ScraperConfig.maxConcurrent config)%nat ->
  let processedData := map (transform world) (issues response) in
  let c := checkpoint_after world projectKey startAt response (ticks st) in
  processPage world config projectKey outputFile startAt response st =
  MkRun (Ret (startAt + Z.of_nat (length (issues response))))
    {| files := <[checkpointFile config projectKey := Checkpoint.text c]>
                  (Page.append_lines (files st) (lines_of outputFile (issues response)));
       stats := tally processedData
                  (bump_totalIssues (Z.of_nat (length (omap id processedData))) (stats st));
       sent := sent st; ticks := S (ticks st) |}
    (map (fun data => AppendFile outputFile (serialize world data +:+ Json.newline))
       (omap (transform world) (issues response)) ++
     [WriteFile (checkpointFile config projectKey) (Checkpoint.text c);
      Progress projectKey (startAt + Z.of_nat (length (issues response))) (total response)]).
Proof.
  intros Hm. cbv zeta. unfold processPage, bind.
  rewrite (processBatch_run _ _ Hm). cbn [result final events].
  rewrite writeAll_full. cbn [result final events].
  unfold Page.lines_of. rewrite !(omap_id_map (transform world)).
  cbn. reflexivity.
Qed.

Lemma content_append_to (fs : gmap string string) (line : string * string) (path : string) :
  content (Page.append_to fs line) path =
  if decide (line.1 = path) then content fs path +:+ line.2 else content fs path.
Proof.
  unfold Page.append_to, content. rewrite lookup_insert.
  destruct (decide (line.1 = path)) as [->|]; reflexivity.
Qed.

Lemma append_lines_same (outputFile : string) (lines : list (string * string)) :
  Forall (fun line => line.1 = outputFile) lines ->
  forall fs : gmap string string,
    content (Page.append_lines fs lines) outputFile =
      content fs outputFile +:+ concat_lines lines /\
    forall path, path <> outputFile -> Page.append_lines fs lines !! path = fs !! path.
Proof.
  induction 1 as [|[path0 data] lines Hpath _ IH]; intros fs.
  - cbn. split; [|reflexivity].
    unfold content. induction (default "" (fs !! outputFile)) as [|a s IHs];
      cbn; [reflexivity | now rewrite <- IHs].
  - unfold Page.append_lines in *. cbn [foldl]. cbn [fst] in Hpath. subst path0.
    destruct (IH (Page.append_to fs (outputFile, data))) as (Hc & Hother). split.
    + rewrite Hc, content_append_to. cbn [fst snd concat_lines foldr].
      rewrite decide_True by reflexivity. apply JsonFacts.append_assoc.
    + intros path Hne. rewrite (Hother path Hne).
      unfold Page.append_to. cbn [fst]. now rewrite lookup_insert_ne.
Qed.





(** ** The files of a project *)

Lemma last_char_app (a b : string) :
  b <> EmptyString -> last_char (a +:+ b) = last_char b.
Proof.
  intros Hb. induction a as [|x a IH]; [reflexivity|].
  cbn [String.append]. cbn [last_char]. rewrite <- IH.
  destruct (a +:+ b) eqn:E; [|reflexivity].
  destruct a; cbn in E; [contradiction | discriminate].
Qed.

Lemma checkpointFile_last (project : string) :
  last_char (checkpointFile config project) = Some "n"%char.
Proof.
  unfold checkpointFile, path_join.
  rewrite !last_char_app; try reflexivity; try discriminate;
    destruct project; discriminate.
Qed.

Lemma outputFileOf_last (project : string) :
  last_char (outputFileOf config project) = Some "l"%char.
Proof.
  unfold outputFileOf, path_join.
  rewrite !last_char_app; try reflexivity; try discriminate;
    destruct project; discriminate.
Qed.

(** No output file is a checkpoint file. *)
Lemma output_is_no_checkpoint (p q : string) :
  outputFileOf config p <> checkpointFile config q.
Proof.
  intros E. pose proof (outputFileOf_last p) as H1.
  rewrite E, checkpointFile_last in H1. discriminate H1.
Qed.

Lemma append_empty (s : string) : s +:+ "" = s.
Proof. induction s as [|a s IH]; cbn; [reflexivity | now rewrite IH]. Qed.

Lemma concat_lines_app (l1 l2 : list (string * string)) :
  concat_lines (l1 ++ l2) = concat_lines l1 +:+ concat_lines l2.
Proof.
  induction l1 as [|x l1 IH]; [reflexivity|].
  cbn [app concat_lines foldr]. fold (concat_lines (l1 ++ l2)). fold (concat_lines l1).
  rewrite IH. symmetry. apply JsonFacts.append_assoc.
Qed.

(** *** Stretches of a run, put end to end *)

Lemma appends_only_quiet (outputFile checkpoint : string) (st st' : State)
  (evs : list Event) :
  files st' = files st -> appended evs = [] ->
  appends_only outputFile checkpoint st st' evs.
Proof.
  intros Hf Ha. unfold appends_only. rewrite Hf, Ha. cbn.
  split; [now rewrite append_empty|]. split; [constructor | reflexivity].
Qed.

Lemma appends_only_trans (outputFile checkpoint : string) (st st1 st2 : State)
  (e1 e2 : list Event) :
  appends_only outputFile checkpoint st st1 e1 ->
  appends_only outputFile checkpoint st1 st2 e2 ->
  appends_only outputFile checkpoint st st2 (e1 ++ e2).
Proof.
  intros (C1 & F1 & O1) (C2 & F2 & O2). unfold appends_only.
  rewrite appended_app, concat_lines_app. split; [|split].
  - rewrite C2, C1. apply JsonFacts.append_assoc.
  - apply Forall_app. split; assumption.
  - intros path H1 H2. rewrite (O2 path H1 H2). now apply O1.
Qed.

Lemma counted_quiet (st st' : State) (evs : list Event) :
  stats st' = stats st -> appended evs = [] -> retry_counts evs = [] ->
  counted st st' evs.
Proof.
  intros Hs Ha Hr. unfold counted. rewrite Hs, Ha, Hr. cbn. repeat split; lia.
Qed.

Lemma counted_trans (st st1 st2 : State) (e1 e2 : list Event) :
  counted st st1 e1 -> counted st1 st2 e2 -> counted st st2 (e1 ++ e2).
Proof.
  intros (A1 & A2 & A3 & A4 & A5) (B1 & B2 & B3 & B4 & B5). unfold counted.
  rewrite appended_app, retry_counts_app, fetch_errors_app, !length_app, !Nat2Z.inj_add.
  repeat split; lia.
Qed.

(** *** One fetch *)

Lemma fetchIssues_told (projectKey : string) (startAt : Z) (st : State) :
  let r := fetchIssues world config projectKey startAt st in
  told (events r) = [startAt] /\
  fetched (events r) =
    match result r with Ret response => length (issues response) | _ => 0%nat end.
Proof.
  cbv zeta. rewrite fetchIssues_run. cbv zeta. unfold client_get, fetched.
  destruct (attempt_quiet projectKey startAt retries 0 timeout0 st) as (H1 & _ & _ & H4 & _).
  destruct (attempt_spec world config projectKey startAt retries 0 timeout0 st)
    as [k [_ _ _ _ _ _ _ _ _ _ Hres]].
  cbv zeta in *.
  destruct (attempt world config projectKey startAt retries 0 timeout0 st)
    as [[[response|]|e|] st1 ev1]; cbn [result final events] in *;
    try contradiction;
    rewrite told_app, fetch_successes_app, H1, H4; cbn; auto.
Qed.

Lemma fetchIssues_appends_only (outputFile checkpoint projectKey : string) (startAt : Z)
  (st : State) :
  let r := fetchIssues world config projectKey startAt st in
  appends_only outputFile checkpoint st (final r) (events r).
Proof.
  cbv zeta.
  destruct (fetchIssues_spec world config projectKey startAt st)
    as [k [_ _ _ _ Ha Hf _ _ _]].
  now apply appends_only_quiet.
Qed.

Lemma fetchIssues_counted (projectKey : string) (startAt : Z) (st : State) :
  let r := fetchIssues world config projectKey startAt st in
  counted st (final r) (events r).
Proof.
  cbv zeta.
  destruct (fetchIssues_spec world config projectKey startAt st)
    as [k [_ _ _ _ Ha _ _ _ _]].
  pose proof (fetchIssues_notifications projectKey startAt st) as Hn.
  pose proof (fetchIssues_run projectKey startAt st) as Hrun.
  cbv zeta in *. unfold client_get in Hrun.
  destruct (attempt_stats projectKey startAt retries 0 timeout0 st)
    as ((T1 & T2 & T3) & Hb & Hr).
  cbv zeta in *. unfold counted. rewrite Ha. cbn [length].
  rewrite Hrun in Hn |- *. clear Hrun.
  destruct (attempt world config projectKey startAt retries 0 timeout0 st)
    as [[[response|]|e|] st1 ev1]; cbn [result final events] in *;
    rewrite ?retry_counts_app in *; cbn [retry_counts omap list_omap app] in *;
    rewrite ?app_nil_r in *.
  - destruct Hn as (_ & -> & _). specialize (Hr (Some response) eq_refl).
    cbn [length]. repeat split; lia.
  - destruct Hn as (_ & cause & -> & _). cbn [length]. repeat split; lia.
  - destruct Hn as (_ & cause & -> & _). cbn [length]. repeat split; lia.
  - contradiction.
Qed.

(** *** One page *)

Lemma processBatch_cases (batch : list JiraIssue) (st : State) :
  (exists processedData,
     processBatch world config batch st =
     MkRun (Ret processedData)
       (with_stats (bump_totalIssues (Z.of_nat (length (omap id processedData)))
                      (stats st)) st) []) \/
  processBatch world config batch st = MkRun OutOfFuel st [].
Proof.
  unfold processBatch, bind. cbn [get_state result final events].
  destruct (PLimit.runBounded _ _ _ _) as [processedData|].
  - left. exists processedData. reflexivity.
  - right. reflexivity.
Qed.

(** The two ways a page can go: written and saved, or stuck in the
    limiter. *)
Lemma processPage_cases (projectKey outputFile : string) (startAt : Z)
  (response : JiraApiResponse JiraIssue) (st : State) :
  (exists processedData,
     processPage world config projectKey outputFile startAt response st =
     let c := checkpoint_after world projectKey startAt response (ticks st) in
     MkRun (Ret (startAt + Z.of_nat (length (issues response))))
       {| files := <[checkpointFile config projectKey := Checkpoint.text c]>
                     (Page.append_lines (files st)
                        (map (line_of world outputFile) (omap id processedData)));
          stats := tally processedData
                     (bump_totalIssues (Z.of_nat (length (omap id processedData)))
                        (stats st));
          sent := sent st; ticks := S (ticks st) |}
       (map (fun data => AppendFile outputFile (serialize world data +:+ Json.newline))
          (omap id processedData) ++
        [WriteFile (checkpointFile config projectKey) (Checkpoint.text c);
         Progress projectKey (startAt + Z.of_nat (length (issues response)))
           (total response)])) \/
  processPage world config projectKey outputFile startAt response st =
  MkRun OutOfFuel st [].
Proof.
  unfold processPage, bind.
  destruct (processBatch_cases (issues response) st) as [(processedData & ->)| ->];
    cbn [result final events].
  - left. exists processedData. rewrite writeAll_full. cbn [result final events].
    cbn. reflexivity.
  - right. reflexivity.
Qed.

(** What the readers find in the appends of a page. *)
Lemma appends_read (outputFile : string) (l : list LLMTrainingData) :
  let evs := map (fun data => AppendFile outputFile (serialize world data +:+ Json.newline))
               l in
  appended evs = map (line_of world outputFile) l /\
  saved evs = [] /\ offsets evs = [] /\ told evs = [] /\
  fetch_errors evs = [] /\ fetch_successes evs = [] /\ retry_counts evs = [].
Proof.
  cbv zeta. induction l as [|data l (H1 & H2 & H3 & H4 & H5 & H6 & H7)].
  - cbn. auto 10.
  - cbn [map]. unfold appended, saved, offsets, told, fetch_errors, fetch_successes,
      retry_counts in *.
    cbn [omap list_omap]. rewrite H1, H2, H3, H4, H5, H6, H7. auto 10.
Qed.

Lemma page_tail_read (path : string) (c : Checkpoint.t) (p : string) (s t : Z) :
  let evs := [WriteFile path (Checkpoint.text c); Progress p s t] in
  appended evs = [] /\ saved evs = [c] /\ offsets evs = [] /\ told evs = [] /\
  fetch_errors evs = [] /\ fetch_successes evs = [] /\ retry_counts evs = [].
Proof.
  cbv zeta. rewrite saved_write. cbn. auto 10.
Qed.

Lemma omap_length_le {X Y} (f : X -> option Y) (l : list X) :
  (length (omap f l) <= length l)%nat.
Proof.
  induction l as [|x l IH]; cbn; [lia|]. destruct (f x); cbn; lia.
Qed.

(** Everything the loop needs to know of a page. *)
Lemma processPage_audit (projectKey outputFile : string) (startAt : Z)
  (response : JiraApiResponse JiraIssue) (st : State) :
  let r := processPage world config projectKey outputFile startAt response st in
  let c := checkpoint_after world projectKey startAt response (ticks st) in
  counted st (final r) (events r) /\
  (outputFile <> checkpointFile config projectKey ->
   appends_only outputFile (checkpointFile config projectKey) st (final r) (events r)) /\
  offsets (events r) = [] /\ told (events r) = [] /\
  fetch_errors (events r) = [] /\ fetch_successes (events r) = [] /\
  match result r with
  | Ret startAt' =>
      startAt' = startAt + Z.of_nat (length (issues response)) /\
      saved (events r) = [c] /\
      files (final r) !! checkpointFile config projectKey = Some (Checkpoint.text c) /\
      exists pre, events r = pre ++ [Progress projectKey startAt' (total response)]
  | Throw _ => False
  | OutOfFuel => final r = st /\ events r = []
  end.
Proof.
  cbv zeta.
  destruct (processPage_cases projectKey outputFile startAt response st)
    as [(processedData & ->)| ->]; cbv zeta; cbn [result final events].
  - destruct (appends_read outputFile (omap id processedData))
      as (A1 & A2 & A3 & A4 & A5 & A6 & A7).
    destruct (page_tail_read (checkpointFile config projectKey)
                (checkpoint_after world projectKey startAt response (ticks st))
                projectKey (startAt + Z.of_nat (length (issues response))) (total response))
      as (B1 & B2 & B3 & B4 & B5 & B6 & B7).
    cbv zeta in *.
    split; [|split; [|split; [|split; [|split; [|split]]]]].
    + unfold counted. cbn [stats].
      destruct (tally_counts processedData
                  (bump_totalIssues (Z.of_nat (length (omap id processedData))) (stats st)))
        as (H1 & H2 & H3 & H4).
      cbv zeta in *. rewrite H1, H2, H3, H4.
      rewrite appended_app, retry_counts_app, fetch_errors_app, A1, A5, A7, B1, B5, B7.
      rewrite app_nil_r, length_map. cbn.
      pose proof (omap_length_le id processedData). repeat split; lia.
    + intros Hne. unfold appends_only. cbn [files].
      rewrite appended_app, A1, B1, app_nil_r.
      assert (Hsame : Forall (fun line => line.1 = outputFile)
                        (map (line_of world outputFile) (omap id processedData))).
      { apply Forall_forall. intros line Hin.
        apply list_elem_of_fmap in Hin as (data & -> & _). reflexivity. }
      destruct (append_lines_same outputFile _ Hsame (files st)) as (Hc & Hother).
      split; [|split].
      * unfold content at 1. rewrite lookup_insert_ne by congruence. exact Hc.
      * exact Hsame.
      * intros path H1 H2. rewrite lookup_insert_ne by congruence. now apply Hother.
    + now rewrite offsets_app, A3, B3.
    + now rewrite told_app, A4, B4.
    + now rewrite fetch_errors_app, A5, B5.
    + now rewrite fetch_successes_app, A6, B6.
    + split; [reflexivity|]. split; [now rewrite saved_app, A2, B2|].
      split; [apply lookup_insert_eq|].
      eexists (_ ++ [_]). rewrite <- app_assoc. reflexivity.
  - split; [apply counted_quiet; reflexivity|].
    split; [intros _; apply appends_only_quiet; reflexivity|].
    auto 10.
Qed.

(** *** The loop *)

(** The loop appends to the output file only, and counts what it appends. *)
Lemma scrapeLoop_ledger (fuel : nat) (projectKey outputFile : string) :
  outputFile <> checkpointFile config projectKey ->
  forall (startAt totalIssues : Z) (st : State),
    let r := scrapeLoop world config fuel projectKey outputFile startAt totalIssues st in
    appends_only outputFile (checkpointFile config projectKey) st (final r) (events r) /\
    counted st (final r) (events r).
Proof.
  intros Hne. induction fuel as [|fuel IH]; intros startAt totalIssues st; cbv zeta.
  - cbn. split; [apply appends_only_quiet | apply counted_quiet]; reflexivity.
  - rewrite scrapeLoop_S. cbv zeta.
    pose proof (fetchIssues_appends_only outputFile (checkpointFile config projectKey)
                  projectKey startAt st) as Ha1.
    pose proof (fetchIssues_counted projectKey startAt st) as Hc1.
    cbv zeta in *.
    destruct (fetchIssues world config projectKey startAt st) as [[response|e|] st1 ev1];
      cbn [result final events] in *; [|now split|now split].
    destruct (issues response) as [|x xs] eqn:Hissues; cbn [result final events].
    { rewrite app_nil_r. now split. }
    pose proof (processPage_audit projectKey outputFile startAt response st1)
      as (Hc2 & Ha2 & _). cbv zeta in *. specialize (Ha2 Hne).
    destruct (processPage world config projectKey outputFile startAt response st1)
      as [[startAt'|e|] st2 ev2]; cbn [result final events] in *.
    2,3: split; [eapply appends_only_trans | eapply counted_trans]; eassumption.
    destruct (startAt' <? total response); cbn [result final events].
    + destruct (IH startAt' (total response) st2) as (Ha3 & Hc3). cbv zeta in *.
      split.
      * eapply appends_only_trans; [eassumption|].
        eapply appends_only_trans; [eassumption|].
        eapply appends_only_trans; [|eassumption].
        apply appends_only_quiet; reflexivity.
      * eapply counted_trans; [eassumption|].
        eapply counted_trans; [eassumption|].
        eapply counted_trans; [|eassumption].
        apply counted_quiet; reflexivity.
    + rewrite app_nil_r.
      split; [eapply appends_only_trans | eapply counted_trans]; eassumption.
Qed.

(** The checkpoints of the loop: where the file stands at the end, how
    the cursors run, and where the next fetch starts. *)
Lemma scrapeLoop_checkpoints (fuel : nat) (projectKey outputFile : string) :
  outputFile <> checkpointFile config projectKey ->
  forall (startAt totalIssues : Z) (st : State),
    let r := scrapeLoop world config fuel projectKey outputFile startAt totalIssues st in
    files (final r) !! checkpointFile config projectKey =
      match last (saved (events r)) with
      | Some c => Some (Checkpoint.text c)
      | None => files st !! checkpointFile config projectKey
      end /\
    Forall (Z.lt startAt) (cursors (events r)) /\
    StronglySorted Z.lt (cursors (events r)) /\
    Forall (fun c => Checkpoint.project c = projectKey) (saved (events r)) /\
    (forall l c l', saved (events r) = l ++ c :: l' ->
                    Checkpoint.completed c = true -> l' = []) /\
    told (events r) `prefix_of` startAt :: cursors (events r) /\
    (length (saved (events r)) <= length (told (events r)))%nat.
Proof.
  intros Hne. induction fuel as [|fuel IH]; intros startAt totalIssues st; cbv zeta.
  - cbn. split; [reflexivity|]. do 3 (split; [constructor|]).
    split; [intros [|? ?] ? ? ?; discriminate|]. split; [apply prefix_nil | lia].
  - rewrite scrapeLoop_S. cbv zeta.
    destruct (fetchIssues_spec world config projectKey startAt st)
      as [k [_ _ Hs1 _ _ Hf1 _ _ _]].
    pose proof (fetchIssues_told projectKey startAt st) as (Ht1 & _). cbv zeta in *.
    assert (Hquiet : forall st' : State,
               files st' = files st ->
               let evs := events (fetchIssues world config projectKey startAt st) in
               files st' !! checkpointFile config projectKey =
                 match last (saved evs) with
                 | Some c => Some (Checkpoint.text c)
                 | None => files st !! checkpointFile config projectKey
                 end /\
               Forall (Z.lt startAt) (cursors evs) /\
               StronglySorted Z.lt (cursors evs) /\
               Forall (fun c => Checkpoint.project c = projectKey) (saved evs) /\
               (forall l c l', saved evs = l ++ c :: l' ->
                               Checkpoint.completed c = true -> l' = []) /\
               told evs `prefix_of` startAt :: cursors evs /\
               (length (saved evs) <= length (told evs))%nat).
    { intros st' Hf. cbv zeta. unfold cursors.
      rewrite Hs1, Ht1, Hf. cbn. split; [reflexivity|]. do 3 (split; [constructor|]).
      split; [intros [|? ?] ? ? ?; discriminate|]. split; [reflexivity | lia]. }
    cbv zeta in Hquiet.
    destruct (fetchIssues world config projectKey startAt st) as [[response|e|] st1 ev1];
      cbn [result final events] in *; [|now apply Hquiet|now apply Hquiet].
    destruct (issues response) as [|x xs] eqn:Hissues; cbn [result final events].
    { rewrite app_nil_r. now apply Hquiet. }
    pose proof (processPage_audit projectKey outputFile startAt response st1)
      as (_ & _ & _ & Ht2 & _ & _ & Hres2). cbv zeta in *.
    destruct (processPage world config projectKey outputFile startAt response st1)
      as [[startAt'|e|] st2 ev2]; cbn [result final events] in *; [|contradiction|].
    2:{ destruct Hres2 as (-> & ->). rewrite app_nil_r. now apply Hquiet. }
    destruct Hres2 as (-> & Hs2 & Hcp & _).
    set (c := checkpoint_after world projectKey startAt response (ticks st1)) in *.
    assert (Hlt : startAt < startAt + Z.of_nat (length (issues response))).
    { rewrite Hissues. cbn [length]. lia. }
    assert (Hcur : Checkpoint.lastProcessedIndex c =
                   startAt + Z.of_nat (length (issues response))) by reflexivity.
    assert (Hproj : Checkpoint.project c = projectKey) by reflexivity.
    assert (Hdone : Checkpoint.completed c =
                    (total response <=? startAt + Z.of_nat (length (issues response))))
      by reflexivity.
    clearbody c.
    destruct (startAt + Z.of_nat (length (issues response)) <? total response) eqn:Hmore;
      cbn [result final events].
    + destruct (IH (startAt + Z.of_nat (length (issues response))) (total response) st2)
        as (I1 & I2 & I3 & I4 & I5 & I6 & I7).
      cbv zeta in *. unfold cursors in *.
      rewrite !saved_app, !told_app, Hs1, Hs2, Ht1, Ht2.
      change (saved [Pace (ScraperConfig.rateLimitDelay config)]) with (@nil Checkpoint.t).
      change (told [Pace (ScraperConfig.rateLimitDelay config)]) with (@nil Z).
      cbn [app map length]. rewrite Hcur.
      split; [|split; [|split; [|split; [|split; [|split]]]]].
      * rewrite last_cons, I1.
        match goal with
        | |- context [last (saved ?e)] => destruct (last (saved e))
        end; [reflexivity | exact Hcp].
      * constructor; [exact Hlt|].
        eapply Forall_impl; [exact I2|]. cbn. intros; lia.
      * constructor; assumption.
      * constructor; assumption.
      * intros [|c1 l] c0 l' E Hc0; cbn [app] in E.
        -- injection E as <- _. rewrite Hdone in Hc0.
           apply Z.leb_le in Hc0. apply Z.ltb_lt in Hmore. lia.
        -- injection E as _ E. exact (I5 l c0 l' E Hc0).
      * apply prefix_cons. exact I6.
      * lia.
    + rewrite app_nil_r. unfold cursors.
      rewrite !saved_app, !told_app, Hs1, Hs2, Ht1, Ht2. cbn [app map length last].
      rewrite Hcur.
      split; [exact Hcp|]. split; [repeat constructor; exact Hlt|].
      split; [repeat constructor|]. split; [repeat constructor; exact Hproj|].
      split; [|split; [apply prefix_cons, prefix_nil | lia]].
      intros [|c1 [|c2 l]] c0 l' E _; cbn [app] in E; try discriminate.
      now injection E.
Qed.

(** The loop tells an error once, as the last thing it does, and throws
    what [fetchIssues] throws for it; a loop that does not throw has
    told none. *)
Lemma scrapeLoop_errors (fuel : nat) (projectKey outputFile : string) :
  forall (startAt totalIssues : Z) (st : State),
    let r := scrapeLoop world config fuel projectKey outputFile startAt totalIssues st in
    match result r with
    | Throw error =>
        exists s cause,
          fetch_errors (events r) = [(projectKey, s, cause)] /\
          last (events r) = Some (EmitError projectKey s cause) /\
          last (told (events r)) = Some s /\
          error = thrown_for projectKey s cause
    | _ => fetch_errors (events r) = []
    end.
Proof.
  induction fuel as [|fuel IH]; intros startAt totalIssues st; cbv zeta; [reflexivity|].
  rewrite scrapeLoop_S. cbv zeta.
  pose proof (fetchIssues_notifications projectKey startAt st) as Hn.
  pose proof (fetchIssues_told projectKey startAt st) as (Ht1 & _). cbv zeta in *.
  destruct (fetchIssues world config projectKey startAt st) as [[response|e|] st1 ev1];
    cbn [result final events] in *; [| |contradiction].
  2:{ destruct Hn as (_ & cause & He & Hl & Hthrown).
      exists startAt, cause. rewrite Ht1. auto. }
  destruct Hn as (_ & He1 & _).
  destruct (issues response) as [|x xs] eqn:Hissues; cbn [result final events].
  { now rewrite app_nil_r. }
  pose proof (processPage_audit projectKey outputFile startAt response st1)
    as (_ & _ & _ & Ht2 & He2 & _ & Hres2). cbv zeta in *.
  destruct (processPage world config projectKey outputFile startAt response st1)
    as [[startAt'|e|] st2 ev2]; cbn [result final events] in *; [|contradiction|].
  2:{ now rewrite fetch_errors_app, He1, He2. }
  destruct (startAt' <? total response); cbn [result final events].
  2:{ now rewrite !fetch_errors_app, He1, He2. }
  specialize (IH startAt' (total response) st2). cbv zeta in IH.
  rewrite !fetch_errors_app, !told_app, He1, He2, Ht1, Ht2.
  change (fetch_errors [Pace (ScraperConfig.rateLimitDelay config)])
    with (@nil (string * Z * Exn)).
  change (told [Pace (ScraperConfig.rateLimitDelay config)]) with (@nil Z).
  cbn [app].
  destruct (result (scrapeLoop world config fuel projectKey outputFile startAt'
                      (total response) st2)) as [v|e|]; try exact IH.
  destruct IH as (s & cause & I1 & I2 & I3 & I4). exists s, cause.
  split; [exact I1|]. split; [|split; [|exact I4]].
  - rewrite !last_app, last_cons, I2. reflexivity.
  - rewrite last_cons, I3. reflexivity.
Qed.

(** Each fetch sends at most six requests, and each turn of the loop
    is one fetch. *)
Lemma scrapeLoop_requests (fuel : nat) (projectKey outputFile : string) :
  forall (startAt totalIssues : Z) (st : State),
    let r := scrapeLoop world config fuel projectKey outputFile startAt totalIssues st in
    (length (offsets (events r)) <= 6 * length (told (events r)))%nat /\
    (length (told (events r)) <= fuel)%nat.
Proof.
  induction fuel as [|fuel IH]; intros startAt totalIssues st; cbv zeta.
  - cbn. lia.
  - rewrite scrapeLoop_S. cbv zeta.
    destruct (fetchIssues_spec world config projectKey startAt st)
      as [k [Hk Ho1 _ _ _ _ _ _ _]].
    pose proof (fetchIssues_told projectKey startAt st) as (Ht1 & _). cbv zeta in *.
    assert (Hone : (length (offsets (events (fetchIssues world config projectKey startAt st)))
                    <= 6)%nat).
    { rewrite Ho1, length_replicate. unfold retries in Hk. lia. }
    destruct (fetchIssues world config projectKey startAt st) as [[response|e|] st1 ev1];
      cbn [result final events] in *.
    2,3: rewrite Ht1; cbn [length]; lia.
    destruct (issues response) as [|x xs] eqn:Hissues; cbn [result final events].
    { rewrite app_nil_r, Ht1. cbn [length]. lia. }
    pose proof (processPage_audit projectKey outputFile startAt response st1)
      as (_ & _ & Ho2 & Ht2 & _). cbv zeta in *.
    destruct (processPage world config projectKey outputFile startAt response st1)
      as [[startAt'|e|] st2 ev2]; cbn [result final events] in *.
    2,3: rewrite offsets_app, told_app, Ho2, Ht1, Ht2, app_nil_r; cbn [length app]; lia.
    destruct (startAt' <? total response); cbn [result final events].
    2:{ rewrite !offsets_app, !told_app, Ho2, Ht1, Ht2, !app_nil_r. cbn [length app]. lia. }
    destruct (IH startAt' (total response) st2) as (I1 & I2). cbv zeta in *.
    rewrite !offsets_app, !told_app, Ho2, Ht1, Ht2.
    change (offsets [Pace (ScraperConfig.rateLimitDelay config)]) with (@nil Z).
    change (told [Pace (ScraperConfig.rateLimitDelay config)]) with (@nil Z).
    rewrite !length_app. cbn [app length]. lia.
Qed.

(** With the totals bounded the number of fetches is bounded whatever
    the fuel. *)
Lemma scrapeLoop_fetches (bound : Z) (projectKey outputFile : string) :
  bounded_totals world bound ->
  forall (fuel : nat) (startAt totalIssues : Z) (st : State),
    let r := scrapeLoop world config fuel projectKey outputFile startAt totalIssues st in
    (length (told (events r)) <= Z.to_nat (Z.max 1 (bound - startAt)))%nat.
Proof.
  intros Hb. induction fuel as [|fuel IH]; intros startAt totalIssues st; cbv zeta.
  - cbn. lia.
  - rewrite scrapeLoop_S. cbv zeta.
    pose proof (fetchIssues_told projectKey startAt st) as (Ht1 & _).
    pose proof (fetched_total_bounded world config bound projectKey startAt st) as Htot.
    cbv zeta in *.
    destruct (fetchIssues world config projectKey startAt st) as [[response|e|] st1 ev1];
      cbn [result final events] in *.
    2,3: rewrite Ht1; cbn [length]; lia.
    specialize (Htot response Hb eq_refl).
    destruct (issues response) as [|x xs] eqn:Hissues; cbn [result final events].
    { rewrite app_nil_r, Ht1. cbn [length]. lia. }
    pose proof (processPage_audit projectKey outputFile startAt response st1)
      as (_ & _ & _ & Ht2 & _ & _ & Hres2). cbv zeta in *.
    destruct (processPage world config projectKey outputFile startAt response st1)
      as [[startAt'|e|] st2 ev2]; cbn [result final events] in *.
    2,3: rewrite told_app, Ht1, Ht2; cbn [length app]; lia.
    destruct Hres2 as (-> & _).
    assert (Hlt : startAt < startAt + Z.of_nat (length (issues response))).
    { rewrite Hissues. cbn [length]. lia. }
    destruct (startAt + Z.of_nat (length (issues response)) <? total response) eqn:Hmore;
      cbn [result final events].
    2:{ rewrite !told_app, Ht1, Ht2, !app_nil_r. cbn [length]. lia. }
    apply Z.ltb_lt in Hmore.
    specialize (IH (startAt + Z.of_nat (length (issues response))) (total response) st2).
    cbv zeta in IH.
    rewrite !told_app, Ht1, Ht2.
    change (told [Pace (ScraperConfig.rateLimitDelay config)]) with (@nil Z).
    cbn [app length]. lia.
Qed.

Lemma processBatch_stuck (x : JiraIssue) (xs : list JiraIssue) (st : State) :
  ScraperConfig.maxConcurrent config = 0%nat ->
  processBatch world config (x :: xs) st = MkRun OutOfFuel st [].
Proof.
  intros Hm. unfold processBatch, bind. cbn [get_state result final events].
  rewrite Hm. reflexivity.
Qed.

(** What a page adds to the successes and the failures: its length when
    it is saved, nothing when it is stuck in the limiter. *)
Lemma processPage_tally (projectKey outputFile : string) (startAt : Z)
  (response : JiraApiResponse JiraIssue) (st : State) :
  issues response <> [] ->
  let r := processPage world config projectKey outputFile startAt response st in
  Stats.successfulScrapes (stats (final r)) + Stats.failedScrapes (stats (final r)) =
  Stats.successfulScrapes (stats st) + Stats.failedScrapes (stats st) +
  match result r with
  | Ret _ => Z.of_nat (length (issues response))
  | _ => 0
  end.
Proof.
  intros Hne. cbv zeta.
  destruct (ScraperConfig.maxConcurrent config) as [|m] eqn:Hm.
  - destruct (issues response) as [|x xs] eqn:Hissues; [contradiction|].
    unfold processPage, bind. rewrite Hissues, (processBatch_stuck x xs st Hm).
    cbn. lia.
  - assert (H1 : (1 <= ScraperConfig.maxConcurrent config)%nat) by lia.
    rewrite (processPage_full projectKey outputFile startAt response st H1).
    cbn [result final stats].
    destruct (tally_counts (map (transform world) (issues response))
                (bump_totalIssues
                   (Z.of_nat (length (omap id (map (transform world) (issues response)))))
                   (stats st))) as (_ & T2 & T3 & _).
    cbv zeta in *. rewrite length_map in T3.
    cbn [Stats.successfulScrapes Stats.failedScrapes bump_totalIssues] in T2, T3.
    rewrite T2, T3. lia.
Qed.

(** Every issue behind the cursor has been counted, and no issue is
    counted that was not fetched. *)
Lemma scrapeLoop_range (fuel : nat) (projectKey outputFile : string) :
  forall (startAt totalIssues : Z) (st : State),
    let r := scrapeLoop world config fuel projectKey outputFile startAt totalIssues st in
    let counted_more :=
      Stats.successfulScrapes (stats (final r)) + Stats.failedScrapes (stats (final r))
      - (Stats.successfulScrapes (stats st) + Stats.failedScrapes (stats st)) in
    default startAt (last (cursors (events r))) - startAt <= counted_more /\
    counted_more <= Z.of_nat (fetched (events r)).
Proof.
  induction fuel as [|fuel IH]; intros startAt totalIssues st; cbv zeta.
  - cbn. lia.
  - rewrite scrapeLoop_S. cbv zeta.
    pose proof (fetchIssues_told projectKey startAt st) as (_ & Hn1).
    pose proof (fetchIssues_counts_scrapes projectKey startAt st) as (S1 & S2 & S3).
    destruct (fetchIssues_spec world config projectKey startAt st)
      as [k [_ _ Hs1 _ _ _ _ _ _]].
    cbv zeta in *.
    destruct (fetchIssues world config projectKey startAt st) as [[response|e|] st1 ev1];
      cbn [result final events] in *.
    2,3: unfold cursors; rewrite Hs1, Hn1; cbn; lia.
    destruct (issues response) as [|x xs] eqn:Hissues; cbn [result final events].
    { rewrite app_nil_r. unfold cursors. rewrite Hs1, Hn1. cbn. lia. }
    assert (Hne : issues response <> []) by (rewrite Hissues; discriminate).
    pose proof (processPage_tally projectKey outputFile startAt response st1 Hne) as Hpage.
    pose proof (processPage_audit projectKey outputFile startAt response st1)
      as (_ & _ & _ & _ & _ & Hf2 & Hres2).
    cbv zeta in *.
    assert (Hz : fetched (events (processPage world config projectKey outputFile startAt
                                    response st1)) = 0%nat).
    { unfold fetched. now rewrite Hf2. }
    clear Hf2.
    destruct (processPage world config projectKey outputFile startAt response st1)
      as [[startAt'|e|] st2 ev2]; cbn [result final events] in *; [|contradiction|].
    2:{ destruct Hres2 as (-> & ->). rewrite app_nil_r. unfold cursors.
        rewrite Hs1, Hn1. cbn. lia. }
    destruct Hres2 as (-> & Hs2 & _).
    rewrite <- Hissues in Hn1.
    destruct (startAt + Z.of_nat (length (issues response)) <? total response);
      cbn [result final events].
    + specialize (IH (startAt + Z.of_nat (length (issues response))) (total response) st2).
      cbv zeta in IH. destruct IH as (I1 & I2).
      unfold cursors in *. rewrite !saved_app, Hs1, Hs2, !fetched_app, Hn1, Hz.
      change (saved [Pace (ScraperConfig.rateLimitDelay config)]) with (@nil Checkpoint.t).
      change (fetched [Pace (ScraperConfig.rateLimitDelay config)]) with 0%nat.
      cbn [app map]. rewrite last_cons.
      change (Checkpoint.lastProcessedIndex
                (checkpoint_after world projectKey startAt response (ticks st1)))
        with (startAt + Z.of_nat (length (issues response))).
      destruct (last (map Checkpoint.lastProcessedIndex _)) as [cur|];
        cbn [default from_option id] in *; lia.
    + rewrite app_nil_r. unfold cursors. rewrite !saved_app, Hs1, Hs2, !fetched_app, Hn1, Hz.
      cbn [app map last default from_option id].
      change (Checkpoint.lastProcessedIndex
                (checkpoint_after world projectKey startAt response (ticks st1)))
        with (startAt + Z.of_nat (length (issues response))).
      lia.
Qed.

(** ** A project *)

Lemma scrapeProject_ledger (fuel : nat) (projectKey : string) (st : State) :
  let r := scrapeProject world config fuel projectKey st in
  appends_only (outputFileOf config projectKey) (checkpointFile config projectKey)
    st (final r) (events r) /\
  counted st (final r) (events r).
Proof.
  cbv zeta. rewrite scrapeProject_run. cbv zeta.
  destruct (loadCheckpoint_quiet world config projectKey st) as (_ & _ & Hf & Hs & _).
  destruct (loadCheckpoint world config projectKey st) as [[c|e|] st0 ev0];
    cbn [result final events] in *.
  2,3: split; [now apply appends_only_quiet | now apply counted_quiet].
  destruct (Checkpoint.completed c); cbn [final events].
  { split; [now apply appends_only_quiet | now apply counted_quiet]. }
  destruct (scrapeLoop_ledger fuel projectKey (outputFileOf config projectKey)
              (output_is_no_checkpoint projectKey projectKey)
              (Checkpoint.lastProcessedIndex c) 0 st0) as (Ha & Hc).
  cbv zeta in *. split.
  - apply (appends_only_trans _ _ st st0 _ [Starting projectKey]); [|exact Ha].
    now apply appends_only_quiet.
  - apply (counted_trans st st0 _ [Starting projectKey]); [|exact Hc].
    now apply counted_quiet.
Qed.

(** X7.  [scrapeProject] only ever appends to the output file of its
    project: at the end the file holds what it held before followed by
    the lines the run appended, in their order; every line the run
    appends goes to that file; and apart from that file and the
    checkpoint file of the project every file is as it was. *)
Theorem scrapeProject_appends_only (fuel : nat) (projectKey : string) (st : State) :
  let r := scrapeProject world config fuel projectKey st in
  content (files (final r)) (outputFileOf config projectKey) =
    content (files st) (outputFileOf config projectKey) +:+
    concat_lines (appended (events r)) /\
  Forall (fun line => line.1 = outputFileOf config projectKey) (appended (events r)) /\
  forall path,
    path <> outputFileOf config projectKey -> path <> checkpointFile config projectKey ->
    files (final r) !! path = files st !! path.
Proof. exact (proj1 (scrapeProject_ledger fuel projectKey st)). Qed.

Lemma scrapeProject_skips (fuel : nat) (projectKey : string) (c : Checkpoint.t)
  (st : State) :
  files st !! checkpointFile config projectKey = Some (Checkpoint.text c) ->
  Checkpoint.completed c = true ->
  scrapeProject world config fuel projectKey st = MkRun (Ret tt) st [Starting projectKey].
Proof.
  intros Hfile Hdone. rewrite scrapeProject_run. cbv zeta.
  rewrite (loadCheckpoint_saved world config projectKey c st Hfile).
  cbn [result final events]. now rewrite Hdone.
Qed.

(** X8.  A project whose checkpoint file holds a completed checkpoint
    is skipped: whatever the fuel, [scrapeProject] returns at once,
    having announced the project and nothing else; it sends no request,
    writes no file and leaves the statistics as they were. *)
Theorem completed_project_is_skipped (fuel : nat) (projectKey : string)
  (c : Checkpoint.t) (st : State) :
  files st !! checkpointFile config projectKey = Some (Checkpoint.text c) ->
  Checkpoint.completed c = true ->
  scrapeProject world config fuel projectKey st = MkRun (Ret tt) st [Starting projectKey].
Proof. apply scrapeProject_skips. Qed.

(** X9.  A page without issues ends the project and leaves no trace on
    disk.  When the checkpoint loaded is not completed and the remote
    answers the first request with an empty page, [scrapeProject]
    returns normally after that one request; it writes no checkpoint, so
    the files are as they were and the project is not marked completed,
    and it changes no counter. *)
Theorem empty_page_saves_nothing (fuel : nat) (projectKey : string) (c : Checkpoint.t)
  (st : State) (response : JiraApiResponse JiraIssue) :
  (1 <= fuel)%nat ->
  result (loadCheckpoint world config projectKey st) = Ret c ->
  Checkpoint.completed c = false ->
  transport world (sent st) projectKey (Checkpoint.lastProcessedIndex c) maxR =
    Reply 200 (Some response) ->
  issues response = [] ->
  let r := scrapeProject world config fuel projectKey st in
  result r = Ret tt /\
  events r = [Starting projectKey;
              HttpGet projectKey (Checkpoint.lastProcessedIndex c) maxR;
              EmitFetchSuccess projectKey (Checkpoint.lastProcessedIndex c) 0] /\
  files (final r) = files st /\ stats (final r) = stats st.
Proof.
  intros Hfuel Hload Hopen Ht Hempty. cbv zeta. rewrite scrapeProject_run. cbv zeta.
  destruct (loadCheckpoint_quiet world config projectKey st) as (He0 & Hn0 & Hf0 & Hs0 & _).
  destruct (loadCheckpoint world config projectKey st) as [res0 st0 ev0];
    cbn [result final events] in *. subst res0 ev0. rewrite Hopen.
  destruct fuel as [|fuel]; [lia|].
  rewrite scrapeLoop_S. cbv zeta.
  assert (Hreply : reply_at world config projectKey (Checkpoint.lastProcessedIndex c)
                     (sent st0) = inr (Some response)).
  { unfold reply_at. now rewrite Hn0, Ht. }
  rewrite (fetchIssues_ok world config projectKey _ st0 response Hreply).
  cbn [result final events]. rewrite Hempty. cbn [result final events unit_result length].
  cbn [sent_more files stats]. auto.
Qed.

Lemma scrapeProject_file (fuel : nat) (projectKey : string) (st : State) :
  let r := scrapeProject world config fuel projectKey st in
  files (final r) !! checkpointFile config projectKey =
    match last (saved (events r)) with
    | Some c => Some (Checkpoint.text c)
    | None => files st !! checkpointFile config projectKey
    end.
Proof.
  cbv zeta. rewrite scrapeProject_run. cbv zeta.
  destruct (loadCheckpoint_quiet world config projectKey st) as (_ & _ & Hf & _).
  destruct (loadCheckpoint world config projectKey st) as [[c|e|] st0 ev0];
    cbn [result final events] in *.
  2,3: now rewrite Hf.
  destruct (Checkpoint.completed c); cbn [final events].
  { now rewrite Hf. }
  destruct (scrapeLoop_checkpoints fuel projectKey (outputFileOf config projectKey)
              (output_is_no_checkpoint projectKey projectKey)
              (Checkpoint.lastProcessedIndex c) 0 st0) as (H1 & _).
  cbv zeta in *. rewrite H1, Hf. reflexivity.
Qed.

(** X10.  When [scrapeProject] is through, however it ended, the
    checkpoint file of the project holds the last checkpoint the run
    saved; a run that saved none has left the file as it found it. *)
Theorem checkpoint_file_holds_last_saved (fuel : nat) (projectKey : string) (st : State) :
  let r := scrapeProject world config fuel projectKey st in
  files (final r) !! checkpointFile config projectKey =
    match last (saved (events r)) with
    | Some c => Some (Checkpoint.text c)
    | None => files st !! checkpointFile config projectKey
    end.
Proof. apply scrapeProject_file. Qed.

(** The loop's facts about checkpoints, for the project. *)
Lemma scrapeProject_checkpoints (fuel : nat) (projectKey : string) (c0 : Checkpoint.t)
  (st : State) :
  result (loadCheckpoint world config projectKey st) = Ret c0 ->
  let r := scrapeProject world config fuel projectKey st in
  Forall (Z.lt (Checkpoint.lastProcessedIndex c0)) (cursors (events r)) /\
  StronglySorted Z.lt (cursors (events r)) /\
  Forall (fun c => Checkpoint.project c = projectKey) (saved (events r)) /\
  (forall l c l', saved (events r) = l ++ c :: l' ->
                  Checkpoint.completed c = true -> l' = []) /\
  told (events r) `prefix_of` Checkpoint.lastProcessedIndex c0 :: cursors (events r) /\
  (length (saved (events r)) <= length (told (events r)))%nat.
Proof.
  intros Hload. cbv zeta. rewrite scrapeProject_run. cbv zeta.
  destruct (loadCheckpoint world config projectKey st) as [res0 st0 ev0];
    cbn [result final events] in *. subst res0.
  destruct (Checkpoint.completed c0); cbn [final events].
  { cbn. do 3 (split; [constructor|]).
    split; [intros [|? ?] ? ? ?; discriminate|]. split; [apply prefix_nil | lia]. }
  destruct (scrapeLoop_checkpoints fuel projectKey (outputFileOf config projectKey)
              (output_is_no_checkpoint projectKey projectKey)
              (Checkpoint.lastProcessedIndex c0) 0 st0) as (_ & H).
  exact H.
Qed.

(** X11.  The cursor on disk only moves forward.  Each checkpoint
    [scrapeProject] saves has a cursor beyond that of the checkpoint
    saved before it, and the first one a cursor beyond that of the
    checkpoint the run loaded; and each names the project. *)
Theorem cursors_advance (fuel : nat) (projectKey : string) (c0 : Checkpoint.t)
  (st : State) :
  result (loadCheckpoint world config projectKey st) = Ret c0 ->
  let r := scrapeProject world config fuel projectKey st in
  StronglySorted Z.lt (Checkpoint.lastProcessedIndex c0 :: cursors (events r)) /\
  Forall (fun c => Checkpoint.project c = projectKey) (saved (events r)).
Proof.
  intros Hload.
  destruct (scrapeProject_checkpoints fuel projectKey c0 st Hload) as (H1 & H2 & H3 & _).
  cbv zeta. split; [constructor|]; assumption.
Qed.

(** X12.  Nothing is saved after a completed checkpoint: a checkpoint
    with [completed] set is the last one its run of [scrapeProject]
    saves. *)
Theorem nothing_saved_after_completion (fuel : nat) (projectKey : string) (st : State)
  (before after : list Checkpoint.t) (c : Checkpoint.t) :
  saved (events (scrapeProject world config fuel projectKey st)) = before ++ c :: after ->
  Checkpoint.completed c = true ->
  after = [].
Proof.
  intros Hsaved Hdone.
  pose proof (scrapeProject_run world config fuel projectKey st) as Hrun. cbv zeta in Hrun.
  destruct (result (loadCheckpoint world config projectKey st)) as [c0|e|] eqn:Hload.
  - destruct (scrapeProject_checkpoints fuel projectKey c0 st Hload)
      as (_ & _ & _ & H & _).
    exact (H before c after Hsaved Hdone).
  - rewrite Hrun in Hsaved. destruct before; discriminate Hsaved.
  - rewrite Hrun in Hsaved. destruct before; discriminate Hsaved.
Qed.

(** X13.  Each fetch begins where the last checkpoint stands.  The
    offsets of the fetches of [scrapeProject], in order, are the cursor
    of the checkpoint loaded followed by the cursors of the checkpoints
    saved, the last of which may not have been asked for; so no fetch
    is made between two checkpoints without the first being saved. *)
Theorem each_fetch_starts_at_the_saved_cursor (fuel : nat) (projectKey : string)
  (c0 : Checkpoint.t) (st : State) :
  result (loadCheckpoint world config projectKey st) = Ret c0 ->
  let r := scrapeProject world config fuel projectKey st in
  told (events r) `prefix_of` Checkpoint.lastProcessedIndex c0 :: cursors (events r) /\
  (length (saved (events r)) <= length (told (events r)))%nat.
Proof.
  intros Hload.
  destruct (scrapeProject_checkpoints fuel projectKey c0 st Hload)
    as (_ & _ & _ & _ & H5 & H6).
  cbv zeta. split; assumption.
Qed.

Lemma scrapeProject_errors (fuel : nat) (projectKey : string) (st : State) :
  let r := scrapeProject world config fuel projectKey st in
  match result r with
  | Throw error =>
      fetch_errors (events r) = [] \/
      exists s cause,
        fetch_errors (events r) = [(projectKey, s, cause)] /\
        last (events r) = Some (EmitError projectKey s cause) /\
        last (told (events r)) = Some s /\
        error = thrown_for projectKey s cause
  | _ => fetch_errors (events r) = []
  end.
Proof.
  cbv zeta. rewrite scrapeProject_run. cbv zeta.
  destruct (loadCheckpoint world config projectKey st) as [[c|e|] st0 ev0];
    cbn [result final events] in *; [|left; reflexivity|reflexivity].
  destruct (Checkpoint.completed c); cbn [result final events]; [reflexivity|].
  pose proof (scrapeLoop_errors fuel projectKey (outputFileOf config projectKey)
                (Checkpoint.lastProcessedIndex c) 0 st0) as H.
  cbv zeta in H.
  destruct (result (scrapeLoop world config fuel projectKey (outputFileOf config projectKey)
                      (Checkpoint.lastProcessedIndex c) 0 st0)) as [v|e|];
    cbn [unit_result]; try exact H.
  right. destruct H as (s & cause & H1 & H2 & H3 & H4). exists s, cause.
  split; [exact H1|]. split; [|split; [exact H3 | exact H4]].
  rewrite last_cons, H2. reflexivity.
Qed.

(** X14.  An 'error' that is told ends the project.  A run of
    [scrapeProject] tells at most one 'error'; when it tells one, that
    is for its own project, with the offset of the last fetch, and the
    last thing the run does, and the project ends by throwing: the
    error told when 'error' has a listener, and otherwise the error
    [emit] raises for an 'error' nobody hears.  So a project that
    returns has told no 'error'.  (A project can also fail without
    telling one, as when its checkpoint cannot be read.) *)
Theorem told_error_ends_the_project (fuel : nat) (projectKey : string) (st : State) :
  let r := scrapeProject world config fuel projectKey st in
  match fetch_errors (events r) with
  | [] => True
  | [(project, s, cause)] =>
      project = projectKey /\
      last (events r) = Some (EmitError projectKey s cause) /\
      last (told (events r)) = Some s /\
      result r = Throw (if error_listener world then cause
                        else UnhandledError projectKey s cause)
  | _ :: _ :: _ => False
  end.
Proof.
  cbv zeta. pose proof (scrapeProject_errors fuel projectKey st) as H. cbv zeta in H.
  destruct (result (scrapeProject world config fuel projectKey st)) as [v|e|] eqn:Hr.
  - now rewrite H.
  - destruct H as [->|(s & cause & -> & H2 & H3 & ->)]; [exact I|]. auto.
  - now rewrite H.
Qed.

(** X15.  With the totals the remote reports bounded, a project costs a
    bounded number of fetches, checkpoints and requests, whatever the
    fuel: at most as many fetches as issues lie between the cursor
    loaded and the bound, and at least room for one; no more
    checkpoints than fetches; and six requests for a fetch at most. *)
Theorem scrapeProject_requests_bounded (bound : Z) (fuel : nat) (projectKey : string)
  (c0 : Checkpoint.t) (st : State) :
  bounded_totals world bound ->
  result (loadCheckpoint world config projectKey st) = Ret c0 ->
  let r := scrapeProject world config fuel projectKey st in
  let pages := Z.to_nat (Z.max 1 (bound - Checkpoint.lastProcessedIndex c0)) in
  (length (told (events r)) <= pages)%nat /\
  (length (saved (events r)) <= pages)%nat /\
  (length (offsets (events r)) <= 6 * pages)%nat.
Proof.
  intros Hb Hload.
  destruct (scrapeProject_checkpoints fuel projectKey c0 st Hload)
    as (_ & _ & _ & _ & _ & Hsaved).
  cbv zeta in *. revert Hsaved. rewrite scrapeProject_run. cbv zeta.
  destruct (loadCheckpoint world config projectKey st) as [res0 st0 ev0];
    cbn [result final events] in *. subst res0.
  destruct (Checkpoint.completed c0); cbn [final events].
  { cbn. lia. }
  pose proof (scrapeLoop_fetches bound projectKey (outputFileOf config projectKey) Hb fuel
                (Checkpoint.lastProcessedIndex c0) 0 st0) as H1.
  destruct (scrapeLoop_requests fuel projectKey (outputFileOf config projectKey)
              (Checkpoint.lastProcessedIndex c0) 0 st0) as (H2 & _).
  cbv zeta in *.
  change (told (Starting projectKey :: ?e)) with (told e).
  change (saved (Starting projectKey :: ?e)) with (saved e).
  change (offsets (Starting projectKey :: ?e)) with (offsets e).
  intros Hsaved. lia.
Qed.

(** The next run of a project after this one. *)
Lemma scrapeProject_again (fuel fuel' : nat) (projectKey : string) (c : Checkpoint.t)
  (st : State) :
  let r := scrapeProject world config fuel projectKey st in
  last (saved (events r)) = Some c ->
  let r' := scrapeProject world config fuel' projectKey (final r) in
  if Checkpoint.completed c then r' = MkRun (Ret tt) (final r) [Starting projectKey]
  else (1 <= fuel')%nat ->
       head (offsets (events r')) = Some (Checkpoint.lastProcessedIndex c).
Proof.
  cbv zeta. intros Hlast.
  pose proof (scrapeProject_file fuel projectKey st) as Hfile. cbv zeta in Hfile.
  rewrite Hlast in Hfile.
  destruct (Checkpoint.completed c) eqn:Hdone.
  - now apply (scrapeProject_skips fuel' projectKey c).
  - intros Hfuel.
    rewrite (scrapeProject_resumed world config fuel' projectKey c _ Hfile Hdone).
    cbv zeta. cbn [events].
    destruct (scrapeLoop_trace world config fuel' projectKey (outputFileOf config projectKey)
                (Checkpoint.lastProcessedIndex c) 0
                (final (scrapeProject world config fuel projectKey st)))
      as (_ & _ & _ & Hhead & _).
    exact (Hhead Hfuel).
Qed.

(** X16.  The next run takes up where this one stopped.  If the last
    checkpoint a run of [scrapeProject] saved is completed, a further
    run for the project, from the state the first one left, returns at
    once without a request; if it is not completed, the first request
    of a further run asks for the page at the cursor of that
    checkpoint. *)
Theorem next_run_takes_up (fuel fuel' : nat) (projectKey : string) (c : Checkpoint.t)
  (st : State) :
  let r := scrapeProject world config fuel projectKey st in
  last (saved (events r)) = Some c ->
  let r' := scrapeProject world config fuel' projectKey (final r) in
  if Checkpoint.completed c then r' = MkRun (Ret tt) (final r) [Starting projectKey]
  else (1 <= fuel')%nat ->
       head (offsets (events r')) = Some (Checkpoint.lastProcessedIndex c).
Proof. apply scrapeProject_again. Qed.

Lemma scrapeProject_range (fuel : nat) (projectKey : string) (c0 : Checkpoint.t)
  (st : State) :
  result (loadCheckpoint world config projectKey st) = Ret c0 ->
  let r := scrapeProject world config fuel projectKey st in
  let counted_more :=
    Stats.successfulScrapes (stats (final r)) + Stats.failedScrapes (stats (final r))
    - (Stats.successfulScrapes (stats st) + Stats.failedScrapes (stats st)) in
  default (Checkpoint.lastProcessedIndex c0) (last (cursors (events r)))
    - Checkpoint.lastProcessedIndex c0 <= counted_more /\
  counted_more <= Z.of_nat (fetched (events r)).
Proof.
  intros Hload. cbv zeta. rewrite scrapeProject_run. cbv zeta.
  destruct (loadCheckpoint_quiet world config projectKey st) as (_ & _ & _ & Hs & _).
  destruct (loadCheckpoint world config projectKey st) as [res0 st0 ev0];
    cbn [result final events] in *. subst res0.
  destruct (Checkpoint.completed c0); cbn [final events].
  { rewrite Hs. cbn. lia. }
  destruct (scrapeLoop_range fuel projectKey (outputFileOf config projectKey)
              (Checkpoint.lastProcessedIndex c0) 0 st0) as (H1 & H2).
  cbv zeta in *. rewrite Hs in H1, H2.
  change (cursors (Starting projectKey :: ?e)) with (cursors e).
  change (fetched (Starting projectKey :: ?e)) with (fetched e).
  split; assumption.
Qed.

(** X18.  Every issue behind the saved cursor has been counted, and no
    issue is counted that was not fetched.  Over a run of
    [scrapeProject], [successfulScrapes] and [failedScrapes] together
    grow by at least the distance from the cursor of the checkpoint
    loaded to the cursor of the last checkpoint saved, and by at most
    the sum of the counts that the 'fetch-success' notifications
    carry. *)
Theorem counted_between_cursor_and_fetched (fuel : nat) (projectKey : string)
  (c0 : Checkpoint.t) (st : State) :
  result (loadCheckpoint world config projectKey st) = Ret c0 ->
  let r := scrapeProject world config fuel projectKey st in
  let counted_more :=
    Stats.successfulScrapes (stats (final r)) + Stats.failedScrapes (stats (final r))
    - (Stats.successfulScrapes (stats st) + Stats.failedScrapes (stats st)) in
  default (Checkpoint.lastProcessedIndex c0) (last (cursors (events r)))
    - Checkpoint.lastProcessedIndex c0 <= counted_more /\
  counted_more <= Z.of_nat (fetched (events r)).
Proof. apply scrapeProject_range. Qed.

(** ** All projects *)

Lemma forEachProject_counted (fuel : nat) (projects : list string) :
  forall st : State,
    let r := forEachProject world config fuel projects st in
    counted st (final r) (events r).
Proof.
  induction projects as [|project rest IH]; intros st; cbv zeta.
  - cbn. now apply counted_quiet.
  - rewrite forEachProject_cons. cbv zeta.
    destruct (scrapeProject_ledger fuel project st) as (_ & Hc). cbv zeta in Hc.
    destruct (scrapeProject world config fuel project st) as [[v|e|] st1 ev1];
      cbn [result final events] in *.
    + eapply counted_trans; [exact Hc | apply IH].
    + eapply counted_trans; [|apply IH].
      eapply counted_trans; [exact Hc | now apply counted_quiet].
    + exact Hc.
Qed.

(** X17.  The statistics follow the events.  Over a whole run of
    [scrapeProjects], [successfulScrapes] grows by the number of lines
    appended to the output files, and [totalIssues] by no less;
    [failedScrapes] never shrinks; and [retriedRequests] grows by at
    least the number of 'retry' notifications and by at most that
    number plus the number of 'error' notifications. *)
Theorem statistics_follow_the_events (fuel : nat) (st : State) :
  let r := scrapeProjects world config fuel st in
  let lines := Z.of_nat (length (appended (events r))) in
  let retry_events := Z.of_nat (length (retry_counts (events r))) in
  let error_events := Z.of_nat (length (fetch_errors (events r))) in
  Stats.successfulScrapes (stats (final r)) = Stats.successfulScrapes (stats st) + lines /\
  Stats.totalIssues (stats st) + lines <= Stats.totalIssues (stats (final r)) /\
  Stats.failedScrapes (stats st) <= Stats.failedScrapes (stats (final r)) /\
  Stats.retriedRequests (stats st) + retry_events <= Stats.retriedRequests (stats (final r)) /\
  Stats.retriedRequests (stats (final r)) <=
    Stats.retriedRequests (stats st) + retry_events + error_events.
Proof.
  cbv zeta.
  assert (Hall : counted st (final (scrapeProjects world config fuel st))
                   (events (scrapeProjects world config fuel st))).
  { rewrite scrapeProjects_run. cbv zeta.
    pose proof (forEachProject_counted fuel (ScraperConfig.projects config) st) as Hc.
    cbv zeta in Hc.
    destruct (forEachProject world config fuel (ScraperConfig.projects config) st)
      as [[v|e|] st1 ev1]; cbn [result final events] in *; try exact Hc.
    apply (counted_trans st st1 st1 ev1 [PrintStats (stats st1)] Hc).
    now apply counted_quiet. }
  destruct Hall as (H1 & H2 & H3 & H4 & H5).
  repeat split; try assumption. rewrite H2. lia.
Qed.

Lemma forEachProject_footprint (fuel : nat) (path : string) (projects : list string) :
  (forall project, project ∈ projects ->
     path <> outputFileOf config project /\ path <> checkpointFile config project) ->
  forall st : State,
    files (final (forEachProject world config fuel projects st)) !! path = files st !! path.
Proof.
  induction projects as [|project rest IH]; intros Hout st; [reflexivity|].
  rewrite forEachProject_cons. cbv zeta.
  destruct (Hout project) as (H1 & H2); [left|].
  destruct (scrapeProject_ledger fuel project st) as ((_ & _ & Hother) & _).
  cbv zeta in Hother. specialize (Hother path H1 H2).
  assert (Hrest : forall p, p ∈ rest ->
                    path <> outputFileOf config p /\ path <> checkpointFile config p).
  { intros p Hp. apply Hout. now right. }
  destruct (scrapeProject world config fuel project st) as [[v|e|] st1 ev1];
    cbn [result final events] in *.
  - now rewrite (IH Hrest).
  - now rewrite (IH Hrest).
  - exact Hother.
Qed.

(** X19.  A run of [scrapeProjects] touches the output file and the
    checkpoint file of the projects of its configuration and no other
    file: a path that is neither of these for any configured project
    holds at the end what it held at the start. *)
Theorem scrapeProjects_footprint (fuel : nat) (st : State) (path : string) :
  (forall project, project ∈ ScraperConfig.projects config ->
     path <> outputFileOf config project /\ path <> checkpointFile config project) ->
  files (final (scrapeProjects world config fuel st)) !! path = files st !! path.
Proof.
  intros Hout. rewrite scrapeProjects_run. cbv zeta.
  pose proof (forEachProject_footprint fuel path (ScraperConfig.projects config) Hout st)
    as H.
  destruct (forEachProject world config fuel (ScraperConfig.projects config) st)
    as [[v|e|] st1 ev1]; cbn [result final events] in *; exact H.
Qed.

Lemma fetchIssues_no_project_error (projectKey : string) (startAt : Z) (st : State) :
  project_errors (events (fetchIssues world config projectKey startAt st)) = [].
Proof.
  rewrite fetchIssues_run. cbv zeta. unfold client_get.
  destruct (attempt_quiet projectKey startAt retries 0 timeout0 st) as (_ & _ & _ & _ & Ha).
  cbv zeta in Ha.
  destruct (attempt world config projectKey startAt retries 0 timeout0 st)
    as [[[response|]|e|] st2 ev2]; cbn [result final events] in *;
    rewrite ?project_errors_app, Ha; reflexivity.
Qed.

Lemma scrapeProject_no_project_error (fuel : nat) (projectKey : string) (st : State) :
  project_errors (events (scrapeProject world config fuel projectKey st)) = [].
Proof.
  rewrite scrapeProject_run. cbv zeta.
  destruct (loadCheckpoint world config projectKey st) as [[c|e|] st0 ev0];
    cbn [result final events]; try reflexivity.
  destruct (Checkpoint.completed c); cbn [events]; [reflexivity|].
  change (project_errors (Starting projectKey :: ?e)) with (project_errors e).
  generalize (Checkpoint.lastProcessedIndex c) 0 st0.
  induction fuel as [|fuel IH]; intros startAt totalIssues st1; [reflexivity|].
  rewrite scrapeLoop_S. cbv zeta.
  pose proof (fetchIssues_no_project_error projectKey startAt st1) as H1.
  destruct (fetchIssues world config projectKey startAt st1) as [[response|e|] st2 ev2];
    cbn [result final events] in *; try exact H1.
  destruct (issues response) as [|x xs] eqn:Hissues; cbn [result final events].
  { now rewrite app_nil_r. }
  assert (H2 : project_errors
                 (events (processPage world config projectKey (outputFileOf config projectKey)
                            startAt response st2)) = []).
  { destruct (processPage_cases projectKey (outputFileOf config projectKey) startAt
                response st2) as [(pd & ->)| ->]; cbv zeta; cbn [events]; [|reflexivity].
    rewrite project_errors_app.
    induction (omap id pd) as [|d l IHl]; [reflexivity | exact IHl]. }
  destruct (processPage world config projectKey (outputFileOf config projectKey) startAt
              response st2) as [[startAt'|e|] st3 ev3]; cbn [result final events] in *.
  2,3: now rewrite project_errors_app, H1, H2.
  destruct (startAt' <? total response); cbn [result final events].
  - rewrite !project_errors_app, H1, H2, IH. reflexivity.
  - rewrite !project_errors_app, H1, H2. reflexivity.
Qed.

Lemma forEachProject_errors (fuel : nat) (projects : list string) :
  forall st : State,
    let r := forEachProject world config fuel projects st in
    map fst (project_errors (events r)) `sublist_of` projects /\
    map (fun x => (x.1.1, thrown_for x.1.1 x.1.2 x.2)) (fetch_errors (events r))
      `sublist_of` project_errors (events r).
Proof.
  induction projects as [|project rest IH]; intros st; cbv zeta.
  - cbn. split; constructor.
  - rewrite forEachProject_cons. cbv zeta.
    pose proof (scrapeProject_errors fuel project st) as He.
    pose proof (scrapeProject_no_project_error fuel project st) as Hn.
    cbv zeta in He.
    destruct (scrapeProject world config fuel project st) as [[v|e|] st1 ev1];
      cbn [result final events] in *.
    + destruct (IH st1) as (I1 & I2). cbv zeta in *.
      rewrite project_errors_app, fetch_errors_app, Hn, He. cbn [app map].
      split; [now apply sublist_cons | exact I2].
    + destruct (IH st1) as (I1 & I2). cbv zeta in *.
      rewrite !project_errors_app, !fetch_errors_app, Hn.
      change (project_errors [EmitProjectError project e]) with [(project, e)].
      change (fetch_errors [EmitProjectError project e]) with (@nil (string * Z * Exn)).
      rewrite app_nil_r. cbn [app map fst].
      split; [now apply sublist_skip|].
      destruct He as [->|(s & cause & -> & _ & _ & ->)]; cbn [app map fst snd].
      * now apply sublist_cons.
      * now apply sublist_skip.
    + rewrite Hn, He. cbn. split; [apply sublist_nil_l | constructor].
Qed.

(** X20.  Every failure of a project is reported once.  In a run of
    [scrapeProjects] the projects named by the 'project-error'
    notifications are configured projects, in the order of the
    configuration, each at most as often as it is configured; and every
    'error' a fetch told is matched, in order, by a 'project-error' for
    the same project, which carries the error told when 'error' has a
    listener and otherwise the error [emit] raises for an 'error'
    nobody hears. *)
Theorem failures_are_reported (fuel : nat) (st : State) :
  let r := scrapeProjects world config fuel st in
  map fst (project_errors (events r)) `sublist_of` ScraperConfig.projects config /\
  map (fun x => (x.1.1, if error_listener world then x.2
                        else UnhandledError x.1.1 x.1.2 x.2))
    (fetch_errors (events r)) `sublist_of` project_errors (events r).
Proof.
  cbv zeta. rewrite scrapeProjects_run. cbv zeta.
  pose proof (forEachProject_errors fuel (ScraperConfig.projects config) st) as H.
  cbv zeta in H. unfold Page.thrown_for in H.
  destruct (forEachProject world config fuel (ScraperConfig.projects config) st)
    as [[v|e|] st1 ev1]; cbn [result final events] in *; try exact H.
  rewrite project_errors_app, fetch_errors_app.
  change (project_errors [PrintStats (stats st1)]) with (@nil (string * Exn)).
  change (fetch_errors [PrintStats (stats st1)]) with (@nil (string * Z * Exn)).
  now rewrite !app_nil_r.
Qed.
End More.
End ScraperMore.

(* ===================================================================== *)
(** * Plain text from markup                                              *)
(* ===================================================================== *)

Module HtmlFacts.
Import Html.

#[local] Arguments String.append !_ _ / : simpl nomatch.

Lemma has_gt_strip (s : string) :
  forall b, has_gt (strip_tags_from b s) = true -> has_gt s = true.
Proof.
  induction s as [|c r IH]; intros b; cbn; [auto|].
  destruct b.
  - destruct (Ascii.eqb c ">"); [reflexivity|]. cbn. apply IH.
  - destruct (Ascii.eqb c "<" && has_gt r); cbn.
    + intros H. apply IH in H. rewrite H. apply orb_true_r.
    + destruct (Ascii.eqb c ">"); [reflexivity|]. cbn. apply IH.
Qed.

Lemma occurs_strip (a : ascii) (s : string) :
  forall b, occurs a (strip_tags_from b s) = true -> occurs a s = true.
Proof.
  induction s as [|c r IH]; intros b; cbn; [auto|].
  destruct b.
  - destruct (Ascii.eqb c ">"); intros H; apply IH in H; rewrite H; apply orb_true_r.
  - destruct (Ascii.eqb c "<" && has_gt r); cbn.
    + intros H. apply IH in H. rewrite H. apply orb_true_r.
    + destruct (Ascii.eqb c a); [reflexivity|]. cbn. apply IH.
Qed.

(** No match of the tag pattern is left behind. *)
Lemma strip_no_tag (s : string) : forall b, has_tag (strip_tags_from b s) = false.
Proof.
  induction s as [|c r IH]; intros b; cbn; [reflexivity|].
  destruct b.
  - destruct (Ascii.eqb c ">"); apply IH.
  - destruct (Ascii.eqb c "<" && has_gt r) eqn:E; [apply IH|].
    cbn. rewrite IH, orb_false_r.
    destruct (Ascii.eqb c "<"); [|reflexivity]. cbn in *.
    destruct (has_gt (strip_tags_from false r)) eqn:G; [|reflexivity].
    apply has_gt_strip in G. congruence.
Qed.

Lemma strip_plain (s : string) : occurs "<" s = false -> strip_tags s = s.
Proof.
  unfold strip_tags. induction s as [|c r IH]; cbn; [reflexivity|].
  intros H. apply orb_false_iff in H as (Hc & Hr).
  rewrite Hc. cbn. now rewrite IH.
Qed.

Lemma replace_plain (p rep s : string) :
  occurs "&" s = false -> replace_all (String "&" p) rep s = s.
Proof.
  unfold replace_all. induction s as [|c r IH]; [reflexivity|].
  cbn [occurs]. intros H. apply orb_false_iff in H as (Hc & Hr).
  cbn [replace_from String.prefix].
  destruct (ascii_dec "&" c) as [<-|_]; [discriminate Hc|].
  now rewrite IH.
Qed.

Lemma has_gt_trim_start (s : string) : has_gt (trim_start s) = true -> has_gt s = true.
Proof.
  induction s as [|c r IH]; cbn; [auto|].
  destruct (is_space c); [|auto]. intros H. rewrite (IH H). apply orb_true_r.
Qed.

Lemma has_tag_trim_start (s : string) : has_tag (trim_start s) = true -> has_tag s = true.
Proof.
  induction s as [|c r IH]; cbn; [auto|].
  destruct (is_space c); [|auto]. intros H. rewrite (IH H). apply orb_true_r.
Qed.

Lemma has_gt_trim_end (s : string) : has_gt (trim_end s) = true -> has_gt s = true.
Proof.
  induction s as [|c r IH]; cbn; [auto|].
  destruct (trim_end r) as [|a t].
  - destruct (is_space c); cbn; [discriminate|].
    rewrite orb_false_r. intros ->. reflexivity.
  - cbn [has_gt] in *. destruct (Ascii.eqb c ">"); [reflexivity|]. cbn. exact IH.
Qed.

Lemma has_tag_trim_end (s : string) : has_tag (trim_end s) = true -> has_tag s = true.
Proof.
  induction s as [|c r IH]; cbn [trim_end has_tag]; [auto|].
  pose proof (has_gt_trim_end r) as Hgt.
  destruct (trim_end r) as [|a t].
  - destruct (is_space c); cbn; [discriminate|].
    rewrite andb_false_r. discriminate.
  - cbn [has_tag] in *. intros H. apply orb_true_iff in H as [H|H].
    + apply andb_true_iff in H as (-> & H). rewrite (Hgt H). reflexivity.
    + rewrite (IH H). apply orb_true_r.
Qed.

Lemma trim_start_head (s : string) : starts_with_space (trim_start s) = false.
Proof.
  induction s as [|c r IH]; cbn; [reflexivity|].
  destruct (is_space c) eqn:Hc; [exact IH | exact Hc].
Qed.

Lemma trim_end_head (s : string) :
  starts_with_space s = false -> starts_with_space (trim_end s) = false.
Proof.
  destruct s as [|c r]; cbn; [auto|]. intros Hc.
  destruct (trim_end r); [rewrite Hc|]; cbn; auto.
Qed.

Lemma trim_end_last (s : string) : ends_with_space (trim_end s) = false.
Proof.
  induction s as [|c r IH]; cbn [trim_end]; [reflexivity|].
  destruct (trim_end r) as [|a t].
  - destruct (is_space c) eqn:Hc; cbn; [reflexivity | exact Hc].
  - exact IH.
Qed.

Lemma trim_trimmed (s : string) :
  starts_with_space (trim s) = false /\ ends_with_space (trim s) = false.
Proof.
  unfold trim. split; [apply trim_end_head, trim_start_head | apply trim_end_last].
Qed.

Lemma length_append (a b : string) :
  String.length (a +:+ b) = (String.length a + String.length b)%nat.
Proof. induction a as [|c a IH]; cbn; [reflexivity | now rewrite IH]. Qed.

Lemma length_strip (s : string) :
  forall b, (String.length (strip_tags_from b s) <= String.length s)%nat.
Proof.
  induction s as [|c r IH]; intros b; cbn; [lia|].
  destruct b.
  - destruct (Ascii.eqb c ">"); [specialize (IH false) | specialize (IH true)]; lia.
  - destruct (Ascii.eqb c "<" && has_gt r); cbn;
      [specialize (IH true) | specialize (IH false)]; lia.
Qed.

Lemma prefix_length (p s : string) :
  String.prefix p s = true -> (String.length p <= String.length s)%nat.
Proof.
  revert s. induction p as [|a p IH]; intros s; [cbn; lia|].
  destruct s as [|c r]; cbn; [discriminate|].
  destruct (ascii_dec a c); [|discriminate]. intros H. apply IH in H. lia.
Qed.

Lemma length_replace_from (pat rep : string) :
  (String.length rep <= String.length pat)%nat ->
  forall (s : string) (k : nat),
    (String.length (replace_from pat rep k s) + Nat.min k (String.length s)
     <= String.length s)%nat.
Proof.
  intros Hrep. induction s as [|c r IH]; intros k; [cbn; lia|].
  cbn [replace_from]. destruct k as [|k].
  - destruct (String.prefix pat (String c r)) eqn:Hp.
    + apply prefix_length in Hp. cbn [String.length] in *.
      rewrite length_append. specialize (IH (String.length pat - 1)%nat). lia.
    + specialize (IH 0%nat). cbn [String.length]. lia.
  - specialize (IH k). cbn [String.length]. lia.
Qed.

Lemma length_replace_all (pat rep s : string) :
  (String.length rep <= String.length pat)%nat ->
  (String.length (replace_all pat rep s) <= String.length s)%nat.
Proof.
  intros Hrep. pose proof (length_replace_from pat rep Hrep s 0). unfold replace_all. lia.
Qed.

Lemma length_trim_start (s : string) :
  (String.length (trim_start s) <= String.length s)%nat.
Proof. induction s as [|c r IH]; cbn; [lia|]. destruct (is_space c); cbn; lia. Qed.

Lemma length_trim_end (s : string) :
  (String.length (trim_end s) <= String.length s)%nat.
Proof.
  induction s as [|c r IH]; cbn [trim_end]; [cbn; lia|].
  destruct (trim_end r) as [|a t]; [destruct (is_space c)|]; cbn in *; lia.
Qed.

Lemma length_trim (s : string) : (String.length (trim s) <= String.length s)%nat.
Proof.
  unfold trim. pose proof (length_trim_end (trim_start s)).
  pose proof (length_trim_start s). lia.
Qed.

(** X21.  What [stripHtmlTags] returns is trimmed, whatever it is
    given: the text neither begins nor ends with white space. *)
Theorem stripHtmlTags_is_trimmed (html : option string) :
  starts_with_space (stripHtmlTags html) = false /\
  ends_with_space (stripHtmlTags html) = false.
Proof.
  destruct html as [[|c r]|]; [split; reflexivity | | split; reflexivity].
  unfold stripHtmlTags. apply trim_trimmed.
Qed.

(** X22.  [stripHtmlTags] never makes a text longer. *)
Theorem stripHtmlTags_never_longer (html : string) :
  (String.length (stripHtmlTags (Some html)) <= String.length html)%nat.
Proof.
  destruct html as [|c r]; [cbn; lia|].
  unfold stripHtmlTags. set (s := String c r).
  pose proof (length_strip s false) as H0. fold (strip_tags s) in H0.
  pose proof (length_replace_all "&nbsp;" " " (strip_tags s)) as H1.
  set (s1 := replace_all "&nbsp;" " " (strip_tags s)) in *.
  pose proof (length_replace_all "&amp;" "&" s1) as H2.
  set (s2 := replace_all "&amp;" "&" s1) in *.
  pose proof (length_replace_all "&lt;" "<" s2) as H3.
  set (s3 := replace_all "&lt;" "<" s2) in *.
  pose proof (length_replace_all "&gt;" ">" s3) as H4.
  set (s4 := replace_all "&gt;" ">" s3) in *.
  pose proof (length_replace_all "&quot;" (String Json.dquote EmptyString) s4) as H5.
  set (s5 := replace_all "&quot;" (String Json.dquote EmptyString) s4) in *.
  pose proof (length_trim s5) as H6.
  cbn [String.length] in H1, H2, H3, H4, H5.
  specialize (H1 ltac:(lia)). specialize (H2 ltac:(lia)). specialize (H3 ltac:(lia)).
  specialize (H4 ltac:(lia)). specialize (H5 ltac:(lia)).
  lia.
Qed.

(** X23.  A text without '<' and without '&' is only trimmed:
    [stripHtmlTags] takes nothing else from it and changes nothing in
    it. *)
Theorem stripHtmlTags_plain_text (html : string) :
  occurs "<" html = false -> occurs "&" html = false ->
  stripHtmlTags (Some html) = trim html.
Proof.
  intros Hlt Hamp. destruct html as [|c r]; [reflexivity|].
  unfold stripHtmlTags. rewrite (strip_plain _ Hlt).
  rewrite (replace_plain "nbsp;" _ _ Hamp), (replace_plain "amp;" _ _ Hamp),
    (replace_plain "lt;" _ _ Hamp), (replace_plain "gt;" _ _ Hamp),
    (replace_plain "quot;" _ _ Hamp).
  reflexivity.
Qed.

(** X24.  From a text without '&' every tag is taken: the result of
    [stripHtmlTags] holds no '<' with a '>' behind it.  (With entities
    in the text this fails: they are decoded after the tags are taken
    out, and a decoded '<' and '>' stay.) *)
Theorem stripHtmlTags_leaves_no_tag (html : string) :
  occurs "&" html = false ->
  has_tag (stripHtmlTags (Some html)) = false.
Proof.
  intros Hamp. destruct html as [|c r]; [reflexivity|].
  unfold stripHtmlTags. set (s := String c r) in *.
  assert (Hs : occurs "&" (strip_tags s) = false).
  { destruct (occurs "&" (strip_tags s)) eqn:E; [|reflexivity].
    apply occurs_strip in E. congruence. }
  rewrite (replace_plain "nbsp;" _ _ Hs), (replace_plain "amp;" _ _ Hs),
    (replace_plain "lt;" _ _ Hs), (replace_plain "gt;" _ _ Hs),
    (replace_plain "quot;" _ _ Hs).
  destruct (has_tag (trim (strip_tags s))) eqn:E; [|reflexivity].
  unfold trim in E. apply has_tag_trim_end, has_tag_trim_start in E.
  unfold strip_tags in E. now rewrite strip_no_tag in E.
Qed.

(** The cases of the repository's tests. *)
Example stripHtmlTags_removes_tags :
  stripHtmlTags (Some "<p>This is <strong>bold</strong> text</p>") = "This is bold text".
Proof. reflexivity. Qed.

Example stripHtmlTags_of_nothing :
  stripHtmlTags (Some "") = "" /\ stripHtmlTags None = "".
Proof. split; reflexivity. Qed.

Example stripHtmlTags_decodes_entities :
  stripHtmlTags (Some "Test &amp; &lt;tag&gt; &quot;quotes&quot;") =
  "Test & <tag> " +:+ String Json.dquote ("quotes" +:+ String Json.dquote "").
Proof. reflexivity. Qed.

(** An entity that was escaped once more is decoded twice. *)
Example stripHtmlTags_decodes_twice :
  stripHtmlTags (Some "a &amp;lt; b") = "a < b".
Proof. reflexivity. Qed.

End HtmlFacts.

(* ===================================================================== *)
(** * The configuration from the environment                              *)
(* ===================================================================== *)

Module ConfigFacts.
Import Config.

#[local] Arguments String.append !_ _ / : simpl nomatch.

Lemma split_not_nil (sep : ascii) (s : string) : split sep s <> [].
Proof.
  destruct s as [|c r]; cbn; [discriminate|].
  destruct (Ascii.eqb c sep); [discriminate|]. destruct (split sep r); discriminate.
Qed.

Lemma split_pieces (sep : ascii) (s : string) :
  Forall (fun piece => has_sep sep piece = false) (split sep s).
Proof.
  induction s as [|c r IH]; cbn.
  - repeat constructor.
  - destruct (Ascii.eqb c sep) eqn:Hc; [constructor; [reflexivity | exact IH]|].
    destruct (split sep r) as [|piece pieces].
    + repeat constructor. cbn. now rewrite Hc.
    + inversion IH as [|? ? Hp Hps]; subst. constructor; [|exact Hps].
      cbn. now rewrite Hc, Hp.
Qed.

Lemma split_plain (sep : ascii) (a : string) :
  has_sep sep a = false -> split sep a = [a].
Proof.
  induction a as [|c a IH]; cbn; [reflexivity|].
  intros H. apply orb_false_iff in H as (Hc & Ha). rewrite Hc, (IH Ha). reflexivity.
Qed.

Lemma split_before_sep (sep : ascii) (a r : string) :
  has_sep sep a = false -> split sep (a +:+ String sep r) = a :: split sep r.
Proof.
  induction a as [|c a IH]; cbn [String.append has_sep].
  - intros _. cbn. now rewrite Ascii.eqb_refl.
  - intros H. apply orb_false_iff in H as (Hc & Ha).
    cbn [split]. rewrite Hc, (IH Ha). reflexivity.
Qed.

Lemma split_join (names : list string) :
  names <> [] -> Forall (fun name => has_sep comma name = false) names ->
  split comma (join names) = names.
Proof.
  unfold join. induction names as [|name rest IH]; [congruence|].
  intros _ Hall. inversion Hall as [|? ? Hname Hrest]; subst.
  destruct rest as [|name' rest].
  - cbn. now apply split_plain.
  - change (String.concat "," (name :: name' :: rest))
      with (name +:+ String comma (String.concat "," (name' :: rest))).
    rewrite (split_before_sep _ _ _ Hname), IH; [reflexivity | discriminate | exact Hrest].
Qed.

Lemma filter_nonempty (names : list string) :
  Forall (fun name => name <> EmptyString) names ->
  List.filter (fun s => negb (String.length s =? 0)%nat) names = names.
Proof.
  induction 1 as [|name rest Hname _ IH]; [reflexivity|].
  cbn. destruct name; [contradiction|]. cbn. now rewrite IH.
Qed.

(** X25.  The names [getEnvArray] returns are proper names: none is
    empty and none holds a comma. *)
Theorem getEnvArray_names (env : gmap string string) (key : string) (names : list string) :
  getEnvArray env key = inr names ->
  Forall (fun name => name <> EmptyString /\ has_sep comma name = false) names.
Proof.
  unfold getEnvArray. destruct (env !! key) as [[|c r]|]; try discriminate.
  intros [= <-]. apply Forall_forall. intros name Hin.
  apply list_elem_of_In, filter_In in Hin as (Hin & Hlen). split.
  - intros ->. discriminate Hlen.
  - pose proof (split_pieces comma (String c r)) as Hall.
    rewrite Forall_forall in Hall. apply Hall. now apply list_elem_of_In.
Qed.

(** X26.  [getEnvArray] reads back a list written with commas.  When
    the variable holds the names of a list that is not empty, joined by
    commas, each name not empty and free of commas, [getEnvArray]
    returns that list. *)
Theorem getEnvArray_of_joined (env : gmap string string) (key : string)
  (names : list string) :
  names <> [] ->
  Forall (fun name => name <> EmptyString /\ has_sep comma name = false) names ->
  getEnvArray (<[key := join names]> env) key = inr names.
Proof.
  intros Hne Hall. unfold getEnvArray. rewrite lookup_insert_eq.
  assert (H1 : Forall (fun name => name <> EmptyString) names)
    by (eapply Forall_impl; [exact Hall | now intros ? (? & _)]).
  assert (H2 : Forall (fun name => has_sep comma name = false) names)
    by (eapply Forall_impl; [exact Hall | now intros ? (_ & ?)]).
  pose proof (split_join names Hne H2) as Hsplit.
  destruct (join names) as [|c r] eqn:Hj.
  - cbn in Hsplit. subst names. inversion H1 as [|? ? Hx _]. contradiction.
  - rewrite Hsplit. now rewrite filter_nonempty.
Qed.

(** An unset variable and an empty one are errors; commas alone give an
    empty list without an error. *)
Example getEnvArray_edges :
  getEnvArray ∅ "JIRA_PROJECTS" = inl "Missing environment variable: JIRA_PROJECTS" /\
  getEnvArray {[ "JIRA_PROJECTS" := "" ]} "JIRA_PROJECTS" =
    inl "Missing environment variable: JIRA_PROJECTS" /\
  getEnvArray {[ "JIRA_PROJECTS" := ",," ]} "JIRA_PROJECTS" = inr [] /\
  getEnvArray {[ "JIRA_PROJECTS" := "HADOOP,,KAFKA," ]} "JIRA_PROJECTS" =
    inr ["HADOOP"; "KAFKA"].
Proof. repeat split; vm_compute; reflexivity. Qed.

End ConfigFacts.

(* ===================================================================== *)
(** * The further theorems at concrete runs                               *)
(* ===================================================================== *)

Module MoreRuns.
Import Effect Axios JiraScraper Trace Scenario MoreScenario ScraperMore.

Lemma remote250_bounded : bounded_totals remote250 250.
Proof.
  intros n project startAt pageSize status response H.
  unfold remote250, world_of in H. cbn [transport] in H.
  unfold reply_ok in H. injection H as _ <-. cbn. lia.
Qed.

Lemma retryVerdict_of_get_witness :
  retryVerdict remote250 error503 =
  match status error503 with
  | Some s => (s =? 429) || (500 <=? s)
  | None => negb (bool_decide (code error503 = Some "ECONNABORTED"))
  end.
Proof. apply (retryVerdict_of_get remote250 error503). reflexivity. Defined.




Lemma completed_project_is_skipped_witness :
  scrapeProject remote250 config_test 5 "TEST" finished =
  MkRun (Ret tt) finished [Starting "TEST"].
Proof.
  apply (completed_project_is_skipped remote250 config_test 5 "TEST" checkpoint250 finished).
  - vm_compute. reflexivity.
  - reflexivity.
Defined.

Lemma empty_page_saves_nothing_witness :
  let r := scrapeProject no_issues config_test 1 "TEST" fresh in
  result r = Ret tt /\
  events r = [Starting "TEST"; HttpGet "TEST" 0 100; EmitFetchSuccess "TEST" 0 0] /\
  files (final r) = files fresh /\ stats (final r) = stats fresh.
Proof.
  apply (empty_page_saves_nothing no_issues config_test 1 "TEST"
           (zero_state "TEST" (now no_issues 0)) fresh empty_page).
  - lia.
  - vm_compute. reflexivity.
  - reflexivity.
  - reflexivity.
  - reflexivity.
Defined.

Lemma cursors_advance_witness :
  let r := scrapeProject remote250 config_test 5 "TEST" fresh in
  StronglySorted Z.lt (0 :: cursors (events r)) /\
  Forall (fun c => Checkpoint.project c = "TEST") (saved (events r)).
Proof.
  apply (cursors_advance remote250 config_test 5 "TEST"
           (zero_state "TEST" (now remote250 0)) fresh).
  vm_compute. reflexivity.
Defined.

Lemma nothing_saved_after_completion_witness :
  saved (events (scrapeProject remote250 config_test 5 "TEST" fresh)) =
    [saved100; saved200] ++ saved250 :: [] /\
  @nil Checkpoint.t = [].
Proof.
  assert (H : saved (events (scrapeProject remote250 config_test 5 "TEST" fresh)) =
              [saved100; saved200] ++ saved250 :: []) by (vm_compute; reflexivity).
  split; [exact H|].
  apply (nothing_saved_after_completion remote250 config_test 5 "TEST" fresh
           [saved100; saved200] [] saved250 H).
  reflexivity.
Defined.

Lemma each_fetch_starts_at_the_saved_cursor_witness :
  let r := scrapeProject remote250 config_test 5 "TEST" fresh in
  told (events r) `prefix_of` 0 :: cursors (events r) /\
  (length (saved (events r)) <= length (told (events r)))%nat.
Proof.
  apply (each_fetch_starts_at_the_saved_cursor remote250 config_test 5 "TEST"
           (zero_state "TEST" (now remote250 0)) fresh).
  vm_compute. reflexivity.
Defined.

Lemma scrapeProject_requests_bounded_witness :
  let r := scrapeProject remote250 config_test 5 "TEST" fresh in
  (length (told (events r)) <= 250)%nat /\
  (length (saved (events r)) <= 250)%nat /\
  (length (offsets (events r)) <= 6 * 250)%nat.
Proof.
  apply (scrapeProject_requests_bounded remote250 config_test 250 5 "TEST"
           (zero_state "TEST" (now remote250 0)) fresh).
  - exact remote250_bounded.
  - vm_compute. reflexivity.
Defined.

Lemma next_run_takes_up_witness :
  scrapeProject remote250 config_test 1 "TEST"
    (final (scrapeProject remote250 config_test 5 "TEST" fresh)) =
  MkRun (Ret tt) (final (scrapeProject remote250 config_test 5 "TEST" fresh))
    [Starting "TEST"].
Proof.
  apply (next_run_takes_up remote250 config_test 5 1 "TEST" saved250 fresh).
  vm_compute. reflexivity.
Defined.

Lemma counted_between_cursor_and_fetched_witness :
  let r := scrapeProject remote250 config_test 5 "TEST" fresh in
  let counted_more :=
    Stats.successfulScrapes (stats (final r)) + Stats.failedScrapes (stats (final r))
    - (Stats.successfulScrapes (stats fresh) + Stats.failedScrapes (stats fresh)) in
  default 0 (last (cursors (events r))) - 0 <= counted_more /\
  counted_more <= Z.of_nat (fetched (events r)).
Proof.
  apply (counted_between_cursor_and_fetched remote250 config_test 5 "TEST"
           (zero_state "TEST" (now remote250 0)) fresh).
  vm_compute. reflexivity.
Defined.

Lemma scrapeProjects_footprint_witness :
  files (final (scrapeProjects remote250 config_test 5 fresh)) !! "./notes.txt" =
  files fresh !! "./notes.txt".
Proof.
  apply (scrapeProjects_footprint remote250 config_test 5 fresh "./notes.txt").
  intros project Hin. apply list_elem_of_singleton in Hin. subst project.
  split; intros H; vm_compute in H; discriminate H.
Defined.

Lemma stripHtmlTags_plain_text_witness :
  Html.stripHtmlTags (Some "  plain text  ") = Html.trim "  plain text  ".
Proof. apply HtmlFacts.stripHtmlTags_plain_text; reflexivity. Defined.

Lemma stripHtmlTags_leaves_no_tag_witness :
  Html.has_tag (Html.stripHtmlTags (Some "<p>a > b</p>")) = false.
Proof. apply HtmlFacts.stripHtmlTags_leaves_no_tag. reflexivity. Defined.

Lemma getEnvArray_names_witness :
  Forall (fun name => name <> EmptyString /\ Config.has_sep Config.comma name = false)
    ["HADOOP"; "KAFKA"].
Proof.
  apply (ConfigFacts.getEnvArray_names {[ "JIRA_PROJECTS" := "HADOOP,,KAFKA," ]}
           "JIRA_PROJECTS").
  vm_compute. reflexivity.
Defined.

Lemma getEnvArray_of_joined_witness :
  Config.getEnvArray (<["JIRA_PROJECTS" := Config.join ["HADOOP"; "KAFKA"; "SPARK"]]> ∅)
    "JIRA_PROJECTS" = inr ["HADOOP"; "KAFKA"; "SPARK"].
Proof.
  apply ConfigFacts.getEnvArray_of_joined.
  - discriminate.
  - repeat constructor; discriminate.
Defined.

(** The run of the 250 issues, for the statistics and the files. *)
Example fresh_run_of_250 :
  let r := scrapeProjects remote250 config_test 5 fresh in
  length (appended (events r)) = 166%nat /\
  fetched (events r) = 250%nat /\
  Stats.successfulScrapes (stats (final r)) = 166 /\
  Stats.totalIssues (stats (final r)) = 166 /\
  Stats.failedScrapes (stats (final r)) = 84 /\
  told (events r) = [0; 100; 200] /\
  cursors (events r) = [100; 200; 250].
Proof. vm_compute. repeat split; reflexivity. Qed.

(** The project that does not exist, with a listener for 'error' and
    without one: the error is told and thrown, or told to nobody and
    the error of the unheard event thrown; the next project is scraped
    either way. *)
Example broken_project_heard :
  let r := scrapeProjects one_broken config_two 10 fresh in
  exists cause,
    fetch_errors (events r) = [("BROKEN", 0, cause)] /\
    project_errors (events r) = [("BROKEN", cause)] /\
    started (events r) = ["BROKEN"; "TEST"].
Proof. vm_compute. eexists. repeat split. Qed.

Example broken_project_unheard :
  let r := scrapeProjects one_broken_unheard config_two 10 fresh in
  exists cause,
    fetch_errors (events r) = [("BROKEN", 0, cause)] /\
    project_errors (events r) = [("BROKEN", UnhandledError "BROKEN" 0 cause)] /\
    started (events r) = ["BROKEN"; "TEST"].
Proof. vm_compute. eexists. repeat split. Qed.

End MoreRuns.
